(** * edge-wise: the graph-metrics engine and the shortcut-search engine

    A shallow embedding of [smallworld/core/metrics.py],
    [smallworld/core/shortcut_optimizer.py] and the graph operations of
    [smallworld/core/graph_builder.py].

    - Python floats are modelled by exact rationals ([Q]); rounding, NaN and
      infinities are outside the model.  Where Python would raise
      ZeroDivisionError, the division of [Q] returns 0.
    - A [networkx.DiGraph] is a mutable object: graphs live in a store and
      the calculator and the optimizer hold references to them, so that
      aliasing and in-place mutation ([add_edge]) are visible.
    - The graph algorithms of networkx and the numeric routines of numpy are
      external to the repository.  The program is written against the
      interfaces [nx.Algorithms] and [np.Numeric]; an exact-arithmetic
      implementation of both ([Reference]) is used to run the program on
      concrete graphs. *)

From Stdlib Require Import QArith Qminmax Qround Qabs Lqa ZArith Lia Sorted.
From stdpp Require Import gmap strings list.

(** ** Numbers *)

(** Python's [x < y] and [x >= y] on floats. *)
Definition Qlt_bool (x y : Q) : bool := negb (Qle_bool y x).
Definition Qge_bool (x y : Q) : bool := Qle_bool y x.
Definition Qgt_bool (x y : Q) : bool := negb (Qle_bool x y).

Definition QofNat (n : nat) : Q := inject_Z (Z.of_nat n).

(** [sum(xs)] and [max(xs, default=d)] of Python. *)
Definition Qsum (xs : list Q) : Q := foldl Qplus 0%Q xs.

Definition py_max_default (d : Q) (xs : list Q) : Q :=
  match xs with
  | [] => d
  | x :: xs' => foldl (λ m y, if Qgt_bool y m then y else m) x xs'
  end.

(** [max(xs, key=len)]: the first element of maximal length; [None] stands
    for the ValueError raised on an empty sequence. *)
Definition py_max_len {A} (xs : list (list A)) : option (list A) :=
  match xs with
  | [] => None
  | x :: xs' =>
      Some (foldl (λ m y, if (length m <? length y)%nat then y else m) x xs')
  end.

(** [xs[:k]] for a Python int [k]. *)
Definition py_slice_to {A} (k : Z) (xs : list A) : list A :=
  if (0 <=? k)%Z then take (Z.to_nat k) xs
  else take (length xs - Z.to_nat (- k)) xs.

(** ** Graphs (networkx.DiGraph) *)

(** The value stored under the key "zone" of a node: [None] or a str. *)
Inductive zone_value := ZoneNone | ZoneStr (z : string).

#[global] Instance zone_value_eq_dec : EqDecision zone_value.
Proof. solve_decision. Defined.

(** Node attribute dict, as filled in by [GraphBuilder._add_service_node];
    a field is [None] when the key is absent (nodes created by an edge have
    no attributes). *)
Record NodeAttrs := {
  attr_replicas : option Z;
  attr_tags : option (list string);
  attr_criticality : option string;
  attr_zone : option zone_value;
}.

Definition no_node_attrs : NodeAttrs :=
  {| attr_replicas := None; attr_tags := None;
     attr_criticality := None; attr_zone := None |}.

(** Edge attribute dict; a field is [None] when the key is absent. *)
Record EdgeAttrs := {
  attr_weight : option Q;
  attr_call_rate : option Q;
  attr_p50_latency : option Q;
  attr_p95_latency : option Q;
  attr_error_rate : option Q;
  attr_cost : option Q;
  attr_is_shortcut : option bool;
}.

Module nx.

(** Nodes in insertion order with their attributes; edges in insertion
    order, at most one per ordered pair. *)
Record DiGraph := {
  node_data : list (string * NodeAttrs);
  edge_data : list (string * string * EdgeAttrs);
}.

Definition empty : DiGraph := {| node_data := []; edge_data := [] |}.

(** [list(G.nodes())] *)
Definition nodes (g : DiGraph) : list string := (node_data g).*1.

Definition number_of_nodes (g : DiGraph) : nat := length (node_data g).
Definition number_of_edges (g : DiGraph) : nat := length (edge_data g).

Definition has_node (g : DiGraph) (n : string) : bool :=
  bool_decide (n ∈ nodes g).

Definition has_edge (g : DiGraph) (u v : string) : bool :=
  bool_decide ((u, v) ∈ (edge_data g).*1).

(** [G.nodes[n]]; the empty dict stands in for the KeyError of a name
    that is not a node. *)
Definition node_attrs (g : DiGraph) (n : string) : NodeAttrs :=
  default no_node_attrs
    ((list_to_map (node_data g) : gmap string NodeAttrs) !! n).

(** [G.edges(data=True)]: grouped by source, sources in node order. *)
Definition edges (g : DiGraph) : list (string * string * EdgeAttrs) :=
  n ← nodes g; filter (λ e, e.1.1 = n) (edge_data g).

Definition successors (g : DiGraph) (u : string) : list string :=
  (filter (λ e, e.1.1 = u) (edge_data g)).*1.*2.

Definition predecessors (g : DiGraph) (v : string) : list string :=
  (filter (λ e, e.1.2 = v) (edge_data g)).*1.*1.

(** [dict(G.in_degree())] and [dict(G.out_degree())] *)
Definition in_degree (g : DiGraph) : gmap string nat :=
  list_to_map ((λ n, (n, length (predecessors g n))) <$> nodes g).

Definition out_degree (g : DiGraph) : gmap string nat :=
  list_to_map ((λ n, (n, length (successors g n))) <$> nodes g).

(** [G.add_node(n)] without attributes: a no-op on an existing node. *)
Definition add_node (n : string) (g : DiGraph) : DiGraph :=
  if has_node g n then g
  else {| node_data := node_data g ++ [(n, no_node_attrs)];
          edge_data := edge_data g |}.

(** [G.add_node(n, **attr)]: creates the node, or updates the attributes
    of an existing one. *)
Definition update_node_attrs (old new : NodeAttrs) : NodeAttrs :=
  {| attr_replicas := attr_replicas new ∪ attr_replicas old;
     attr_tags := attr_tags new ∪ attr_tags old;
     attr_criticality := attr_criticality new ∪ attr_criticality old;
     attr_zone := attr_zone new ∪ attr_zone old |}.

Definition add_node_with (n : string) (attr : NodeAttrs) (g : DiGraph)
    : DiGraph :=
  if has_node g n then
    {| node_data :=
         (λ p, if decide (p.1 = n) then (n, update_node_attrs p.2 attr)
               else p) <$> node_data g;
       edge_data := edge_data g |}
  else {| node_data := node_data g ++ [(n, attr)];
          edge_data := edge_data g |}.

(** [datadict.update(attr)] *)
Definition update_attrs (old new : EdgeAttrs) : EdgeAttrs :=
  {| attr_weight := attr_weight new ∪ attr_weight old;
     attr_call_rate := attr_call_rate new ∪ attr_call_rate old;
     attr_p50_latency := attr_p50_latency new ∪ attr_p50_latency old;
     attr_p95_latency := attr_p95_latency new ∪ attr_p95_latency old;
     attr_error_rate := attr_error_rate new ∪ attr_error_rate old;
     attr_cost := attr_cost new ∪ attr_cost old;
     attr_is_shortcut := attr_is_shortcut new ∪ attr_is_shortcut old |}.

(** [G.add_edge(u, v, **attr)]: creates missing end points, and updates
    the attributes in place when the edge exists. *)
Definition add_edge (u v : string) (attr : EdgeAttrs) (g : DiGraph)
    : DiGraph :=
  let g := add_node v (add_node u g) in
  {| node_data := node_data g;
     edge_data :=
       if has_edge g u v then
         (λ e, if decide (e.1 = (u, v)) then (e.1, update_attrs e.2 attr)
               else e) <$> edge_data g
       else edge_data g ++ [(u, v, attr)] |}.

(** [G.remove_edge(u, v)]: the nodes stay; [None] is the NetworkXError
    raised when the edge is not in the graph. *)
Definition remove_edge (u v : string) (g : DiGraph) : option DiGraph :=
  if has_edge g u v then
    Some {| node_data := node_data g;
            edge_data := filter (λ e, e.1 ≠ (u, v)) (edge_data g) |}
  else None.

(** [G.subgraph(ns)]: the induced subgraph. *)
Definition subgraph (g : DiGraph) (ns : list string) : DiGraph :=
  {| node_data := filter (λ p, p.1 ∈ ns) (node_data g);
     edge_data := filter (λ e, e.1.1 ∈ ns ∧ e.1.2 ∈ ns) (edge_data g) |}.

(** An undirected graph ([networkx.Graph]), as [to_undirected] returns
    it: an edge joins [u] and [v] when either direction is present. *)
Record Graph := {
  unodes : list string;
  uedges : list (string * string);
}.

Definition to_undirected (g : DiGraph) : Graph :=
  {| unodes := nodes g; uedges := (edge_data g).*1 |}.

Definition neighbors (g : Graph) (v : string) : list string :=
  filter (λ u, u ≠ v ∧ ((u, v) ∈ uedges g ∨ (v, u) ∈ uedges g)) (unodes g).

(** What a library call that raised an exception raised. *)
Inductive exn := NetworkXNoPath | Exception.

Inductive outcome (A : Type) :=
| Returns (a : A)
| Raises (e : exn).
Arguments Returns {A} a.
Arguments Raises {A} e.

(** The algorithms of networkx the program calls.  A result of type
    [option] is [None] when the call raises an exception. *)
Class Algorithms := {
  (** [shortest_path_length(G, source, target)] between two nodes of
      [G]; [None] is NetworkXNoPath. *)
  shortest_path_length : DiGraph → string → string → option nat;
  single_source_shortest_path_length : DiGraph → string → gmap string nat;
  single_source_dijkstra_path_length :
    DiGraph → string → outcome (gmap string Q);
  is_weakly_connected : DiGraph → option bool;
  is_strongly_connected : DiGraph → option bool;
  strongly_connected_components : DiGraph → list (list string);
  number_weakly_connected_components : DiGraph → nat;
  number_strongly_connected_components : DiGraph → nat;
  average_shortest_path_length : DiGraph → option Q;
  diameter : DiGraph → option nat;
  betweenness_centrality : DiGraph → option (gmap string Q);
  closeness_centrality : DiGraph → option (gmap string Q);
  clustering : Graph → option (gmap string Q);
  average_clustering : Graph → option Q;
  pagerank : DiGraph → Q → option (gmap string Q);
  (** Betweenness is a sum of path fractions. *)
  betweenness_centrality_nonneg g b :
    betweenness_centrality g = Some b →
    map_Forall (λ _ x, (0 <= x)%Q) b;
}.

End nx.

Module np.

Class Numeric := {
  (** [np.log] on floats, which are rationals. *)
  log : Q → Q;
  (** [np.percentile(a, q)] with linear interpolation, [a] non-empty. *)
  percentile : list Q → Q → Q;
  (** [np.mean(a)], [a] non-empty. *)
  mean : list Q → Q;
  log_pos x : (1 < x)%Q → (0 < log x)%Q;
}.

End np.

(** ** graph_builder.py: how the graphs the engine is given are built *)

Module GraphBuilder.

Record ServiceData := {
  name : string;
  replicas : Z;
  tags : list string;
  criticality : string;
  zone : option string;
}.

Record EdgeData := {
  source : string;
  target : string;
  call_rate : Q;
  p50_latency : Q;
  p95_latency : Q;
  error_rate : Q;
  cost : Q;
}.

Definition _add_service_node (service : ServiceData) (g : nx.DiGraph)
    : nx.DiGraph :=
  nx.add_node_with (name service)
    {| attr_replicas := Some (replicas service);
       attr_tags := Some (tags service);
       attr_criticality := Some (criticality service);
       attr_zone :=
         Some match zone service with
              | Some z => ZoneStr z
              | None => ZoneNone
              end |} g.

Definition _add_dependency_edge (edge : EdgeData) (g : nx.DiGraph)
    : nx.DiGraph :=
  let g := if nx.has_node g (source edge) then g
           else nx.add_node (source edge) g in
  let g := if nx.has_node g (target edge) then g
           else nx.add_node (target edge) g in
  nx.add_edge (source edge) (target edge)
    {| attr_weight :=
         Some (if Qgt_bool (p50_latency edge) 0 then p50_latency edge
               else 1%Q);
       attr_call_rate := Some (call_rate edge);
       attr_p50_latency := Some (p50_latency edge);
       attr_p95_latency := Some (p95_latency edge);
       attr_error_rate := Some (error_rate edge);
       attr_cost := Some (cost edge);
       attr_is_shortcut := None |} g.

(** [build_from_topology]: the services first, then the edges. *)
Definition build_from_topology (services : list ServiceData)
    (edges : list EdgeData) : nx.DiGraph :=
  foldl (λ g edge, _add_dependency_edge edge g)
        (foldl (λ g service, _add_service_node service g) nx.empty services)
        edges.

(** The other methods, as functions of the builder's graph; a method that
    changes the graph returns its new value with its result. *)
Definition get_node_count (g : nx.DiGraph) : nat := nx.number_of_nodes g.

Definition get_edge_count (g : nx.DiGraph) : nat := nx.number_of_edges g.

Definition has_node (g : nx.DiGraph) (name : string) : bool :=
  nx.has_node g name.

Definition has_edge (g : nx.DiGraph) (source target : string) : bool :=
  nx.has_edge g source target.

Definition get_neighbors (g : nx.DiGraph) (node : string) : list string :=
  if negb (nx.has_node g node) then [] else nx.successors g node.

Definition get_predecessors (g : nx.DiGraph) (node : string) : list string :=
  if negb (nx.has_node g node) then [] else nx.predecessors g node.

Definition add_shortcut_edge (source target : string)
    (call_rate p50_latency p95_latency error_rate cost : Q) (g : nx.DiGraph)
    : bool * nx.DiGraph :=
  if has_edge g source target then (false, g)
  else
    (true,
     nx.add_edge source target
       {| attr_weight :=
            Some (if Qgt_bool p50_latency 0 then p50_latency else 1%Q);
          attr_call_rate := Some call_rate;
          attr_p50_latency := Some p50_latency;
          attr_p95_latency := Some p95_latency;
          attr_error_rate := Some error_rate;
          attr_cost := Some cost;
          attr_is_shortcut := Some true |} g).

(** [None] when [G.remove_edge] raises. *)
Definition remove_edge (source target : string) (g : nx.DiGraph)
    : option (bool * nx.DiGraph) :=
  if negb (has_edge g source target) then Some (false, g)
  else
    g' ← nx.remove_edge source target g;
    Some (true, g').

End GraphBuilder.

(** ** The object store *)

(** Python variables hold references to graph objects.  A store maps a
    reference to the current value of the object; a computation threads
    the store. *)
Abbreviation ref := nat (only parsing).
Abbreviation store := (list nx.DiGraph) (only parsing).
Definition M (A : Type) : Type := store → A * store.

Definition ret {A} (a : A) : M A := λ s, (a, s).

Definition bind {A B} (m : M A) (k : A → M B) : M B :=
  λ s, let (a, s') := m s in k a s'.

Notation "'let!' x := m 'in' k" := (bind m (λ x, k))
  (at level 10, x name, m at level 100, k at level 200).
Notation "'let!' ' p := m 'in' k" := (bind m (λ x, match x with p => k end))
  (at level 10, p pattern, m at level 100, k at level 200).

(** Reading the object behind a reference. *)
Definition deref (r : ref) : M nx.DiGraph :=
  λ s, (default nx.empty (s !! r), s).

(** Creating a new object. *)
Definition new (g : nx.DiGraph) : M ref := λ s, (length s, s ++ [g]).

(** Mutating an object in place. *)
Definition mutate (f : nx.DiGraph → nx.DiGraph) (r : ref) : M unit :=
  λ s, (tt, alter f r s).

(** [G.copy()]: a new graph object with the same nodes, edges and
    attributes. *)
Definition graph_copy (r : ref) : M ref := let! g := deref r in new g.

(** [G.add_edge(u, v, **attr)] on the object behind [r]. *)
Definition graph_add_edge (r : ref) (u v : string) (attr : EdgeAttrs)
    : M unit :=
  mutate (nx.add_edge u v attr) r.

(** [G.remove_edge(u, v)] on the object behind [r]; [None] when it
    raises. *)
Definition graph_remove_edge (r : ref) (u v : string) : M (option unit) :=
  let! g := deref r in
  match nx.remove_edge u v g with
  | Some g' => let! _ := mutate (λ _, g') r in ret (Some tt)
  | None => ret None
  end.

(** [for x in xs: acc = body(acc, x)] *)
Fixpoint for_each {A B} (xs : list A) (acc : B) (body : B → A → M B) : M B :=
  match xs with
  | [] => ret acc
  | x :: xs' => let! acc' := body acc x in for_each xs' acc' body
  end.

(** ** metrics.py *)

Record NodeMetrics := {
  name : string;
  in_degree : nat;
  out_degree : nat;
  total_degree : nat;
  betweenness_centrality : Q;
  closeness_centrality : Q;
  clustering_coefficient : Q;
  pagerank : Q;
  incoming_load : Q;
  outgoing_load : Q;
  is_hub : bool;
  is_bottleneck : bool;
  vulnerability_score : Q;
}.

Record GraphMetrics := {
  node_count : nat;
  edge_count : nat;
  density : Q;
  average_path_length : Q;
  weighted_average_path_length : Q;
  diameter : nat;
  average_clustering : Q;
  is_connected : bool;
  strongly_connected_components : nat;
  weakly_connected_components : nat;
  max_betweenness : Q;
  total_load : Q;
  hub_count : nat;
  bottleneck_count : nat;
  small_world_coefficient : Q;
}.

(** [GraphMetrics()] *)
Definition GraphMetrics_default : GraphMetrics :=
  {| node_count := 0; edge_count := 0; density := 0;
     average_path_length := 0; weighted_average_path_length := 0;
     diameter := 0; average_clustering := 0; is_connected := false;
     strongly_connected_components := 0; weakly_connected_components := 0;
     max_betweenness := 0; total_load := 0; hub_count := 0;
     bottleneck_count := 0; small_world_coefficient := 0 |}.

(** [{n: v(n) for n in ns}] *)
Definition dict_of_keys {A} (ns : list string) (v : string → A)
    : gmap string A :=
  list_to_map ((λ n, (n, v n)) <$> ns).

(** [d.values()], in the order of the keys rather than of insertion: the
    program sums, maximises and sorts the values. *)
Definition values {A} (d : gmap string A) : list A := (map_to_list d).*2.

(** [d.get(k, x)] *)
Definition get {A} (d : gmap string A) (k : string) (x : A) : A :=
  default x (d !! k).

(** The loop over the items of a shortest-path dict in both
    path-length averages: [if source != target: total += length;
    count += 1]. *)
Definition add_lengths {A} (to_float : A → Q) (source : string)
    (lengths : gmap string A) (acc : Q * nat) : Q * nat :=
  map_fold (λ target length acc,
              if decide (source ≠ target)
              then ((acc.1 + to_float length)%Q, S acc.2) else acc)
           acc lengths.

Module MetricsCalculator.

Record t := {
  graph : ref;
  hub_threshold : Q;
  bottleneck_threshold : Q;
}.

(** [MetricsCalculator(graph=r)] *)
Definition make (r : ref) : t :=
  {| graph := r; hub_threshold := 0.7; bottleneck_threshold := 0.8 |}.

Section methods.
Context `{!nx.Algorithms, !np.Numeric}.

Definition _calculate_incoming_load (self : t) : M (gmap string Q) :=
  let! g := deref (graph self) in
  ret (foldl (λ load e,
                let call_rate := default 0%Q (attr_call_rate e.2) in
                alter (λ x, x + call_rate)%Q e.1.2 load)
             (dict_of_keys (nx.nodes g) (λ _, 0%Q)) (nx.edges g)).

Definition _calculate_outgoing_load (self : t) : M (gmap string Q) :=
  let! g := deref (graph self) in
  ret (foldl (λ load e,
                let call_rate := default 0%Q (attr_call_rate e.2) in
                alter (λ x, x + call_rate)%Q e.1.1 load)
             (dict_of_keys (nx.nodes g) (λ _, 0%Q)) (nx.edges g)).

Definition _calculate_node_metrics (self : t) : M (gmap string NodeMetrics) :=
  let! g := deref (graph self) in
  let in_degrees := nx.in_degree g in
  let out_degrees := nx.out_degree g in
  let betweenness :=
    match nx.betweenness_centrality g with
    | Some b => b
    | None => dict_of_keys (nx.nodes g) (λ _, 0%Q)
    end in
  let closeness :=
    match nx.closeness_centrality g with
    | Some c => c
    | None => dict_of_keys (nx.nodes g) (λ _, 0%Q)
    end in
  let undirected := nx.to_undirected g in
  let clustering :=
    match nx.clustering undirected with
    | Some c => c
    | None => dict_of_keys (nx.nodes g) (λ _, 0%Q)
    end in
  let pagerank :=
    match nx.pagerank g 0.85 with
    | Some p => p
    | None =>
        dict_of_keys (nx.nodes g) (λ _, 1 / QofNat (nx.number_of_nodes g))%Q
    end in
  let! incoming_load := _calculate_incoming_load self in
  let! outgoing_load := _calculate_outgoing_load self in
  ret (foldl (λ metrics node,
                <[node :=
                  {| name := node;
                     in_degree := get in_degrees node 0;
                     out_degree := get out_degrees node 0;
                     total_degree :=
                       get in_degrees node 0 + get out_degrees node 0;
                     betweenness_centrality := get betweenness node 0%Q;
                     closeness_centrality := get closeness node 0%Q;
                     clustering_coefficient := get clustering node 0%Q;
                     pagerank := get pagerank node 0%Q;
                     incoming_load := get incoming_load node 0%Q;
                     outgoing_load := get outgoing_load node 0%Q;
                     is_hub := false;
                     is_bottleneck := false;
                     vulnerability_score := 0 |}]> metrics)
             ∅ (nx.nodes g)).

(** The body of the [try] of [_calculate_average_path_length]; [None] when
    an exception is raised. *)
Definition try_average_path_length (g : nx.DiGraph) : option Q :=
  let all_reachable_pairs :=
    let '(total_length, count) :=
      foldl (λ acc source,
               add_lengths QofNat source
                 (nx.single_source_shortest_path_length g source) acc)
            (0%Q, 0) (nx.nodes g) in
    Some (if (0 <? count)%nat then total_length / QofNat count else 0)%Q in
  weakly ← nx.is_weakly_connected g;
  if weakly : bool then
    largest_scc ← py_max_len (nx.strongly_connected_components g);
    if (1 <? length largest_scc)%nat
    then nx.average_shortest_path_length (nx.subgraph g largest_scc)
    else all_reachable_pairs
  else all_reachable_pairs.

Definition _calculate_average_path_length (self : t) : M Q :=
  let! g := deref (graph self) in
  ret (default 0%Q (try_average_path_length g)).

(** The body of the outer [try] of
    [_calculate_weighted_average_path_length]; the inner [try] skips a
    source on NetworkXNoPath. *)
Definition try_weighted_average_path_length (g : nx.DiGraph) : option Q :=
  '(total_length, count) ←
    foldl (λ acc source,
             acc ← acc;
             match nx.single_source_dijkstra_path_length g source with
             | nx.Returns lengths => Some (add_lengths id source lengths acc)
             | nx.Raises nx.NetworkXNoPath => Some acc
             | nx.Raises nx.Exception => None
             end)
          (Some (0%Q, 0)) (nx.nodes g);
  Some (if (0 <? count)%nat then total_length / QofNat count else 0)%Q.

Definition _calculate_weighted_average_path_length (self : t) : M Q :=
  let! g := deref (graph self) in
  ret (default 0%Q (try_weighted_average_path_length g)).

Definition try_diameter (g : nx.DiGraph) : option nat :=
  strongly ← nx.is_strongly_connected g;
  if strongly : bool then nx.diameter g
  else
    largest_scc ← py_max_len (nx.strongly_connected_components g);
    if (1 <? length largest_scc)%nat
    then nx.diameter (nx.subgraph g largest_scc)
    else Some 0.

Definition _calculate_diameter (self : t) : M nat :=
  let! g := deref (graph self) in
  ret (default 0 (try_diameter g)).

Definition _calculate_small_world_coefficient
    (clustering path_length : Q) (n m : Z) : Q :=
  if Qeq_bool path_length 0 || (n <? 3)%Z then 0%Q
  else
    let p :=
      if (1 <? n)%Z then (inject_Z m / inject_Z (n * (n - 1)))%Q else 0%Q in
    let random_clustering := p in
    let avg_degree :=
      if (0 <? n)%Z then (inject_Z (2 * m) / inject_Z n)%Q else 0%Q in
    let random_path_length :=
      if Qgt_bool avg_degree 1
      then (np.log (inject_Z n) / np.log avg_degree)%Q
      else (inject_Z n / 2)%Q in
    if Qeq_bool random_clustering 0 || Qeq_bool random_path_length 0 then 0%Q
    else
      let gamma :=
        if Qgt_bool random_clustering 0
        then (clustering / random_clustering)%Q else 0%Q in
      let lambda_ratio := (path_length / random_path_length)%Q in
      (gamma / lambda_ratio)%Q.

Definition _calculate_graph_metrics (self : t)
    (node_metrics : gmap string NodeMetrics) : M GraphMetrics :=
  let! g := deref (graph self) in
  let n := nx.number_of_nodes g in
  let m := nx.number_of_edges g in
  if (n =? 0)%nat then ret GraphMetrics_default
  else
    let max_edges := (n * (n - 1))%nat in
    let density :=
      if (0 <? max_edges)%nat then (QofNat m / QofNat max_edges)%Q else 0%Q in
    let! avg_path_length := _calculate_average_path_length self in
    let! weighted_avg_path_length :=
      _calculate_weighted_average_path_length self in
    let! diameter := _calculate_diameter self in
    let undirected := nx.to_undirected g in
    let avg_clustering := default 0%Q (nx.average_clustering undirected) in
    let weakly_connected := nx.number_weakly_connected_components g in
    let strongly_connected := nx.number_strongly_connected_components g in
    let is_connected := (weakly_connected =? 1)%nat in
    let max_betweenness :=
      py_max_default 0 (betweenness_centrality <$> values node_metrics) in
    let total_load := Qsum (incoming_load <$> values node_metrics) in
    let small_world_coef :=
      _calculate_small_world_coefficient avg_clustering avg_path_length
        (Z.of_nat n) (Z.of_nat m) in
    ret {| node_count := n;
           edge_count := m;
           density := density;
           average_path_length := avg_path_length;
           weighted_average_path_length := weighted_avg_path_length;
           diameter := diameter;
           average_clustering := avg_clustering;
           is_connected := is_connected;
           strongly_connected_components := strongly_connected;
           weakly_connected_components := weakly_connected;
           max_betweenness := max_betweenness;
           total_load := total_load;
           hub_count := 0;
           bottleneck_count := 0;
           small_world_coefficient := small_world_coef |}.

Definition _calculate_vulnerability (nm : NodeMetrics) : Q :=
  let betweenness_factor := betweenness_centrality nm in
  let load_factor := (incoming_load nm + outgoing_load nm)%Q in
  let max_load := 10000%Q in
  let normalized_load := Qmin (load_factor / max_load) 1 in
  (0.6 * betweenness_factor + 0.4 * normalized_load)%Q.

(** The method mutates the NodeMetrics objects of the dict and the
    GraphMetrics object it is given; here it returns their new values. *)
Definition _identify_hubs_and_bottlenecks (self : t)
    (node_metrics : gmap string NodeMetrics) (graph_metrics : GraphMetrics)
    : gmap string NodeMetrics * GraphMetrics :=
  if bool_decide (node_metrics = ∅) then (node_metrics, graph_metrics)
  else
    let degrees := (λ nm, QofNat (total_degree nm)) <$> values node_metrics in
    let betweenness_values := betweenness_centrality <$> values node_metrics in
    let hub_degree_threshold :=
      np.percentile degrees (hub_threshold self * 100) in
    let bottleneck_threshold :=
      np.percentile betweenness_values (bottleneck_threshold self * 100) in
    let hub nm := Qge_bool (QofNat (total_degree nm)) hub_degree_threshold in
    let bottleneck nm :=
      Qge_bool (betweenness_centrality nm) bottleneck_threshold in
    let visit nm :=
      {| name := name nm;
         in_degree := in_degree nm;
         out_degree := out_degree nm;
         total_degree := total_degree nm;
         betweenness_centrality := betweenness_centrality nm;
         closeness_centrality := closeness_centrality nm;
         clustering_coefficient := clustering_coefficient nm;
         pagerank := pagerank nm;
         incoming_load := incoming_load nm;
         outgoing_load := outgoing_load nm;
         is_hub := if hub nm then true else is_hub nm;
         is_bottleneck := if bottleneck nm then true else is_bottleneck nm;
         vulnerability_score := _calculate_vulnerability nm |} in
    (visit <$> node_metrics,
     {| node_count := node_count graph_metrics;
        edge_count := edge_count graph_metrics;
        density := density graph_metrics;
        average_path_length := average_path_length graph_metrics;
        weighted_average_path_length :=
          weighted_average_path_length graph_metrics;
        diameter := diameter graph_metrics;
        average_clustering := average_clustering graph_metrics;
        is_connected := is_connected graph_metrics;
        strongly_connected_components :=
          strongly_connected_components graph_metrics;
        weakly_connected_components :=
          weakly_connected_components graph_metrics;
        max_betweenness := max_betweenness graph_metrics;
        total_load := total_load graph_metrics;
        hub_count := length (filter (λ nm, hub nm) (values node_metrics));
        bottleneck_count :=
          length (filter (λ nm, bottleneck nm) (values node_metrics));
        small_world_coefficient := small_world_coefficient graph_metrics |}).

Definition calculate_all (self : t)
    : M (GraphMetrics * gmap string NodeMetrics) :=
  let! g := deref (graph self) in
  if (nx.number_of_nodes g =? 0)%nat then ret (GraphMetrics_default, ∅)
  else
    let! node_metrics := _calculate_node_metrics self in
    let! graph_metrics := _calculate_graph_metrics self node_metrics in
    let '(node_metrics, graph_metrics) :=
      _identify_hubs_and_bottlenecks self node_metrics graph_metrics in
    ret (graph_metrics, node_metrics).

Definition get_objective_value (self : t) (alpha beta gamma : Q) : M Q :=
  let! '(graph_metrics, node_metrics) := calculate_all self in
  let! g := deref (graph self) in
  let total_cost :=
    Qsum ((λ e, default 0%Q (attr_cost e.2)) <$> nx.edges g) in
  ret (alpha * average_path_length graph_metrics +
       beta * max_betweenness graph_metrics +
       gamma * total_cost)%Q.

End methods.
End MetricsCalculator.

(** ** shortcut_optimizer.py *)

Inductive OptimizationGoal := LATENCY | PATHS | LOAD | BALANCED.

(** One clause of the rationale text; the magnitude is the number the text
    prints.  The text itself (f-string formatting of floats) is not
    modelled. *)
Inductive reason :=
| ReducesAveragePathLength (by_ : Q)
| ReducesMaxBetweenness (by_ : Q)
| ReducesWeightedPathLength (by_ : Q)
| MinorOptimizationBenefit.

Record ShortcutCandidate := {
  source : string;
  target : string;
  delta_objective : Q;
  delta_path_length : Q;
  delta_max_betweenness : Q;
  delta_weighted_path_length : Q;
  risk_score : Q;
  confidence : Q;
  score : Q;
  rationale : list reason;
  estimated_latency : Q;
  estimated_call_rate : Q;
}.

Record PolicyConstraints := {
  forbidden_pairs : list (string * string);
  allowed_zones : gmap string (list string);
  max_new_edges_per_service : Z;
  require_same_zone : bool;
  min_path_length_to_shortcut : Z;
}.

(** [PolicyConstraints()] *)
Definition PolicyConstraints_default : PolicyConstraints :=
  {| forbidden_pairs := []; allowed_zones := ∅;
     max_new_edges_per_service := 3; require_same_zone := false;
     min_path_length_to_shortcut := 2 |}.

(** [G.nodes[n].get("zone", "")] *)
Definition zone_of (g : nx.DiGraph) (n : string) : zone_value :=
  default (ZoneStr "") (attr_zone (nx.node_attrs g n)).

(** Truth value of a zone: [None] and the empty string are false. *)
Definition truthy (z : zone_value) : bool :=
  match z with
  | ZoneNone => false
  | ZoneStr s => bool_decide (s ≠ "")
  end.

(** [allowed_zones[z]] when [z in allowed_zones]; the keys are strings. *)
Definition zone_entry (allowed : gmap string (list string)) (z : zone_value)
    : option (list string) :=
  match z with
  | ZoneNone => None
  | ZoneStr s => allowed !! s
  end.

(** [z in zones] for a list of strings. *)
Definition zone_in (z : zone_value) (zones : list string) : bool :=
  match z with
  | ZoneNone => false
  | ZoneStr s => bool_decide (s ∈ zones)
  end.

(** [evaluated.sort(key=lambda c: c.score, reverse=True)]: a stable sort,
    highest score first. *)
Fixpoint insert_by_score (c : ShortcutCandidate) (l : list ShortcutCandidate)
    : list ShortcutCandidate :=
  match l with
  | [] => [c]
  | y :: l' =>
      if Qle_bool (score y) (score c) then c :: y :: l'
      else y :: insert_by_score c l'
  end.

Definition sort_by_score (l : list ShortcutCandidate)
    : list ShortcutCandidate :=
  foldr insert_by_score [] l.

(** The dict [get_removal_candidates] builds for an edge; the rationale is
    a text that prints the impact, which is the number kept here. *)
Inductive removal_reason := MinimalImpact (delta : Q).

Module Removal.

Record t := {
  source : string;
  target : string;
  impact : Q;
  call_rate : Q;
  rationale : removal_reason;
}.

End Removal.

(** [removal_candidates.sort(key=lambda x: x["impact"])]: a stable sort,
    lowest impact first. *)
Fixpoint insert_by_impact (c : Removal.t) (l : list Removal.t)
    : list Removal.t :=
  match l with
  | [] => [c]
  | y :: l' =>
      if Qle_bool (Removal.impact c) (Removal.impact y) then c :: y :: l'
      else y :: insert_by_impact c l'
  end.

Definition sort_by_impact (l : list Removal.t) : list Removal.t :=
  foldr insert_by_impact [] l.

Module ShortcutOptimizer.

Record t := {
  graph : ref;
  goal : OptimizationGoal;
  alpha : Q;
  beta : Q;
  gamma : Q;
  epsilon : Q;
}.

(** [ShortcutOptimizer(graph=r)] *)
Definition make (r : ref) : t :=
  {| graph := r; goal := BALANCED; alpha := 1; beta := 1; gamma := 0.1;
     epsilon := 0.01 |}.

(** [set_goal] for a goal given as an enum member; returns the optimizer
    with its new fields. *)
Definition set_goal (self : t) (goal : OptimizationGoal) : t :=
  let '(a, b, c) :=
    match goal with
    | LATENCY => (2, 0.5, 0.1)
    | PATHS => (2, 0.3, 0)
    | LOAD => (0.5, 2, 0.1)
    | BALANCED => (1, 1, 0.1)
    end%Q in
  {| graph := graph self; goal := goal; alpha := a; beta := b; gamma := c;
     epsilon := epsilon self |}.

Section methods.
Context `{!nx.Algorithms, !np.Numeric}.

(** The zone checks of the candidate loop: [true] when the pair is let
    through. *)
Definition same_zone_check (g : nx.DiGraph) (policy : PolicyConstraints)
    (source target : string) : bool :=
  if require_same_zone policy then
    let source_zone := zone_of g source in
    let target_zone := zone_of g target in
    if truthy source_zone && truthy target_zone
       && bool_decide (source_zone ≠ target_zone)
    then false else true
  else true.

Definition allowed_zones_check (g : nx.DiGraph) (policy : PolicyConstraints)
    (source target : string) : bool :=
  if bool_decide (allowed_zones policy ≠ ∅) then
    let source_zone := zone_of g source in
    match zone_entry (allowed_zones policy) source_zone with
    | Some zones =>
        let target_zone := zone_of g target in
        if negb (zone_in target_zone zones) then false else true
    | None => true
    end
  else true.

Definition min_path_length_check (g : nx.DiGraph)
    (policy : PolicyConstraints) (source target : string) : bool :=
  match nx.shortest_path_length g source target with
  | Some path_length =>
      if (Z.of_nat path_length <? min_path_length_to_shortcut policy)%Z
      then false else true
  | None => true
  end.

(** The body of the inner loop: [true] when control reaches
    [candidates.append((source, target))]. *)
Definition appended (g : nx.DiGraph) (policy : PolicyConstraints)
    (source target : string) : bool :=
  if bool_decide (source = target) then false
  else if nx.has_edge g source target then false
  else if bool_decide ((source, target) ∈ forbidden_pairs policy) then false
  else if bool_decide ((target, source) ∈ forbidden_pairs policy) then false
  else if negb (same_zone_check g policy source target) then false
  else if negb (allowed_zones_check g policy source target) then false
  else min_path_length_check g policy source target.

Definition _generate_candidates (self : t) (policy : PolicyConstraints)
    : M (list (string * string)) :=
  let! g := deref (graph self) in
  let nodes := nx.nodes g in
  let edge_counts : gmap string Z := dict_of_keys nodes (λ _, 0%Z) in
  ret (foldl (λ candidates source,
                if (max_new_edges_per_service policy
                      <=? get edge_counts source 0)%Z
                then candidates
                else
                  foldl (λ candidates target,
                           if appended g policy source target
                           then candidates ++ [(source, target)]
                           else candidates)
                        candidates nodes)
             [] nodes).

Definition _calculate_objective (self : t) (metrics : GraphMetrics) : Q :=
  (alpha self * average_path_length metrics +
   beta self * max_betweenness metrics +
   gamma self * 0)%Q.

Definition _estimate_shortcut_latency (self : t) (source target : string)
    : M Q :=
  let! g := deref (graph self) in
  let latencies :=
    (λ e, default 1%Q (attr_p50_latency e.2)) <$>
    filter (λ e, Qgt_bool (default 0%Q (attr_p50_latency e.2)) 0)
           (nx.edges g) in
  if bool_decide (latencies = []) then ret 1%Q
  else
    let avg_latency := np.mean latencies in
    ret (avg_latency * 0.8)%Q.

Definition _calculate_risk_score (source target : string)
    (node_metrics : gmap string NodeMetrics) : Q :=
  let risk := 0%Q in
  let risk :=
    match node_metrics !! target with
    | Some target_metrics =>
        let risk := (risk + betweenness_centrality target_metrics * 0.5)%Q in
        if is_bottleneck target_metrics then (risk + 0.3)%Q else risk
    | None => risk
    end in
  let risk :=
    match node_metrics !! source with
    | Some source_metrics =>
        if is_hub source_metrics then (risk + 0.2)%Q else risk
    | None => risk
    end in
  let risk := (risk + 0.1)%Q in
  Qmin risk 1.

Definition _calculate_confidence (delta_obj : Q)
    (baseline modified : GraphMetrics) : Q :=
  if Qge_bool delta_obj 0 then 0%Q
  else
    let improvement := (- delta_obj)%Q in
    let confidence := Qmin (improvement * 2) 0.5 in
    let confidence :=
      if is_connected baseline then (confidence + 0.2)%Q else confidence in
    let path_reduction :=
      (average_path_length baseline - average_path_length modified)%Q in
    let confidence :=
      if Qgt_bool path_reduction 0.1 then (confidence + 0.2)%Q
      else confidence in
    let betweenness_increase :=
      (max_betweenness modified - max_betweenness baseline)%Q in
    let confidence :=
      if Qgt_bool betweenness_increase 0.1 then (confidence - 0.1)%Q
      else confidence in
    Qmax 0 (Qmin 1 confidence).

Definition _generate_rationale (source target : string)
    (delta_path delta_betweenness delta_weighted : Q) : list reason :=
  let reasons := [] in
  let reasons :=
    if Qlt_bool delta_path (-0.05)
    then reasons ++ [ReducesAveragePathLength (- delta_path)] else reasons in
  let reasons :=
    if Qlt_bool delta_betweenness (-0.01)
    then reasons ++ [ReducesMaxBetweenness (- delta_betweenness)]
    else reasons in
  let reasons :=
    if Qlt_bool delta_weighted (-1)
    then reasons ++ [ReducesWeightedPathLength (- delta_weighted)]
    else reasons in
  if bool_decide (reasons = []) then reasons ++ [MinorOptimizationBenefit]
  else reasons.

(** The attributes of a shortcut edge. *)
Definition shortcut_attrs (latency call_rate : Q) : EdgeAttrs :=
  {| attr_weight := Some latency;
     attr_call_rate := Some call_rate;
     attr_p50_latency := Some latency;
     attr_p95_latency := Some (latency * 2)%Q;
     attr_error_rate := Some 0%Q;
     attr_cost := Some 0%Q;
     attr_is_shortcut := Some true |}.

Definition _evaluate_candidate (self : t) (source target : string)
    (policy : PolicyConstraints) : M (option ShortcutCandidate) :=
  let baseline_calc := MetricsCalculator.make (graph self) in
  let! '(baseline_metrics, baseline_node_metrics) :=
    MetricsCalculator.calculate_all baseline_calc in
  let baseline_obj := _calculate_objective self baseline_metrics in
  let! modified_graph := graph_copy (graph self) in
  let! estimated_latency := _estimate_shortcut_latency self source target in
  let! _ :=
    graph_add_edge modified_graph source target
      (shortcut_attrs estimated_latency 0) in
  let modified_calc := MetricsCalculator.make modified_graph in
  let! '(modified_metrics, modified_node_metrics) :=
    MetricsCalculator.calculate_all modified_calc in
  let modified_obj := _calculate_objective self modified_metrics in
  let delta_obj := (modified_obj - baseline_obj)%Q in
  let delta_path :=
    (average_path_length modified_metrics -
     average_path_length baseline_metrics)%Q in
  let delta_betweenness :=
    (max_betweenness modified_metrics -
     max_betweenness baseline_metrics)%Q in
  let delta_weighted :=
    (weighted_average_path_length modified_metrics -
     weighted_average_path_length baseline_metrics)%Q in
  let risk_score :=
    _calculate_risk_score source target modified_node_metrics in
  let confidence :=
    _calculate_confidence delta_obj baseline_metrics modified_metrics in
  if Qge_bool delta_obj 0 then ret None
  else
    let improvement := (- delta_obj)%Q in
    let score := (improvement / (risk_score + epsilon self))%Q in
    let rationale :=
      _generate_rationale source target delta_path delta_betweenness
        delta_weighted in
    ret (Some {| source := source;
                 target := target;
                 delta_objective := delta_obj;
                 delta_path_length := delta_path;
                 delta_max_betweenness := delta_betweenness;
                 delta_weighted_path_length := delta_weighted;
                 risk_score := risk_score;
                 confidence := confidence;
                 score := score;
                 rationale := rationale;
                 estimated_latency := estimated_latency;
                 estimated_call_rate := 0 |}).

Definition find_shortcuts (self : t) (k : Z)
    (policy : option PolicyConstraints) : M (list ShortcutCandidate) :=
  let! g := deref (graph self) in
  if (nx.number_of_nodes g <? 2)%nat then ret []
  else
    let policy := default PolicyConstraints_default policy in
    let! candidates := _generate_candidates self policy in
    let! evaluated :=
      for_each candidates [] (λ evaluated '(source, target),
        let! candidate := _evaluate_candidate self source target policy in
        match candidate with
        | Some candidate =>
            if Qgt_bool (score candidate) 0
            then ret (evaluated ++ [candidate]) else ret evaluated
        | None => ret evaluated
        end) in
    let evaluated := sort_by_score evaluated in
    ret (py_slice_to k evaluated).

Definition simulate_shortcuts (self : t) (shortcuts : list ShortcutCandidate)
    : M (GraphMetrics * gmap string NodeMetrics) :=
  let! simulated := graph_copy (graph self) in
  let! _ :=
    for_each shortcuts tt (λ _ shortcut,
      graph_add_edge simulated (source shortcut) (target shortcut)
        (shortcut_attrs (estimated_latency shortcut)
           (estimated_call_rate shortcut))) in
  let calc := MetricsCalculator.make simulated in
  MetricsCalculator.calculate_all calc.

(** The body of the loop of [get_removal_candidates] for one edge of the
    graph; [None] when a library call raises, which ends the method. *)
Definition removal_step (self : t) (baseline_obj : Q)
    (removal_candidates : list Removal.t)
    (edge : string * string * EdgeAttrs) : M (option (list Removal.t)) :=
  let '(source, target, data) := edge in
  let! test_graph := graph_copy (graph self) in
  let! removed := graph_remove_edge test_graph source target in
  match removed with
  | None => ret None
  | Some _ =>
      let! g' := deref test_graph in
      match nx.is_weakly_connected g' with
      | None => ret None
      | Some false => ret (Some removal_candidates)
      | Some true =>
          let test_calc := MetricsCalculator.make test_graph in
          let! '(test_metrics, _) :=
            MetricsCalculator.calculate_all test_calc in
          let test_obj := _calculate_objective self test_metrics in
          let delta := (test_obj - baseline_obj)%Q in
          if Qlt_bool delta 0.1 then
            ret (Some (removal_candidates ++
                       [{| Removal.source := source;
                           Removal.target := target;
                           Removal.impact := delta;
                           Removal.call_rate :=
                             default 0%Q (attr_call_rate data);
                           Removal.rationale := MinimalImpact delta |}]))
          else ret (Some removal_candidates)
      end
  end.

Definition get_removal_candidates (self : t) (k : Z)
    : M (option (list Removal.t)) :=
  let! g := deref (graph self) in
  if (nx.number_of_edges g <? 2)%nat then ret (Some [])
  else
    let baseline_calc := MetricsCalculator.make (graph self) in
    let! '(baseline_metrics, _) :=
      MetricsCalculator.calculate_all baseline_calc in
    let baseline_obj := _calculate_objective self baseline_metrics in
    let! removal_candidates :=
      for_each (nx.edges g) (Some []) (λ removal_candidates edge,
        match removal_candidates with
        | Some removal_candidates =>
            removal_step self baseline_obj removal_candidates edge
        | None => ret None
        end) in
    ret (removal_candidates ← removal_candidates;
         Some (py_slice_to k (sort_by_impact removal_candidates))).

End methods.
End ShortcutOptimizer.

(** ** Topologies and policies for concrete runs *)

Definition service (name : string) (zone : option string)
    : GraphBuilder.ServiceData :=
  {| GraphBuilder.name := name; GraphBuilder.replicas := 1;
     GraphBuilder.tags := []; GraphBuilder.criticality := "medium";
     GraphBuilder.zone := zone |}.

Definition call (source target : string) (p50 cost : Q)
    : GraphBuilder.EdgeData :=
  {| GraphBuilder.source := source; GraphBuilder.target := target;
     GraphBuilder.call_rate := 10; GraphBuilder.p50_latency := p50;
     GraphBuilder.p95_latency := p50 * 2; GraphBuilder.error_rate := 0;
     GraphBuilder.cost := cost |}.

(** a -> b -> c, with edge costs 5 and 3. *)
Definition chain : nx.DiGraph :=
  GraphBuilder.build_from_topology
    [service "a" None; service "b" None; service "c" None]
    [call "a" "b" 10 5; call "b" "c" 10 3].

(** a -> b -> c -> d. *)
Definition long_chain : nx.DiGraph :=
  GraphBuilder.build_from_topology
    [service "a" None; service "b" None; service "c" None; service "d" None]
    [call "a" "b" 10 0; call "b" "c" 10 0; call "c" "d" 10 0].

(** A service in zone1, a service with zone None, a service with the
    empty zone, and a node without attributes. *)
Definition zoned : nx.DiGraph :=
  nx.add_node "d"
    (GraphBuilder.build_from_topology
       [service "a" (Some "zone1"); service "b" None; service "c" (Some "")]
       []).


Definition with_max_new_edges (n : Z) : PolicyConstraints :=
  {| forbidden_pairs := []; allowed_zones := ∅;
     max_new_edges_per_service := n; require_same_zone := false;
     min_path_length_to_shortcut := 2 |}.

Definition zone1_to_zone2 : PolicyConstraints :=
  {| forbidden_pairs := []; allowed_zones := {["zone1" := ["zone2"]]};
     max_new_edges_per_service := 3; require_same_zone := false;
     min_path_length_to_shortcut := 2 |}.


(** The policy with the zone allow-list emptied. *)
Definition without_allowed_zones (policy : PolicyConstraints)
    : PolicyConstraints :=
  {| forbidden_pairs := forbidden_pairs policy;
     allowed_zones := ∅;
     max_new_edges_per_service := max_new_edges_per_service policy;
     require_same_zone := require_same_zone policy;
     min_path_length_to_shortcut := min_path_length_to_shortcut policy |}.

(** ** Vocabulary of the properties *)

(** The graph behind a reference. *)
Definition graph_at (s : store) (r : ref) : nx.DiGraph :=
  default nx.empty (s !! r).

(** [returns m P]: every run of [m] returns a value satisfying [P]. *)
Definition returns {A} (m : M A) (P : A → Prop) : Prop := ∀ s, P (m s).1.

(** [reads r1 r2 m1 m2]: [m1] and [m2] leave the store as it is, and
    return the same value whenever the graph behind [r1] in the store of
    [m1] is the graph behind [r2] in the store of [m2]. *)
Definition reads {A} (r1 r2 : ref) (m1 m2 : M A) : Prop :=
  ∀ s1 s2, graph_at s1 r1 = graph_at s2 r2 →
    ∃ a, m1 s1 = (a, s1) ∧ m2 s2 = (a, s2).

(** Two calculators that differ in the graph they hold only. *)
Definition same_thresholds (c1 c2 : MetricsCalculator.t) : Prop :=
  MetricsCalculator.hub_threshold c1 = MetricsCalculator.hub_threshold c2 ∧
  MetricsCalculator.bottleneck_threshold c1 =
  MetricsCalculator.bottleneck_threshold c2.

(** Betweenness values of the node metrics are never negative. *)
Definition betweenness_nonneg (node_metrics : gmap string NodeMetrics)
    : Prop :=
  map_Forall (λ _ nm, 0 <= betweenness_centrality nm)%Q node_metrics.

(** What [_evaluate_candidate] returns when it returns a candidate. *)
Definition evaluated (self : ShortcutOptimizer.t) (source_ target_ : string)
    (c : ShortcutCandidate) : Prop :=
  source c = source_ ∧ target c = target_ ∧
  (delta_objective c < 0)%Q ∧
  (0.1 <= risk_score c <= 1)%Q ∧
  score c =
    (- delta_objective c / (risk_score c + ShortcutOptimizer.epsilon self))%Q.

(** The coefficient stored in the metrics is the one computed from the
    stored clustering, path length and counts. *)
Definition coefficient_of_fields `{!np.Numeric} (gm : GraphMetrics) : Prop :=
  small_world_coefficient gm =
  MetricsCalculator._calculate_small_world_coefficient
    (average_clustering gm) (average_path_length gm)
    (Z.of_nat (node_count gm)) (Z.of_nat (edge_count gm)).

(** What networkx guarantees of every DiGraph object: a node is listed
    once, there is one edge per ordered pair, and the end points of an edge
    are nodes. *)
Record well_formed (g : nx.DiGraph) : Prop := {
  nodes_distinct : NoDup (nx.nodes g);
  edges_distinct : NoDup (nx.edge_data g).*1;
  edge_ends :
    Forall (λ p, p.1 ∈ nx.nodes g ∧ p.2 ∈ nx.nodes g) (nx.edge_data g).*1;
}.

(** The attributes [_add_service_node] and [_add_dependency_edge] pass to
    networkx. *)
Definition service_attrs (service : GraphBuilder.ServiceData) : NodeAttrs :=
  {| attr_replicas := Some (GraphBuilder.replicas service);
     attr_tags := Some (GraphBuilder.tags service);
     attr_criticality := Some (GraphBuilder.criticality service);
     attr_zone :=
       Some match GraphBuilder.zone service with
            | Some z => ZoneStr z
            | None => ZoneNone
            end |}.

Definition dependency_attrs (edge : GraphBuilder.EdgeData) : EdgeAttrs :=
  {| attr_weight :=
       Some (if Qgt_bool (GraphBuilder.p50_latency edge) 0
             then GraphBuilder.p50_latency edge else 1%Q);
     attr_call_rate := Some (GraphBuilder.call_rate edge);
     attr_p50_latency := Some (GraphBuilder.p50_latency edge);
     attr_p95_latency := Some (GraphBuilder.p95_latency edge);
     attr_error_rate := Some (GraphBuilder.error_rate edge);
     attr_cost := Some (GraphBuilder.cost edge);
     attr_is_shortcut := None |}.

(** The ordered pair an edge of a topology joins. *)
Definition ends (edge : GraphBuilder.EdgeData) : string * string :=
  (GraphBuilder.source edge, GraphBuilder.target edge).

(** [data.get("call_rate", 0.0)] of an edge. *)
Definition call_rate_of (e : string * string * EdgeAttrs) : Q :=
  default 0%Q (attr_call_rate e.2).

(** What a calculator with the default thresholds returns for a graph. *)
Definition metrics_of `{!nx.Algorithms, !np.Numeric} (g : nx.DiGraph)
    : GraphMetrics * gmap string NodeMetrics :=
  (MetricsCalculator.calculate_all (MetricsCalculator.make 0) [g]).1.

(** The pair a candidate joins. *)
Definition pair_of (c : ShortcutCandidate) : string * string :=
  (source c, target c).

(** What the loop of [find_shortcuts] keeps of an evaluation. *)
Definition kept (candidate : option ShortcutCandidate)
    : option ShortcutCandidate :=
  c ← candidate; if Qgt_bool (score c) 0 then Some c else None.

(** The graph [simulate_shortcuts] computes the metrics of. *)
Definition with_shortcuts (g : nx.DiGraph) (shortcuts : list ShortcutCandidate)
    : nx.DiGraph :=
  foldl (λ g shortcut,
           nx.add_edge (source shortcut) (target shortcut)
             (ShortcutOptimizer.shortcut_attrs (estimated_latency shortcut)
                (estimated_call_rate shortcut)) g)
        g shortcuts.

(** [suggests_removal self g e c]: the loop of [get_removal_candidates]
    appends the suggestion [c] for the edge [e] of the graph [g]: without
    the edge the graph is still weakly connected, and the objective grows
    by less than 0.1. *)
Definition suggests_removal `{!nx.Algorithms, !np.Numeric}
    (self : ShortcutOptimizer.t) (g : nx.DiGraph)
    (e : string * string * EdgeAttrs) (c : Removal.t) : Prop :=
  ∃ test_graph,
    nx.remove_edge e.1.1 e.1.2 g = Some test_graph ∧
    nx.is_weakly_connected test_graph = Some true ∧
    let delta :=
      (ShortcutOptimizer._calculate_objective self (metrics_of test_graph).1 -
       ShortcutOptimizer._calculate_objective self (metrics_of g).1)%Q in
    (delta < 0.1)%Q ∧
    c = {| Removal.source := e.1.1;
           Removal.target := e.1.2;
           Removal.impact := delta;
           Removal.call_rate := call_rate_of e;
           Removal.rationale := MinimalImpact delta |}.

(** [removal_raises g e]: the connectivity test of the loop raises for the
    edge [e]. *)
Definition removal_raises `{!nx.Algorithms} (g : nx.DiGraph)
    (e : string * string * EdgeAttrs) : Prop :=
  ∃ test_graph,
    nx.remove_edge e.1.1 e.1.2 g = Some test_graph ∧
    nx.is_weakly_connected test_graph = None.

(** ** Reference implementation of the library interfaces

    The algorithms of networkx and numpy in exact arithmetic, written from
    their documentation: breadth-first distances, Dijkstra with the
    "weight" attribute, Brandes' betweenness as a sum over shortest paths,
    Wasserman-Faust closeness over incoming distances, triangle-based
    clustering, PageRank by power iteration, and the linear-interpolation
    percentile.  Strongly connected components are listed by first node;
    the logarithm is a rational partial sum of its series. *)

Module Reference.

(** Breadth-first layers: [frontier] is the layer at distance [d]. *)
Fixpoint bfs (fuel : nat) (succ : string → list string)
    (seen frontier : list string) (d : nat) : list (string * nat) :=
  match fuel with
  | 0 => []
  | S fuel' =>
      match frontier with
      | [] => []
      | _ =>
          let next :=
            remove_dups (filter (λ v, v ∉ seen) (frontier ≫= succ)) in
          ((λ v, (v, d)) <$> frontier)
            ++ bfs fuel' succ (seen ++ next) next (S d)
      end
  end.

Definition distances (g : nx.DiGraph) (succ : string → list string)
    (source : string) : list (string * nat) :=
  bfs (S (nx.number_of_nodes g)) succ [source] [source] 0.

Definition single_source_shortest_path_length (g : nx.DiGraph)
    (source : string) : gmap string nat :=
  list_to_map (distances g (nx.successors g) source).

Definition shortest_path_length (g : nx.DiGraph) (source target : string)
    : option nat :=
  single_source_shortest_path_length g source !! target.

Definition reachable (g : nx.DiGraph) (v : string) : list string :=
  (distances g (nx.successors g) v).*1.

Definition weak_component (g : nx.DiGraph) (v : string) : list string :=
  (distances g (λ u, nx.successors g u ++ nx.predecessors g u) v).*1.

Definition strong_component (g : nx.DiGraph) (v : string) : list string :=
  filter (λ u, v ∈ reachable g u) (reachable g v).

Fixpoint components (fuel : nat) (component : string → list string)
    (todo : list string) : list (list string) :=
  match fuel, todo with
  | S fuel', v :: rest =>
      let c := component v in
      c :: components fuel' component (filter (λ u, u ∉ c) rest)
  | _, _ => []
  end.

Definition weakly_connected_components (g : nx.DiGraph)
    : list (list string) :=
  components (nx.number_of_nodes g) (weak_component g) (nx.nodes g).

Definition strongly_connected_components (g : nx.DiGraph)
    : list (list string) :=
  components (nx.number_of_nodes g) (strong_component g) (nx.nodes g).

(** Both raise NetworkXPointlessConcept on the null graph. *)
Definition is_weakly_connected (g : nx.DiGraph) : option bool :=
  match nx.nodes g with
  | [] => None
  | v :: _ => Some (length (weak_component g v) =? nx.number_of_nodes g)%nat
  end.

Definition is_strongly_connected (g : nx.DiGraph) : option bool :=
  match nx.nodes g with
  | [] => None
  | v :: _ =>
      Some (length (strong_component g v) =? nx.number_of_nodes g)%nat
  end.

Definition sum_nat (xs : list nat) : nat := foldr Nat.add 0%nat xs.

Definition average_shortest_path_length (g : nx.DiGraph) : option Q :=
  let n := nx.number_of_nodes g in
  if (n =? 0)%nat then None
  else if (n =? 1)%nat then Some 0%Q
  else
    strongly ← is_strongly_connected g;
    if strongly : bool then
      let s :=
        sum_nat
          ((λ u, sum_nat (distances g (nx.successors g) u).*2) <$> nx.nodes g)
      in
      Some (QofNat s / QofNat (n * (n - 1)))%Q
    else None.

(** The eccentricity of a node is undefined, and the call raises, when
    some node is out of its reach. *)
Definition eccentricity (g : nx.DiGraph) (v : string) : option nat :=
  let ds := distances g (nx.successors g) v in
  if (length ds =? nx.number_of_nodes g)%nat
  then Some (foldr Nat.max 0%nat ds.*2) else None.

Definition diameter (g : nx.DiGraph) : option nat :=
  match nx.nodes g with
  | [] => None
  | _ =>
      eccs ← mapM (eccentricity g) (nx.nodes g);
      Some (foldr Nat.max 0%nat eccs)
  end.

(** Dijkstra: [settled] holds final distances, [fringe] tentative ones. *)
Definition edge_weight (e : string * string * EdgeAttrs) : Q :=
  default 1%Q (attr_weight e.2).

Definition closest (fringe : list (string * Q)) : option (string * Q) :=
  match fringe with
  | [] => None
  | x :: xs => Some (foldl (λ m y, if Qlt_bool y.2 m.2 then y else m) x xs)
  end.

Definition relax (fringe : list (string * Q)) (u : string) (d : Q)
    : list (string * Q) :=
  match list_find (λ p, p.1 = u) fringe with
  | Some (i, (_, d')) =>
      if Qlt_bool d d' then <[i := (u, d)]> fringe else fringe
  | None => fringe ++ [(u, d)]
  end.

Fixpoint dijkstra (fuel : nat) (g : nx.DiGraph)
    (settled fringe : list (string * Q)) : list (string * Q) :=
  match fuel with
  | 0 => settled
  | S fuel' =>
      match closest fringe with
      | None => settled
      | Some (v, d) =>
          let settled := settled ++ [(v, d)] in
          let fringe := filter (λ p, p.1 ≠ v) fringe in
          let fringe :=
            foldl (λ fr e,
                     if bool_decide (e.1.2 ∈ settled.*1) then fr
                     else relax fr e.1.2 (Qred (d + edge_weight e)))
                  fringe (filter (λ e, e.1.1 = v) (nx.edge_data g)) in
          dijkstra fuel' g settled fringe
      end
  end.

Definition single_source_dijkstra_path_length (g : nx.DiGraph)
    (source : string) : nx.outcome (gmap string Q) :=
  nx.Returns
    (list_to_map (dijkstra (nx.number_of_nodes g) g [] [(source, 0%Q)])).

(** The number of shortest paths from [s] to [t], given the distances
    from [s]. *)
Fixpoint count_paths (fuel : nat) (g : nx.DiGraph) (dist : gmap string nat)
    (s t : string) : nat :=
  if decide (s = t) then 1%nat
  else
    match fuel with
    | 0 => 0%nat
    | S fuel' =>
        match dist !! t with
        | Some (S d) =>
            sum_nat
              ((λ u, if decide (dist !! u = Some d)
                     then count_paths fuel' g dist s u else 0%nat)
                 <$> remove_dups (nx.predecessors g t))
        | _ => 0%nat
        end
    end.

Definition sigma (g : nx.DiGraph) (s t : string) : nat :=
  count_paths (nx.number_of_nodes g) g
    (single_source_shortest_path_length g s) s t.

(** The share of the shortest paths from [s] to [t] that pass through
    [v]. *)
Definition pair_dependency (g : nx.DiGraph) (s t v : string) : Q :=
  match shortest_path_length g s v, shortest_path_length g v t,
        shortest_path_length g s t with
  | Some dsv, Some dvt, Some dst =>
      if (dsv + dvt =? dst)%nat
      then (QofNat (sigma g s v * sigma g v t) / QofNat (sigma g s t))%Q
      else 0%Q
  | _, _, _ => 0%Q
  end.

Definition betweenness (g : nx.DiGraph) (v : string) : Q :=
  Qsum
    ((λ st, pair_dependency g st.1 st.2 v) <$>
     filter (λ st, st.1 ≠ v ∧ st.2 ≠ v ∧ st.1 ≠ st.2)
            (s ← nx.nodes g; t ← nx.nodes g; [(s, t)])).

(** [betweenness_centrality(G, normalized=True)] of a directed graph. *)
Definition betweenness_centrality (g : nx.DiGraph)
    : option (gmap string Q) :=
  let n := nx.number_of_nodes g in
  let scale :=
    if (n <=? 2)%nat then 1%Q else (1 / QofNat ((n - 1) * (n - 2)))%Q in
  Some (dict_of_keys (nx.nodes g) (λ v, Qred (betweenness g v * scale))).

(** [closeness_centrality(G)]: distances to the node, with the
    Wasserman-Faust scaling. *)
Definition closeness_centrality (g : nx.DiGraph) : option (gmap string Q) :=
  let n := nx.number_of_nodes g in
  Some (dict_of_keys (nx.nodes g) (λ v,
    let sp := distances g (nx.predecessors g) v in
    let totsp := sum_nat sp.*2 in
    if (0 <? totsp)%nat && (1 <? n)%nat then
      Qred (QofNat (length sp - 1) / QofNat totsp
            * (QofNat (length sp - 1) / QofNat (n - 1)))
    else 0%Q)).

(** [clustering(G)] of an undirected graph: closed pairs of neighbours
    over all pairs of neighbours. *)
Definition local_clustering (g : nx.Graph) (v : string) : Q :=
  let nbrs := nx.neighbors g v in
  let d := length nbrs in
  let t :=
    sum_nat
      ((λ w, length (filter (λ u, u ∈ nx.neighbors g w) nbrs)) <$> nbrs) in
  if (t =? 0)%nat then 0%Q else Qred (QofNat t / QofNat (d * (d - 1))).

Definition clustering (g : nx.Graph) : option (gmap string Q) :=
  Some (dict_of_keys (nx.unodes g) (local_clustering g)).

(** Raises ZeroDivisionError on the null graph. *)
Definition average_clustering (g : nx.Graph) : option Q :=
  match nx.unodes g with
  | [] => None
  | ns =>
      Some (Qred (Qsum (local_clustering g <$> ns) / QofNat (length ns)))
  end.

(** [pagerank(G, alpha)]: power iteration on the weight-normalised
    adjacency matrix, at most 100 rounds, tolerance 1e-6 per node; raises
    PowerIterationFailedConvergence otherwise. *)
Definition out_weight (g : nx.DiGraph) (u : string) : Q :=
  Qsum (edge_weight <$> filter (λ e, e.1.1 = u) (nx.edge_data g)).

Definition pagerank_step (g : nx.DiGraph) (alpha : Q) (x : gmap string Q)
    : gmap string Q :=
  let ns := nx.nodes g in
  let p := (1 / QofNat (length ns))%Q in
  let dangling :=
    Qsum ((λ u, get x u 0%Q) <$>
          filter (λ u, Qeq_bool (out_weight g u) 0 = true) ns) in
  dict_of_keys ns (λ v,
    let inflow :=
      Qsum ((λ e, get x e.1.1 0 * edge_weight e / out_weight g e.1.1)%Q <$>
            filter (λ e, e.1.2 = v) (nx.edge_data g)) in
    Qred (alpha * (inflow + dangling * p) + (1 - alpha) * p)).

Fixpoint pagerank_iterate (max_iter : nat) (g : nx.DiGraph) (alpha : Q)
    (x : gmap string Q) : option (gmap string Q) :=
  match max_iter with
  | 0 => None
  | S max_iter' =>
      let x' := pagerank_step g alpha x in
      let err :=
        Qsum ((λ v, Qabs (get x' v 0 - get x v 0)%Q) <$> nx.nodes g) in
      if Qlt_bool err (QofNat (nx.number_of_nodes g) * (1 # 1000000))
      then Some x'
      else pagerank_iterate max_iter' g alpha x'
  end.

Definition pagerank (g : nx.DiGraph) (alpha : Q) : option (gmap string Q) :=
  let n := nx.number_of_nodes g in
  if (n =? 0)%nat then Some ∅
  else pagerank_iterate 100 g alpha
         (dict_of_keys (nx.nodes g) (λ _, 1 / QofNat n)%Q).

(** numpy *)

Fixpoint insert_sorted (x : Q) (l : list Q) : list Q :=
  match l with
  | [] => [x]
  | y :: l' => if Qle_bool x y then x :: l else y :: insert_sorted x l'
  end.

Definition sorted (l : list Q) : list Q := foldr insert_sorted [] l.

Definition percentile (a : list Q) (q : Q) : Q :=
  let s := sorted a in
  let index := (q / 100 * QofNat (length a - 1))%Q in
  let lo := Z.to_nat (Qfloor index) in
  let hi := (lo + 1) `min` (length a - 1) in
  let x := default 0%Q (s !! lo) in
  let y := default 0%Q (s !! hi) in
  Qred (x + (y - x) * (index - inject_Z (Qfloor index))).

Definition mean (a : list Q) : Q := Qred (Qsum a / QofNat (length a)).

(** ln x = 2 (z + z^3/3 + z^5/5 + z^7/7 + ...) with z = (x-1)/(x+1). *)
Definition log (x : Q) : Q :=
  let z := ((x - 1) / (x + 1))%Q in
  (2 * (z * (1 + z * z * ((1 # 3) + z * z * ((1 # 5) + z * z * (1 # 7))))))%Q.

(** The reference implementation satisfies the laws of the interfaces. *)

Lemma foldl_Qplus_nonneg (xs : list Q) (a : Q) :
  (0 <= a)%Q → Forall (λ x, 0 <= x)%Q xs → (0 <= foldl Qplus a xs)%Q.
Proof.
  intros Ha Hxs. revert a Ha.
  induction Hxs as [|x xs Hx _ IH]; intros a Ha; simpl; [done|].
  apply IH. lra.
Qed.

Lemma Qsum_nonneg (xs : list Q) :
  Forall (λ x, 0 <= x)%Q xs → (0 <= Qsum xs)%Q.
Proof. apply foldl_Qplus_nonneg. lra. Qed.

Lemma QofNat_nonneg (n : nat) : (0 <= QofNat n)%Q.
Proof.
  unfold QofNat. change 0%Q with (inject_Z 0).
  rewrite <- Zle_Qle. lia.
Qed.

Lemma Qdiv_nonneg (a b : Q) : (0 <= a)%Q → (0 <= b)%Q → (0 <= a / b)%Q.
Proof.
  intros Ha Hb. unfold Qdiv.
  apply Qmult_le_0_compat; [done|]. by apply Qinv_le_0_compat.
Qed.

Lemma pair_dependency_nonneg (g : nx.DiGraph) (s t v : string) :
  (0 <= pair_dependency g s t v)%Q.
Proof.
  unfold pair_dependency.
  repeat case_match; try lra.
  apply Qdiv_nonneg; apply QofNat_nonneg.
Qed.

Lemma betweenness_nonneg (g : nx.DiGraph) (v : string) :
  (0 <= betweenness g v)%Q.
Proof.
  apply Qsum_nonneg, Forall_fmap, Forall_forall.
  intros st _. apply pair_dependency_nonneg.
Qed.

Lemma betweenness_centrality_nonneg (g : nx.DiGraph) (b : gmap string Q) :
  betweenness_centrality g = Some b → map_Forall (λ _ x, 0 <= x)%Q b.
Proof.
  intros [= <-] v x Hx.
  apply elem_of_list_to_map_2, list_elem_of_fmap in Hx as (n & [= -> ->] & _).
  rewrite Qred_correct.
  apply Qmult_le_0_compat; [apply betweenness_nonneg|].
  case_match; [lra|].
  apply Qdiv_nonneg; [lra|apply QofNat_nonneg].
Qed.

Lemma log_pos (x : Q) : (1 < x)%Q → (0 < log x)%Q.
Proof.
  intros Hx. unfold log.
  assert (0 < (x - 1) / (x + 1))%Q as Hz.
  { apply Qlt_shift_div_l; lra. }
  set (z := ((x - 1) / (x + 1))%Q) in *.
  assert (0 < z * z)%Q as Hzz by (apply Qmult_lt_0_compat; done).
  set (w := (z * z)%Q) in *.
  assert (0 < w * (1 # 7))%Q by lra.
  assert (0 < w * ((1 # 5) + w * (1 # 7)))%Q
    by (apply Qmult_lt_0_compat; lra).
  assert (0 < w * ((1 # 3) + w * ((1 # 5) + w * (1 # 7))))%Q
    by (apply Qmult_lt_0_compat; lra).
  assert (0 < z * (1 + w * ((1 # 3) + w * ((1 # 5) + w * (1 # 7)))))%Q
    by (apply Qmult_lt_0_compat; lra).
  lra.
Qed.

#[export] Instance algorithms : nx.Algorithms := {|
  nx.shortest_path_length := shortest_path_length;
  nx.single_source_shortest_path_length := single_source_shortest_path_length;
  nx.single_source_dijkstra_path_length := single_source_dijkstra_path_length;
  nx.is_weakly_connected := is_weakly_connected;
  nx.is_strongly_connected := is_strongly_connected;
  nx.strongly_connected_components := strongly_connected_components;
  nx.number_weakly_connected_components g :=
    length (weakly_connected_components g);
  nx.number_strongly_connected_components g :=
    length (strongly_connected_components g);
  nx.average_shortest_path_length := average_shortest_path_length;
  nx.diameter := diameter;
  nx.betweenness_centrality := betweenness_centrality;
  nx.closeness_centrality := closeness_centrality;
  nx.clustering := clustering;
  nx.average_clustering := average_clustering;
  nx.pagerank := pagerank;
  nx.betweenness_centrality_nonneg := betweenness_centrality_nonneg;
|}.

#[export] Instance numeric : np.Numeric := {|
  np.log := log;
  np.percentile := percentile;
  np.mean := mean;
  np.log_pos := log_pos;
|}.

End Reference.

(** ** Arithmetic *)

Lemma Qeq_bool_false (x y : Q) : Qeq_bool x y = false → ¬ (x == y)%Q.
Proof. intros H E. apply Qeq_bool_iff in E. congruence. Qed.

Lemma Qgt_bool_true (x y : Q) : Qgt_bool x y = true ↔ (y < x)%Q.
Proof.
  unfold Qgt_bool. rewrite negb_true_iff. split.
  - intros H. apply Qnot_le_lt. intros Hle. apply Qle_bool_iff in Hle.
    congruence.
  - intros H. destruct (Qle_bool x y) eqn:E; [|done].
    apply Qle_bool_iff in E. lra.
Qed.

Lemma Qge_bool_false (x y : Q) : Qge_bool x y = false ↔ (x < y)%Q.
Proof.
  unfold Qge_bool. split.
  - intros H. apply Qnot_le_lt. intros Hle. apply Qle_bool_iff in Hle.
    congruence.
  - intros H. destruct (Qle_bool y x) eqn:E; [|done].
    apply Qle_bool_iff in E. lra.
Qed.

Lemma Qdiv_eq_0 (x y : Q) : ¬ (y == 0)%Q → (x / y == 0)%Q ↔ (x == 0)%Q.
Proof.
  intros Hy. split.
  - intros H. rewrite <- (Qmult_div_r x y Hy), H. ring.
  - intros ->. unfold Qdiv. ring.
Qed.

Lemma Qdiv_le_denominator (a x y : Q) :
  (0 <= a)%Q → (0 < y)%Q → (y <= x)%Q → (a / x <= a / y)%Q.
Proof.
  intros Ha Hy Hyx.
  apply Qle_shift_div_r; [lra|].
  assert (a / y * y == a)%Q as E by (field; lra).
  assert (0 <= a / y)%Q as Hq by (apply Qle_shift_div_l; lra).
  rewrite <- E at 1. set (t := (a / y)%Q) in *. clearbody t. nra.
Qed.

(** ** Lists and dicts *)

Lemma foldl_ext_eq {A B} (f h : B → A → B) (xs : list A) (acc : B) :
  (∀ acc x, f acc x = h acc x) → foldl f acc xs = foldl h acc xs.
Proof.
  intros Hfh. revert acc. induction xs as [|x xs IH]; intros acc; simpl.
  - done.
  - by rewrite Hfh, IH.
Qed.

Lemma foldl_append_if {A B} (f : A → bool) (h : A → B) (xs : list A)
    (acc : list B) :
  foldl (λ acc x, if f x then acc ++ [h x] else acc) acc xs =
  acc ++ (h <$> filter (λ x, f x = true) xs).
Proof.
  revert acc. induction xs as [|x xs IH]; intros acc; simpl.
  - by rewrite app_nil_r.
  - rewrite IH. destruct (f x) eqn:Hx.
    + rewrite filter_cons_True by done. by rewrite <- app_assoc.
    + rewrite filter_cons_False by congruence. done.
Qed.

Lemma foldl_append_bind {A B} (f : A → list B) (xs : list A) (acc : list B) :
  foldl (λ acc x, acc ++ f x) acc xs = acc ++ (xs ≫= f).
Proof.
  revert acc. induction xs as [|x xs IH]; intros acc; simpl.
  - by rewrite app_nil_r.
  - by rewrite IH, app_assoc.
Qed.

Lemma bind_nil {A B} (xs : list A) : xs ≫= (λ _, @nil B) = [].
Proof. induction xs as [|x xs IH]; [done|]. by rewrite bind_cons, IH. Qed.

Lemma get_dict_of_keys_const {A} (ns : list string) (a : A) (k : string) :
  get (dict_of_keys ns (λ _, a)) k a = a.
Proof.
  unfold get, dict_of_keys.
  destruct (list_to_map _ !! k) as [x|] eqn:E; [|done]. simpl.
  by apply elem_of_list_to_map_2, list_elem_of_fmap in E as (n & [= _ ->] & _).
Qed.

Lemma foldl_insert_map_Forall {V} (P : string → V → Prop) (f : string → V)
    (xs : list string) (acc : gmap string V) :
  map_Forall P acc → (∀ x, P x (f x)) →
  map_Forall P (foldl (λ m x, <[x := f x]> m) acc xs).
Proof.
  intros Hacc Hf. revert acc Hacc.
  induction xs as [|x xs IH]; intros acc Hacc; simpl; [done|].
  apply IH. by apply map_Forall_insert_2.
Qed.

Lemma Forall_insert_by_score (P : ShortcutCandidate → Prop)
    (c : ShortcutCandidate) (l : list ShortcutCandidate) :
  P c → Forall P l → Forall P (insert_by_score c l).
Proof.
  intros Hc Hl. induction Hl as [|y l Hy Hl IH]; simpl.
  - by constructor.
  - case_match; repeat constructor; done.
Qed.

Lemma Forall_sort_by_score (P : ShortcutCandidate → Prop)
    (l : list ShortcutCandidate) :
  Forall P l → Forall P (sort_by_score l).
Proof.
  induction 1 as [|c l Hc _ IH]; simpl.
  - constructor.
  - by apply Forall_insert_by_score.
Qed.

Lemma Forall_py_slice_to {A} (P : A → Prop) (k : Z) (l : list A) :
  Forall P l → Forall P (py_slice_to k l).
Proof. intros Hl. unfold py_slice_to. case_match; by apply Forall_take. Qed.

(** ** Store computations *)

Lemma run_ret {A} (a : A) (s : store) : ret a s = (a, s).
Proof. done. Qed.

Lemma run_bind {A B} (m : M A) (k : A → M B) (s : store) :
  bind m k s = k (m s).1 (m s).2.
Proof. unfold bind. by destruct (m s). Qed.

Lemma run_deref (r : ref) (s : store) : deref r s = (graph_at s r, s).
Proof. done. Qed.

Lemma graph_at_new (s : store) (g : nx.DiGraph) :
  graph_at (s ++ [g]) (length s) = g.
Proof. unfold graph_at. by rewrite lookup_app_r, Nat.sub_diag by lia. Qed.

Lemma alter_new (f : nx.DiGraph → nx.DiGraph) (s : store) (g : nx.DiGraph) :
  alter f (length s) (s ++ [g]) = s ++ [f g].
Proof.
  rewrite <- (Nat.add_0_r (length s)) at 1. by rewrite alter_app_r.
Qed.

Lemma run_graph_copy (r : ref) (s : store) :
  graph_copy r s = (length s, s ++ [graph_at s r]).
Proof. done. Qed.

Lemma run_graph_add_edge (u v : string) (attr : EdgeAttrs) (s : store)
    (g : nx.DiGraph) :
  graph_add_edge (length s) u v attr (s ++ [g]) =
  (tt, s ++ [nx.add_edge u v attr g]).
Proof. unfold graph_add_edge, mutate. by rewrite alter_new. Qed.

Lemma returns_ret {A} (a : A) (P : A → Prop) : P a → returns (ret a) P.
Proof. by intros Ha s. Qed.

Lemma returns_bind {A B} (m : M A) (k : A → M B) (P : A → Prop)
    (Q : B → Prop) :
  returns m P → (∀ a, P a → returns (k a) Q) → returns (bind m k) Q.
Proof. intros Hm Hk s. rewrite run_bind. by apply Hk. Qed.

Lemma returns_bind_any {A B} (m : M A) (k : A → M B) (Q : B → Prop) :
  (∀ a, returns (k a) Q) → returns (bind m k) Q.
Proof. intros Hk s. rewrite run_bind. apply Hk. Qed.

Lemma returns_for_each {A B} (I : B → Prop) (P : A → Prop)
    (body : B → A → M B) (xs : list A) (acc : B) :
  Forall P xs → I acc →
  (∀ acc x, P x → I acc → returns (body acc x) I) →
  returns (for_each xs acc body) I.
Proof.
  intros Hxs Hacc Hbody. revert acc Hacc.
  induction Hxs as [|x xs Hx _ IH]; intros acc Hacc; simpl.
  - by apply returns_ret.
  - eapply returns_bind; [by apply Hbody|]. apply IH.
Qed.

Lemma for_each_store_extends {A B} (body : B → A → M B) (xs : list A)
    (acc : B) (s : store) :
  (∀ acc x s, s `prefix_of` (body acc x s).2) →
  s `prefix_of` (for_each xs acc body s).2.
Proof.
  intros Hbody. revert acc s.
  induction xs as [|x xs IH]; intros acc s; simpl; [done|].
  rewrite run_bind. etrans; [apply (Hbody acc x)|apply IH].
Qed.

Lemma reads_ret {A} (r1 r2 : ref) (a : A) : reads r1 r2 (ret a) (ret a).
Proof. intros s1 s2 _. by exists a. Qed.

Lemma reads_deref (r1 r2 : ref) : reads r1 r2 (deref r1) (deref r2).
Proof.
  intros s1 s2 Hg. exists (graph_at s1 r1).
  by rewrite !run_deref, Hg.
Qed.

Lemma reads_bind {A B} (r1 r2 : ref) (m1 m2 : M A) (k1 k2 : A → M B) :
  reads r1 r2 m1 m2 → (∀ a, reads r1 r2 (k1 a) (k2 a)) →
  reads r1 r2 (bind m1 k1) (bind m2 k2).
Proof.
  intros Hm Hk s1 s2 Hg.
  destruct (Hm s1 s2 Hg) as (a & E1 & E2).
  destruct (Hk a s1 s2 Hg) as (b & E3 & E4).
  exists b. by rewrite !run_bind, E1, E2.
Qed.

Create HintDb reads.
#[export] Hint Resolve reads_ret reads_deref : reads.

Ltac reads_step :=
  first [ apply reads_ret | apply reads_deref
        | solve [eauto with reads]
        | apply reads_bind; [|intros ?]
        | case_match ].

(** ** The calculator

    Its methods only read the graph they are given, and their results
    depend on nothing else in the store. *)

Section calculator.
Context `{!nx.Algorithms, !np.Numeric}.
Import MetricsCalculator.

Lemma reads_incoming_load c1 c2 :
  reads (graph c1) (graph c2)
    (_calculate_incoming_load c1) (_calculate_incoming_load c2).
Proof. unfold _calculate_incoming_load. repeat reads_step. Qed.

Lemma reads_outgoing_load c1 c2 :
  reads (graph c1) (graph c2)
    (_calculate_outgoing_load c1) (_calculate_outgoing_load c2).
Proof. unfold _calculate_outgoing_load. repeat reads_step. Qed.

Local Hint Resolve reads_incoming_load reads_outgoing_load : reads.

Lemma reads_node_metrics c1 c2 :
  reads (graph c1) (graph c2)
    (_calculate_node_metrics c1) (_calculate_node_metrics c2).
Proof. unfold _calculate_node_metrics. repeat reads_step. Qed.

Lemma reads_average_path_length c1 c2 :
  reads (graph c1) (graph c2)
    (_calculate_average_path_length c1) (_calculate_average_path_length c2).
Proof. unfold _calculate_average_path_length. repeat reads_step. Qed.

Lemma reads_weighted_average_path_length c1 c2 :
  reads (graph c1) (graph c2)
    (_calculate_weighted_average_path_length c1)
    (_calculate_weighted_average_path_length c2).
Proof. unfold _calculate_weighted_average_path_length. repeat reads_step. Qed.

Lemma reads_diameter c1 c2 :
  reads (graph c1) (graph c2) (_calculate_diameter c1) (_calculate_diameter c2).
Proof. unfold _calculate_diameter. repeat reads_step. Qed.

Local Hint Resolve reads_node_metrics reads_average_path_length
  reads_weighted_average_path_length reads_diameter : reads.

Lemma reads_graph_metrics c1 c2 node_metrics :
  reads (graph c1) (graph c2)
    (_calculate_graph_metrics c1 node_metrics)
    (_calculate_graph_metrics c2 node_metrics).
Proof. unfold _calculate_graph_metrics. repeat reads_step. Qed.

Local Hint Resolve reads_graph_metrics : reads.

Lemma identify_same_thresholds c1 c2 node_metrics graph_metrics :
  same_thresholds c1 c2 →
  _identify_hubs_and_bottlenecks c1 node_metrics graph_metrics =
  _identify_hubs_and_bottlenecks c2 node_metrics graph_metrics.
Proof.
  intros [Hh Hb]. unfold _identify_hubs_and_bottlenecks. by rewrite Hh, Hb.
Qed.

Lemma reads_calculate_all c1 c2 :
  same_thresholds c1 c2 →
  reads (graph c1) (graph c2) (calculate_all c1) (calculate_all c2).
Proof.
  intros Hc. unfold calculate_all.
  apply reads_bind; [apply reads_deref|]. intros g.
  case_match; [apply reads_ret|].
  apply reads_bind; [eauto with reads|]. intros node_metrics.
  apply reads_bind; [eauto with reads|]. intros graph_metrics.
  rewrite (identify_same_thresholds c1 c2) by done.
  case_match. apply reads_ret.
Qed.

Lemma calculate_all_store (c : MetricsCalculator.t) (s : store) :
  (MetricsCalculator.calculate_all c s).2 = s.
Proof.
  destruct (reads_calculate_all c c (conj eq_refl eq_refl) s s eq_refl)
    as (a & -> & _).
  done.
Qed.

(** [get_objective_value] has the cost term: gamma times the sum of the
    costs of the edges. *)
Lemma run_get_objective_value (self : t) (alpha beta gamma : Q) (s : store) :
  get_objective_value self alpha beta gamma s =
  (let graph_metrics := (calculate_all self s).1.1 in
   let total_cost :=
     Qsum ((λ e, default 0%Q (attr_cost e.2)) <$>
           nx.edges (graph_at s (graph self))) in
   (alpha * average_path_length graph_metrics +
    beta * max_betweenness graph_metrics +
    gamma * total_cost)%Q,
   s).
Proof.
  unfold get_objective_value. rewrite run_bind.
  pose proof (calculate_all_store self s) as Hs.
  destruct (calculate_all self s) as [[graph_metrics node_metrics] s'].
  cbn [fst snd] in *. subst s'.
  by rewrite run_bind, run_deref.
Qed.

(** Betweenness values stay non-negative from the library to the result. *)
Lemma get_betweenness_nonneg (g : nx.DiGraph) (node : string) :
  (0 <= get match nx.betweenness_centrality g with
            | Some b => b
            | None => dict_of_keys (nx.nodes g) (λ _, 0%Q)
            end node 0)%Q.
Proof.
  unfold get.
  destruct (nx.betweenness_centrality g) as [b|] eqn:Hb.
  - destruct (b !! node) as [x|] eqn:Hx; simpl; [|lra].
    by apply (nx.betweenness_centrality_nonneg g b Hb node x).
  - destruct (dict_of_keys _ _ !! node) as [x|] eqn:Hx; simpl; [|lra].
    apply elem_of_list_to_map_2, list_elem_of_fmap in Hx as (n & [= _ ->] & _).
    lra.
Qed.

Lemma node_metrics_betweenness_nonneg (c : MetricsCalculator.t) :
  returns (MetricsCalculator._calculate_node_metrics c) betweenness_nonneg.
Proof.
  unfold MetricsCalculator._calculate_node_metrics.
  apply returns_bind_any. intros g.
  apply returns_bind_any. intros incoming.
  apply returns_bind_any. intros outgoing.
  apply returns_ret.
  apply foldl_insert_map_Forall; [apply map_Forall_empty|].
  intros node. simpl. apply get_betweenness_nonneg.
Qed.

Lemma identify_betweenness_nonneg (c : MetricsCalculator.t)
    (node_metrics : gmap string NodeMetrics) (graph_metrics : GraphMetrics) :
  betweenness_nonneg node_metrics →
  betweenness_nonneg
    (MetricsCalculator._identify_hubs_and_bottlenecks c node_metrics
       graph_metrics).1.
Proof.
  intros Hnm. unfold MetricsCalculator._identify_hubs_and_bottlenecks.
  case_bool_decide; [done|]. simpl.
  intros node nm. rewrite lookup_fmap.
  destruct (node_metrics !! node) as [nm'|] eqn:E; [|done].
  intros [= <-]. simpl. by apply (Hnm node).
Qed.

Lemma calculate_all_betweenness_nonneg (c : MetricsCalculator.t) :
  returns (MetricsCalculator.calculate_all c) (λ r, betweenness_nonneg r.2).
Proof.
  unfold MetricsCalculator.calculate_all.
  apply returns_bind_any. intros g.
  case_match; [apply returns_ret, map_Forall_empty|].
  eapply returns_bind; [apply node_metrics_betweenness_nonneg|].
  intros node_metrics Hnm.
  apply returns_bind_any. intros graph_metrics.
  pose proof (identify_betweenness_nonneg c node_metrics graph_metrics Hnm).
  case_match. by apply returns_ret.
Qed.

(** The small-world coefficient. *)
Lemma random_path_length_pos (n : nat) (avg_degree : Q) :
  (3 ≤ n)%nat →
  (0 < (if Qgt_bool avg_degree 1
        then np.log (inject_Z (Z.of_nat n)) / np.log avg_degree
        else inject_Z (Z.of_nat n) / 2))%Q.
Proof.
  intros Hn.
  assert (3 <= inject_Z (Z.of_nat n))%Q as Hn'.
  { change 3%Q with (inject_Z 3). rewrite <- Zle_Qle. lia. }
  destruct (Qgt_bool avg_degree 1) eqn:Havg.
  - apply Qgt_bool_true in Havg.
    apply Qlt_shift_div_l; [by apply np.log_pos|].
    rewrite Qmult_0_l. apply np.log_pos. lra.
  - apply Qlt_shift_div_l; lra.
Qed.

Lemma small_world_coefficient_zero_iff (clustering path_length : Q)
    (n m : nat) :
  (_calculate_small_world_coefficient clustering path_length
     (Z.of_nat n) (Z.of_nat m) == 0)%Q ↔
  (n < 3)%nat ∨ (path_length == 0)%Q ∨ m = 0%nat ∨ (clustering == 0)%Q.
Proof.
  unfold _calculate_small_world_coefficient.
  destruct (Qeq_bool path_length 0) eqn:Hpl; simpl.
  { apply Qeq_bool_iff in Hpl. split; [by auto|reflexivity]. }
  apply Qeq_bool_false in Hpl.
  destruct (Z.ltb_spec (Z.of_nat n) 3) as [Hn|Hn].
  { split; [intros _; left; lia|reflexivity]. }
  destruct (Z.ltb_spec 1 (Z.of_nat n)) as [_|?]; [|lia].
  destruct (Z.ltb_spec 0 (Z.of_nat n)) as [_|?]; [|lia].
  pose proof (random_path_length_pos n
                (inject_Z (2 * Z.of_nat m) / inject_Z (Z.of_nat n))
                ltac:(lia)) as Hrpl.
  set (random_path_length := if Qgt_bool _ 1 then _ else _) in *.
  clearbody random_path_length.
  assert (0 < inject_Z (Z.of_nat n * (Z.of_nat n - 1)))%Q as Hden.
  { change 0%Q with (inject_Z 0). rewrite <- Zlt_Qlt. nia. }
  set (den := inject_Z (Z.of_nat n * (Z.of_nat n - 1))) in *.
  clearbody den.
  assert ((inject_Z (Z.of_nat m) / den == 0)%Q ↔ m = 0%nat) as Hp.
  { rewrite Qdiv_eq_0 by lra. change 0%Q with (inject_Z 0).
    rewrite inject_Z_injective. lia. }
  destruct (Qeq_bool (inject_Z (Z.of_nat m) / den) 0) eqn:Hp0; simpl.
  { apply Qeq_bool_iff, Hp in Hp0. split; [by auto|reflexivity]. }
  apply Qeq_bool_false in Hp0.
  destruct (Qeq_bool random_path_length 0) eqn:Hr0; simpl.
  { apply Qeq_bool_iff in Hr0. exfalso. lra. }
  assert (0 < inject_Z (Z.of_nat m) / den)%Q as Hppos.
  { apply Qlt_shift_div_l; [done|]. rewrite Qmult_0_l.
    change 0%Q with (inject_Z 0). rewrite <- Zlt_Qlt.
    assert (m ≠ 0%nat) by (intros ->; apply Hp0; by apply Hp). lia. }
  apply Qgt_bool_true in Hppos as Hgt. rewrite Hgt.
  assert (¬ (random_path_length == 0)%Q) as Hrpl0 by lra.
  assert (¬ (path_length / random_path_length == 0)%Q) as Hlambda
    by by rewrite Qdiv_eq_0.
  rewrite !Qdiv_eq_0 by done.
  split; [by auto|].
  intros [?|[?|[->|?]]]; try done; try lia.
Qed.

Lemma graph_metrics_coefficient (c : MetricsCalculator.t)
    (node_metrics : gmap string NodeMetrics) :
  returns (MetricsCalculator._calculate_graph_metrics c node_metrics)
    coefficient_of_fields.
Proof.
  unfold MetricsCalculator._calculate_graph_metrics.
  apply returns_bind_any. intros g.
  case_match; [by apply returns_ret|].
  apply returns_bind_any. intros avg_path_length.
  apply returns_bind_any. intros weighted_avg_path_length.
  apply returns_bind_any. intros diameter.
  by apply returns_ret.
Qed.

Lemma calculate_all_coefficient (c : MetricsCalculator.t) :
  returns (MetricsCalculator.calculate_all c)
    (λ r, coefficient_of_fields r.1).
Proof.
  unfold MetricsCalculator.calculate_all.
  apply returns_bind_any. intros g.
  case_match; [by apply returns_ret|].
  apply returns_bind_any. intros node_metrics.
  eapply returns_bind; [apply graph_metrics_coefficient|].
  intros graph_metrics Hgm.
  unfold MetricsCalculator._identify_hubs_and_bottlenecks.
  case_bool_decide; by apply returns_ret.
Qed.

End calculator.

(** ** The optimizer *)

Section optimizer.
Context `{!nx.Algorithms, !np.Numeric}.
Import ShortcutOptimizer.

(** The candidate loop as a list comprehension. *)
Lemma run_generate_candidates (self : t) (policy : PolicyConstraints)
    (s : store) :
  _generate_candidates self policy s =
  (let g := graph_at s (graph self) in
   source ← nx.nodes g;
   if (max_new_edges_per_service policy <=? 0)%Z then []
   else (λ target, (source, target)) <$>
        filter (λ target, appended g policy source target = true)
               (nx.nodes g),
   s).
Proof.
  unfold _generate_candidates. rewrite run_bind, run_deref. simpl.
  rewrite run_ret. f_equal.
  rewrite <- (app_nil_l (_ ≫= _)), <- foldl_append_bind.
  apply foldl_ext_eq. intros acc source.
  rewrite get_dict_of_keys_const.
  case_match; [by rewrite app_nil_r|].
  apply foldl_append_if.
Qed.

Lemma elem_of_generate_candidates (self : t) (policy : PolicyConstraints)
    (s : store) (source target : string) :
  (source, target) ∈ (_generate_candidates self policy s).1 ↔
  let g := graph_at s (graph self) in
  (0 < max_new_edges_per_service policy)%Z ∧
  source ∈ nx.nodes g ∧ target ∈ nx.nodes g ∧
  appended g policy source target = true.
Proof.
  rewrite run_generate_candidates. simpl.
  rewrite list_elem_of_bind. split.
  - intros (u & Hin & Hu).
    case_match eqn:Hmax; [by apply not_elem_of_nil in Hin|].
    apply list_elem_of_fmap in Hin as (v & [= -> ->] & Hv).
    apply list_elem_of_filter in Hv as [Hv1 Hv2].
    repeat split; try done. lia.
  - intros (Hmax & Hu & Hv & Happ). exists source. split; [|done].
    case_match; [lia|].
    apply list_elem_of_fmap. exists target. split; [done|].
    by apply list_elem_of_filter.
Qed.

(** What reaching [candidates.append] means for a pair. *)
Lemma appended_true (g : nx.DiGraph) (policy : PolicyConstraints)
    (source target : string) :
  appended g policy source target = true ↔
  source ≠ target ∧
  nx.has_edge g source target = false ∧
  ((source, target) ∉ forbidden_pairs policy) ∧
  ((target, source) ∉ forbidden_pairs policy) ∧
  same_zone_check g policy source target = true ∧
  allowed_zones_check g policy source target = true ∧
  min_path_length_check g policy source target = true.
Proof.
  unfold appended.
  case_bool_decide as H1; [split; [done|by intros [? _]]|].
  destruct (nx.has_edge g source target);
    [split; [done|by intros (_&?&_)]|].
  case_bool_decide as H3; [split; [done|by intros (_&_&?&_)]|].
  case_bool_decide as H4; [split; [done|by intros (_&_&_&?&_)]|].
  destruct (same_zone_check g policy source target); simpl;
    [|split; [done|by intros (_&_&_&_&?&_)]].
  destruct (allowed_zones_check g policy source target); simpl;
    [|split; [done|by intros (_&_&_&_&_&?&_)]].
  split; [by intros ->|by intros (_&_&_&_&_&_&?)].
Qed.


Lemma allowed_zones_check_entry (g : nx.DiGraph) (policy : PolicyConstraints)
    (source target : string) (zones : list string) :
  zone_entry (allowed_zones policy) (zone_of g source) = Some zones →
  allowed_zones_check g policy source target =
  zone_in (zone_of g target) zones.
Proof.
  intros Hentry. unfold allowed_zones_check. rewrite Hentry.
  case_bool_decide as Hne; [by destruct (zone_in _ _)|].
  exfalso. rewrite Hne in Hentry.
  unfold zone_entry in Hentry. destruct (zone_of g source); [done|].
  by rewrite lookup_empty in Hentry.
Qed.

Lemma allowed_zones_check_without (g : nx.DiGraph)
    (policy : PolicyConstraints) (source target : string) :
  allowed_zones_check g (without_allowed_zones policy) source target = true.
Proof. unfold allowed_zones_check. simpl. by case_bool_decide. Qed.

Lemma estimate_shortcut_latency_store (self : ShortcutOptimizer.t)
    (u v : string) (s : store) :
  (ShortcutOptimizer._estimate_shortcut_latency self u v s).2 = s.
Proof.
  unfold ShortcutOptimizer._estimate_shortcut_latency.
  rewrite run_bind, run_deref. simpl. by case_match.
Qed.

(** The objective of the optimizer is a function of the average path
    length and the largest betweenness alone. *)
Lemma calculate_objective_eq (self : t) (metrics : GraphMetrics) :
  (_calculate_objective self metrics ==
   alpha self * average_path_length metrics +
   beta self * max_betweenness metrics)%Q.
Proof. unfold _calculate_objective. ring. Qed.

(** One evaluation, step by step: the baseline metrics are those of the
    optimizer's graph, the modified metrics those of a new object, the copy
    with the shortcut edge, which is all the evaluation adds to the
    store. *)
Lemma run_evaluate_candidate (self : t) (u v : string)
    (policy : PolicyConstraints) (s : store) :
  ∃ estimated_latency,
    let s' :=
      s ++ [nx.add_edge u v (shortcut_attrs estimated_latency 0)
              (graph_at s (graph self))] in
    let baseline :=
      (MetricsCalculator.calculate_all
         (MetricsCalculator.make (graph self)) s).1 in
    let modified :=
      (MetricsCalculator.calculate_all
         (MetricsCalculator.make (length s)) s').1 in
    let delta :=
      (_calculate_objective self modified.1 -
       _calculate_objective self baseline.1)%Q in
    (_evaluate_candidate self u v policy s).2 = s' ∧
    match (_evaluate_candidate self u v policy s).1 with
    | Some c =>
        Qge_bool delta 0 = false ∧ source c = u ∧ target c = v ∧
        delta_objective c = delta ∧
        risk_score c = _calculate_risk_score u v modified.2 ∧
        score c = (- delta / (risk_score c + epsilon self))%Q
    | None => Qge_bool delta 0 = true
    end.
Proof.
  unfold _evaluate_candidate.
  rewrite run_bind.
  pose proof (calculate_all_store
    (MetricsCalculator.make (graph self)) s) as E1.
  destruct (MetricsCalculator.calculate_all _ s) as [[bm bnm] s1].
  cbn [fst snd] in *. subst s1.
  rewrite run_bind, run_graph_copy. cbn [fst snd].
  rewrite run_bind.
  pose proof (estimate_shortcut_latency_store self u v
    (s ++ [graph_at s (graph self)])) as E2.
  destruct (_estimate_shortcut_latency _ _ _ _) as [latency s2].
  cbn [fst snd] in *. subst s2.
  exists latency.
  rewrite run_bind, run_graph_add_edge. cbn [fst snd].
  rewrite run_bind.
  pose proof (calculate_all_store (MetricsCalculator.make (length s))
    (s ++ [nx.add_edge u v (shortcut_attrs latency 0)
             (graph_at s (graph self))])) as E3.
  destruct (MetricsCalculator.calculate_all _ _) as [[mm mnm] s3].
  cbn [fst snd] in *. subst s3.
  destruct (Qge_bool _ 0) eqn:Hdelta; rewrite run_ret; cbn [fst snd]; done.
Qed.

Lemma risk_score_bounds (source target : string)
    (node_metrics : gmap string NodeMetrics) :
  betweenness_nonneg node_metrics →
  (0.1 <= _calculate_risk_score source target node_metrics <= 1)%Q.
Proof.
  intros Hnm. unfold _calculate_risk_score. split.
  - apply Q.min_glb; [|lra].
    destruct (node_metrics !! target) as [tm|] eqn:Ht;
      [pose proof (Hnm target tm Ht); simpl in *|];
      destruct (node_metrics !! source) as [sm|];
      repeat case_match; lra.
  - apply Q.le_min_r.
Qed.

Lemma evaluate_candidate_evaluated (self : t) (source target : string)
    (policy : PolicyConstraints) :
  returns (_evaluate_candidate self source target policy)
    (λ candidate, ∀ c, candidate = Some c → evaluated self source target c).
Proof.
  unfold _evaluate_candidate.
  apply returns_bind_any. intros [baseline_metrics ?].
  apply returns_bind_any. intros modified_graph.
  apply returns_bind_any. intros estimated_latency.
  apply returns_bind_any. intros _.
  eapply returns_bind; [apply calculate_all_betweenness_nonneg|].
  intros [modified_metrics modified_node_metrics] Hnm. simpl in Hnm.
  case_match eqn:Hdelta; apply returns_ret; intros c [= <-].
  repeat split; simpl; try done.
  - unfold Qge_bool in Hdelta.
    destruct (Qlt_le_dec (_calculate_objective self modified_metrics -
                _calculate_objective self baseline_metrics) 0) as [Hlt|Hle];
      [done|].
    apply Qle_bool_iff in Hle. congruence.
  - by apply risk_score_bounds.
  - by apply risk_score_bounds.
Qed.

(** Every candidate [find_shortcuts] returns was generated as a pair and
    evaluated. *)
Lemma find_shortcuts_evaluated (self : t) (k : Z)
    (policy : option PolicyConstraints) (s : store) :
  Forall (λ c, evaluated self (source c) (target c) c ∧
               (source c, target c) ∈
                 (_generate_candidates self
                    (default PolicyConstraints_default policy) s).1)
         (find_shortcuts self k policy s).1.
Proof.
  unfold find_shortcuts. rewrite run_bind, run_deref. cbn [fst snd].
  case_match; [by constructor|].
  rewrite run_bind.
  destruct (_generate_candidates self _ s) as [candidates s'].
  cbn [fst snd]. rewrite run_bind. cbn [fst snd]. rewrite run_ret.
  apply Forall_py_slice_to, Forall_sort_by_score.
  eapply (returns_for_each _ (λ p, p ∈ candidates));
    [by apply Forall_forall|by constructor|].
  intros acc [u v] Hin Hacc.
  eapply returns_bind; [apply evaluate_candidate_evaluated|].
  intros [c|] Hc; [|by apply returns_ret].
  destruct (Hc c eq_refl) as (Hu & Hv & Hrest).
  case_match; apply returns_ret; [|done].
  apply Forall_app. split; [done|]. constructor; [|constructor].
  rewrite Hu, Hv. split; [by apply Hc|done].
Qed.

(** The search adds objects to the store, the copies it evaluates, and
    changes none. *)
Lemma find_shortcuts_store (self : t) (k : Z)
    (policy : option PolicyConstraints) (s : store) :
  s `prefix_of` (find_shortcuts self k policy s).2.
Proof.
  unfold find_shortcuts. rewrite run_bind, run_deref. cbn [fst snd].
  case_match; [done|].
  rewrite run_bind, run_generate_candidates. cbn [fst snd].
  rewrite run_bind, run_ret. cbn [fst snd].
  apply for_each_store_extends. clear s H1.
  intros acc [u v] s. rewrite run_bind.
  destruct (run_evaluate_candidate self u v
              (default PolicyConstraints_default policy) s)
    as (latency & Hs' & _).
  cbn zeta in Hs'.
  destruct (_evaluate_candidate self u v _ s) as [[c|] s']; cbn [fst snd] in *;
    subst s'; repeat case_match; rewrite run_ret; by apply prefix_app_r.
Qed.

(** ** The claims *)

(** C3: no candidate returned by [find_shortcuts] has a delta_objective
    that is zero or positive; the delta_objective of an evaluation is the
    objective of the modified copy minus the objective of the optimizer's
    graph, and an evaluation whose difference is not negative returns no
    candidate. *)
Theorem find_shortcuts_delta_objective_negative (self : t) (k : Z)
    (policy : option PolicyConstraints) (s : store) :
  Forall (λ c, (delta_objective c < 0)%Q) (find_shortcuts self k policy s).1
  ∧ ∀ (u v : string) (p : PolicyConstraints),
      let s' := (_evaluate_candidate self u v p s).2 in
      let baseline_obj :=
        _calculate_objective self
          (MetricsCalculator.calculate_all
             (MetricsCalculator.make (graph self)) s).1.1 in
      let modified_obj :=
        _calculate_objective self
          (MetricsCalculator.calculate_all
             (MetricsCalculator.make (length s)) s').1.1 in
      match (_evaluate_candidate self u v p s).1 with
      | Some c =>
          delta_objective c = (modified_obj - baseline_obj)%Q ∧
          (delta_objective c < 0)%Q
      | None => (0 <= modified_obj - baseline_obj)%Q
      end.
Proof.
  split.
  - eapply Forall_impl; [apply find_shortcuts_evaluated|].
    by intros c [(_ & _ & Hdelta & _) _].
  - intros u v p.
    destruct (run_evaluate_candidate self u v p s) as (latency & Hs' & Hc).
    cbn zeta in *. rewrite Hs'.
    destruct (_evaluate_candidate self u v p s).1 as [c|].
    + destruct Hc as (Hdelta & _ & _ & -> & _).
      split; [done|]. by apply Qge_bool_false.
    + by apply Qle_bool_iff.
Qed.


(** C7: with [max_new_edges_per_service = 0], [find_shortcuts] returns the
    empty list, for every graph and every [k]. *)
Theorem find_shortcuts_no_new_edges (self : t) (k : Z)
    (policy : PolicyConstraints) (s : store) :
  max_new_edges_per_service policy = 0%Z →
  (find_shortcuts self k (Some policy) s).1 = [].
Proof.
  intros Hmax. unfold find_shortcuts.
  rewrite run_bind, run_deref. cbn [fst snd].
  case_match; [done|].
  change (default PolicyConstraints_default (Some policy)) with policy.
  rewrite run_bind, run_generate_candidates. cbn [fst snd].
  rewrite Hmax. cbn [Z.leb Z.compare]. rewrite bind_nil.
  rewrite run_bind. cbn [for_each]. rewrite !run_ret. cbn [fst snd].
  unfold py_slice_to. cbn [sort_by_score foldr]. case_match; apply take_nil.
Qed.

(** C8: simulating the empty list of shortcuts returns the graph metrics
    and the node metrics that [calculate_all] returns for the optimizer's
    graph. *)
Theorem simulate_shortcuts_nil (self : t) (s : store) :
  (simulate_shortcuts self [] s).1 =
  (MetricsCalculator.calculate_all
     (MetricsCalculator.make (graph self)) s).1.
Proof.
  unfold simulate_shortcuts.
  rewrite run_bind, run_graph_copy. cbn [fst snd].
  rewrite run_bind. cbn [for_each]. rewrite run_ret. cbn [fst snd].
  destruct (reads_calculate_all
              (MetricsCalculator.make (length s))
              (MetricsCalculator.make (graph self))
              (conj eq_refl eq_refl)
              (s ++ [graph_at s (graph self)]) s) as (r & -> & ->); [|done].
  apply graph_at_new.
Qed.

(** C9: [calculate_all] changes no object of the store, so the graph it
    is given is the same before and after; an evaluation of a candidate
    adds one object, the modified copy, and changes no object that was
    there, so the optimizer's graph is the same before and after; and so
    does a whole search. *)
Theorem metrics_and_evaluation_leave_graphs_unchanged
    (calc : MetricsCalculator.t) (self : t) (u v : string)
    (policy : PolicyConstraints) (s : store) :
  (MetricsCalculator.calculate_all calc s).2 = s
  ∧ (∃ copy, (_evaluate_candidate self u v policy s).2 = s ++ [copy])
  ∧ (∀ r g, s !! r = Some g →
            (_evaluate_candidate self u v policy s).2 !! r = Some g)
  ∧ ∀ k r g, s !! r = Some g →
             (find_shortcuts self k (Some policy) s).2 !! r = Some g.
Proof.
  destruct (run_evaluate_candidate self u v policy s) as (latency & Hs' & _).
  cbn zeta in Hs'. rewrite Hs'.
  split; [apply calculate_all_store|]. split; [by eexists|]. split.
  - intros r g Hr. by apply lookup_app_l_Some.
  - intros k r g Hr.
    destruct (find_shortcuts_store self k (Some policy) s) as [added ->].
    by apply lookup_app_l_Some.
Qed.

(** C10: with epsilon = 0.01, every candidate returned by [find_shortcuts]
    has a risk_score between 0.1 and 1, and a score of at most its
    improvement (minus its delta_objective) divided by 0.11. *)
Theorem find_shortcuts_risk_and_score_bounds (self : t) (k : Z)
    (policy : option PolicyConstraints) (s : store) :
  (epsilon self == 0.01)%Q →
  Forall (λ c, (0.1 <= risk_score c <= 1)%Q ∧
               (score c <= - delta_objective c / 0.11)%Q)
         (find_shortcuts self k policy s).1.
Proof.
  intros Heps.
  eapply Forall_impl; [apply find_shortcuts_evaluated|].
  intros c [(_ & _ & Hdelta & Hrisk & ->) _].
  split; [done|].
  apply Qdiv_le_denominator; lra.
Qed.

(** C5, as amended: when the zone of [source] is a key of [allowed_zones],
    the pair is generated exactly when the zone value of [target] (the
    empty string when the node has no zone attribute) is in the list of
    that key and the pair passes the other rules, that is, is generated
    under the policy without the allow-list.  A target whose zone is None
    or empty is in no list of zone names, and is rejected. *)
Theorem allowed_zones_rule (self : t) (policy : PolicyConstraints)
    (s : store) (source target : string) (zones : list string) :
  zone_entry (allowed_zones policy) (zone_of (graph_at s (graph self)) source)
    = Some zones →
  (source, target) ∈ (_generate_candidates self policy s).1 ↔
  zone_in (zone_of (graph_at s (graph self)) target) zones = true ∧
  (source, target) ∈
    (_generate_candidates self (without_allowed_zones policy) s).1.
Proof.
  intros Hentry. rewrite !elem_of_generate_candidates. cbn zeta.
  rewrite !appended_true.
  rewrite (allowed_zones_check_entry _ _ _ _ zones Hentry).
  rewrite allowed_zones_check_without.
  unfold same_zone_check, min_path_length_check. simpl. tauto.
Qed.

(** C4, as amended: the small-world coefficient [calculate_all] returns
    is 0 exactly when the graph has fewer than 3 nodes, or its average path
    length is 0, or it has no edge, or its average clustering is 0. *)
Theorem small_world_coefficient_zero (calc : MetricsCalculator.t)
    (s : store) :
  let gm := (MetricsCalculator.calculate_all calc s).1.1 in
  (small_world_coefficient gm == 0)%Q ↔
  (node_count gm < 3)%nat ∨ (average_path_length gm == 0)%Q ∨
  edge_count gm = 0%nat ∨ (average_clustering gm == 0)%Q.
Proof.
  intros gm.
  pose proof (calculate_all_coefficient calc s) as Hgm.
  unfold coefficient_of_fields in Hgm. cbn beta in Hgm. fold gm in Hgm.
  rewrite Hgm. apply small_world_coefficient_zero_iff.
Qed.

End optimizer.

(** ** Graph operations *)

Lemma nodes_add_node (n : string) (g : nx.DiGraph) :
  nx.nodes (nx.add_node n g) =
  if decide (n ∈ nx.nodes g) then nx.nodes g else nx.nodes g ++ [n].
Proof.
  unfold nx.add_node, nx.has_node.
  case_bool_decide; case_decide; try done.
  unfold nx.nodes. simpl. by rewrite fmap_app.
Qed.

Lemma nodes_add_node_with (n : string) (attr : NodeAttrs) (g : nx.DiGraph) :
  nx.nodes (nx.add_node_with n attr g) =
  if decide (n ∈ nx.nodes g) then nx.nodes g else nx.nodes g ++ [n].
Proof.
  unfold nx.add_node_with, nx.has_node.
  case_bool_decide; case_decide; try done; unfold nx.nodes; simpl.
  - rewrite <- list_fmap_compose. apply list_fmap_ext.
    intros i [m a] _. simpl. by case_decide.
  - by rewrite fmap_app.
Qed.

Lemma edge_data_add_node (n : string) (g : nx.DiGraph) :
  nx.edge_data (nx.add_node n g) = nx.edge_data g.
Proof. unfold nx.add_node. by case_match. Qed.

Lemma edge_data_add_node_with (n : string) (attr : NodeAttrs)
    (g : nx.DiGraph) :
  nx.edge_data (nx.add_node_with n attr g) = nx.edge_data g.
Proof. unfold nx.add_node_with. by case_match. Qed.

Lemma has_edge_true (g : nx.DiGraph) (u v : string) :
  nx.has_edge g u v = true ↔ (u, v) ∈ (nx.edge_data g).*1.
Proof. unfold nx.has_edge. by rewrite bool_decide_eq_true. Qed.

Lemma has_edge_false (g : nx.DiGraph) (u v : string) :
  nx.has_edge g u v = false ↔ (u, v) ∉ (nx.edge_data g).*1.
Proof. unfold nx.has_edge. by rewrite bool_decide_eq_false. Qed.

Lemma has_node_true (g : nx.DiGraph) (n : string) :
  nx.has_node g n = true ↔ n ∈ nx.nodes g.
Proof. unfold nx.has_node. by rewrite bool_decide_eq_true. Qed.

Lemma nodes_add_edge (u v : string) (attr : EdgeAttrs) (g : nx.DiGraph) :
  nx.nodes (nx.add_edge u v attr g) = nx.nodes (nx.add_node v (nx.add_node u g)).
Proof. done. Qed.

Lemma elem_of_nodes_add_node (n' n : string) (g : nx.DiGraph) :
  n' ∈ nx.nodes (nx.add_node n g) ↔ n' = n ∨ n' ∈ nx.nodes g.
Proof.
  rewrite nodes_add_node.
  case_decide; [|rewrite elem_of_app, list_elem_of_singleton];
    intuition congruence.
Qed.

Lemma elem_of_nodes_add_node_with (n' n : string) (attr : NodeAttrs)
    (g : nx.DiGraph) :
  n' ∈ nx.nodes (nx.add_node_with n attr g) ↔ n' = n ∨ n' ∈ nx.nodes g.
Proof.
  rewrite nodes_add_node_with.
  case_decide; [|rewrite elem_of_app, list_elem_of_singleton];
    intuition congruence.
Qed.

Lemma elem_of_nodes_add_edge (n u v : string) (attr : EdgeAttrs)
    (g : nx.DiGraph) :
  n ∈ nx.nodes (nx.add_edge u v attr g) ↔ n = u ∨ n = v ∨ n ∈ nx.nodes g.
Proof.
  rewrite nodes_add_edge, !elem_of_nodes_add_node. tauto.
Qed.

(** The pairs joined by the edges, after [add_edge]. *)
Lemma pairs_add_edge (u v : string) (attr : EdgeAttrs) (g : nx.DiGraph) :
  (nx.edge_data (nx.add_edge u v attr g)).*1 =
  if nx.has_edge g u v then (nx.edge_data g).*1
  else (nx.edge_data g).*1 ++ [(u, v)].
Proof.
  unfold nx.add_edge. cbn [nx.edge_data].
  unfold nx.has_edge at 1. rewrite !edge_data_add_node.
  fold (nx.has_edge g u v).
  destruct (nx.has_edge g u v).
  - rewrite <- list_fmap_compose. apply list_fmap_ext.
    intros i [p a] _. simpl. by case_decide.
  - by rewrite fmap_app.
Qed.

Lemma has_edge_add_edge (u v u' v' : string) (attr : EdgeAttrs)
    (g : nx.DiGraph) :
  nx.has_edge (nx.add_edge u v attr g) u' v' =
  bool_decide ((u', v') = (u, v)) || nx.has_edge g u' v'.
Proof.
  apply eq_true_iff_eq.
  rewrite orb_true_iff, bool_decide_eq_true, !has_edge_true, pairs_add_edge.
  destruct (nx.has_edge g u v) eqn:E.
  - apply has_edge_true in E. intuition congruence.
  - rewrite elem_of_app, list_elem_of_singleton. tauto.
Qed.

Lemma number_of_edges_add_edge (u v : string) (attr : EdgeAttrs)
    (g : nx.DiGraph) :
  nx.number_of_edges (nx.add_edge u v attr g) =
  if nx.has_edge g u v then nx.number_of_edges g
  else S (nx.number_of_edges g).
Proof.
  unfold nx.number_of_edges.
  rewrite <- (length_fmap fst (nx.edge_data (nx.add_edge _ _ _ _))).
  rewrite pairs_add_edge.
  destruct (nx.has_edge g u v);
    [|rewrite length_app, Nat.add_1_r]; by rewrite length_fmap.
Qed.

Lemma pairs_remove_edge (u v : string) (g g' : nx.DiGraph) :
  nx.remove_edge u v g = Some g' →
  nx.nodes g' = nx.nodes g ∧
  (nx.edge_data g').*1 = filter (λ p, p ≠ (u, v)) (nx.edge_data g).*1.
Proof.
  unfold nx.remove_edge. case_match; [|done]. intros [= <-].
  split; [done|]. cbn [nx.edge_data].
  induction (nx.edge_data g) as [|[p a] l IH]; [done|].
  rewrite fmap_cons. simpl.
  destruct (decide (p = (u, v))) as [->|Hp].
  - rewrite !filter_cons_False by (simpl; tauto). done.
  - rewrite !filter_cons_True by done. by rewrite fmap_cons, IH.
Qed.

(** ** Every operation keeps a graph well formed *)

Lemma Forall_filter_keep {A} (P Q : A → Prop) `{!∀ x, Decision (Q x)}
    (l : list A) :
  Forall P l → Forall P (filter Q l).
Proof.
  rewrite !Forall_forall. intros Hl x [_ Hx]%list_elem_of_filter. auto.
Qed.

Lemma well_formed_empty : well_formed nx.empty.
Proof. split; simpl; constructor. Qed.

Lemma well_formed_nodes (g g' : nx.DiGraph) (n : string) :
  nx.nodes g' = (if decide (n ∈ nx.nodes g) then nx.nodes g
                 else nx.nodes g ++ [n]) →
  nx.edge_data g' = nx.edge_data g →
  well_formed g → well_formed g'.
Proof.
  intros Hn He [H1 H2 H3]. split; rewrite ?Hn, ?He; [|done|].
  - case_decide; [done|]. apply NoDup_app. split; [done|]. split.
    + intros x Hx ->%list_elem_of_singleton. done.
    + apply NoDup_singleton.
  - eapply Forall_impl; [done|]. intros p [? ?].
    case_decide; rewrite ?elem_of_app; auto.
Qed.

Lemma well_formed_add_node (n : string) (g : nx.DiGraph) :
  well_formed g → well_formed (nx.add_node n g).
Proof.
  apply (well_formed_nodes g _ n);
    [apply nodes_add_node|apply edge_data_add_node].
Qed.

Lemma well_formed_add_node_with (n : string) (attr : NodeAttrs)
    (g : nx.DiGraph) :
  well_formed g → well_formed (nx.add_node_with n attr g).
Proof.
  apply (well_formed_nodes g _ n);
    [apply nodes_add_node_with|apply edge_data_add_node_with].
Qed.

Lemma well_formed_add_edge (u v : string) (attr : EdgeAttrs)
    (g : nx.DiGraph) :
  well_formed g → well_formed (nx.add_edge u v attr g).
Proof.
  intros Hg.
  pose proof (well_formed_add_node v _ (well_formed_add_node u _ Hg))
    as [H1 H2 H3].
  rewrite !edge_data_add_node in H2, H3.
  split.
  - by rewrite nodes_add_edge.
  - rewrite pairs_add_edge.
    destruct (nx.has_edge g u v) eqn:E; [done|].
    apply has_edge_false in E.
    apply NoDup_app. split; [done|]. split.
    + intros x Hx ->%list_elem_of_singleton. done.
    + apply NoDup_singleton.
  - rewrite pairs_add_edge, nodes_add_edge.
    destruct (nx.has_edge g u v); [done|].
    apply Forall_app. split; [done|].
    constructor; [|constructor]. simpl.
    rewrite !elem_of_nodes_add_node. auto.
Qed.

Lemma well_formed_remove_edge (u v : string) (g g' : nx.DiGraph) :
  nx.remove_edge u v g = Some g' → well_formed g → well_formed g'.
Proof.
  intros [Hn He]%pairs_remove_edge [H1 H2 H3].
  split; rewrite ?Hn, ?He; [done|by apply NoDup_filter|].
  by apply Forall_filter_keep.
Qed.

(** ** The graph builder *)

Lemma add_node_has (n : string) (g : nx.DiGraph) :
  n ∈ nx.nodes g → nx.add_node n g = g.
Proof.
  intros Hn%has_node_true. unfold nx.add_node. by rewrite Hn.
Qed.

Lemma add_dependency_edge_eq (edge : GraphBuilder.EdgeData) (g : nx.DiGraph) :
  GraphBuilder._add_dependency_edge edge g =
  nx.add_edge (GraphBuilder.source edge) (GraphBuilder.target edge)
    (dependency_attrs edge) g.
Proof.
  unfold GraphBuilder._add_dependency_edge. cbn zeta.
  fold (dependency_attrs edge).
  set (u := GraphBuilder.source edge). set (v := GraphBuilder.target edge).
  assert ((if nx.has_node g u then g else nx.add_node u g) = nx.add_node u g)
    as ->.
  { unfold nx.add_node. by destruct (nx.has_node g u). }
  assert ((if nx.has_node (nx.add_node u g) v then nx.add_node u g
           else nx.add_node v (nx.add_node u g)) =
          nx.add_node v (nx.add_node u g)) as ->.
  { destruct (nx.has_node (nx.add_node u g) v) eqn:E; [|done].
    symmetry. by apply add_node_has, has_node_true. }
  unfold nx.add_edge.
  rewrite (add_node_has u), (add_node_has v); [done| |];
    rewrite !elem_of_nodes_add_node; auto.
Qed.

Lemma add_service_node_eq (service : GraphBuilder.ServiceData)
    (g : nx.DiGraph) :
  GraphBuilder._add_service_node service g =
  nx.add_node_with (GraphBuilder.name service) (service_attrs service) g.
Proof. done. Qed.

Lemma build_snoc_edge (services : list GraphBuilder.ServiceData)
    (edges : list GraphBuilder.EdgeData) (edge : GraphBuilder.EdgeData) :
  GraphBuilder.build_from_topology services (edges ++ [edge]) =
  nx.add_edge (GraphBuilder.source edge) (GraphBuilder.target edge)
    (dependency_attrs edge) (GraphBuilder.build_from_topology services edges).
Proof.
  unfold GraphBuilder.build_from_topology.
  by rewrite foldl_snoc, add_dependency_edge_eq.
Qed.

Lemma build_snoc_service (services : list GraphBuilder.ServiceData)
    (service : GraphBuilder.ServiceData) :
  GraphBuilder.build_from_topology (services ++ [service]) [] =
  nx.add_node_with (GraphBuilder.name service) (service_attrs service)
    (GraphBuilder.build_from_topology services []).
Proof. unfold GraphBuilder.build_from_topology. simpl. by rewrite foldl_snoc. Qed.

(** Induction on the steps of [build_from_topology]. *)
Lemma build_ind (P : nx.DiGraph → Prop) :
  P nx.empty →
  (∀ service g, P g →
     P (nx.add_node_with (GraphBuilder.name service) (service_attrs service)
          g)) →
  (∀ edge g, P g →
     P (nx.add_edge (GraphBuilder.source edge) (GraphBuilder.target edge)
          (dependency_attrs edge) g)) →
  ∀ services edges, P (GraphBuilder.build_from_topology services edges).
Proof.
  intros Hempty Hservice Hedge services edges.
  induction edges as [|edge edges IH] using rev_ind.
  - induction services as [|service services IH] using rev_ind; [done|].
    rewrite build_snoc_service. by apply Hservice.
  - rewrite build_snoc_edge. by apply Hedge.
Qed.

Lemma build_from_topology_is_well_formed
    (services : list GraphBuilder.ServiceData)
    (edges : list GraphBuilder.EdgeData) :
  well_formed (GraphBuilder.build_from_topology services edges).
Proof.
  apply build_ind.
  - apply well_formed_empty.
  - intros service g. apply well_formed_add_node_with.
  - intros edge g. apply well_formed_add_edge.
Qed.

Lemma elem_of_nodes_build (services : list GraphBuilder.ServiceData)
    (edges : list GraphBuilder.EdgeData) (n : string) :
  n ∈ nx.nodes (GraphBuilder.build_from_topology services edges) ↔
  n ∈ GraphBuilder.name <$> services ∨
  n ∈ GraphBuilder.source <$> edges ∨ n ∈ GraphBuilder.target <$> edges.
Proof.
  induction edges as [|edge edges IH] using rev_ind.
  - rewrite !fmap_nil, !elem_of_nil.
    induction services as [|service services IH] using rev_ind.
    + rewrite fmap_nil. cbn. rewrite elem_of_nil. tauto.
    + rewrite build_snoc_service, elem_of_nodes_add_node_with, IH.
      rewrite fmap_app, elem_of_app, list_fmap_singleton,
        list_elem_of_singleton. tauto.
  - rewrite build_snoc_edge, elem_of_nodes_add_edge, IH.
    rewrite !fmap_app, !elem_of_app, !list_fmap_singleton,
      !list_elem_of_singleton. tauto.
Qed.

Lemma pairs_build_services (services : list GraphBuilder.ServiceData) :
  nx.edge_data (GraphBuilder.build_from_topology services []) = [].
Proof.
  induction services as [|service services IH] using rev_ind; [done|].
  by rewrite build_snoc_service, edge_data_add_node_with.
Qed.

Lemma has_edge_build (services : list GraphBuilder.ServiceData)
    (edges : list GraphBuilder.EdgeData) (u v : string) :
  nx.has_edge (GraphBuilder.build_from_topology services edges) u v = true ↔
  (u, v) ∈ ends <$> edges.
Proof.
  induction edges as [|edge edges IH] using rev_ind.
  - rewrite has_edge_true, pairs_build_services, !fmap_nil, !elem_of_nil. done.
  - rewrite build_snoc_edge, has_edge_add_edge, orb_true_iff, IH.
    rewrite bool_decide_eq_true, fmap_app, elem_of_app, list_fmap_singleton,
      list_elem_of_singleton.
    unfold ends at 3. tauto.
Qed.

(** With distinct service names, the nodes are the services, in order. *)
Lemma nodes_build_services (services : list GraphBuilder.ServiceData) :
  NoDup (GraphBuilder.name <$> services) →
  nx.nodes (GraphBuilder.build_from_topology services []) =
  GraphBuilder.name <$> services.
Proof.
  induction services as [|service services IH] using rev_ind; [done|].
  rewrite fmap_app. intros (Hnames & Hnew & _)%NoDup_app.
  rewrite build_snoc_service, nodes_add_node_with, IH by done.
  case_decide as Hin; [|done].
  destruct (Hnew _ Hin). by apply list_elem_of_singleton.
Qed.

Lemma build_exact (services : list GraphBuilder.ServiceData)
    (edges : list GraphBuilder.EdgeData) :
  NoDup (GraphBuilder.name <$> services) →
  NoDup (ends <$> edges) →
  Forall (λ edge, GraphBuilder.source edge ∈ GraphBuilder.name <$> services ∧
                  GraphBuilder.target edge ∈ GraphBuilder.name <$> services)
         edges →
  let g := GraphBuilder.build_from_topology services edges in
  nx.nodes g = GraphBuilder.name <$> services ∧
  (nx.edge_data g).*1 = ends <$> edges.
Proof.
  intros Hnames Hpairs Hends. cbn zeta.
  induction edges as [|edge edges IH] using rev_ind.
  - by rewrite nodes_build_services, pairs_build_services.
  - rewrite fmap_app in Hpairs. apply NoDup_app in Hpairs as (Hp & Hnew & _).
    apply Forall_app in Hends as [He [[Hu Hv] _]%Forall_cons].
    destruct (IH Hp He) as [IH1 IH2].
    rewrite build_snoc_edge. split.
    + rewrite nodes_add_edge, !nodes_add_node, IH1.
      destruct (decide (GraphBuilder.source edge ∈ _)); [|done].
      by destruct (decide (GraphBuilder.target edge ∈ _)).
    + rewrite pairs_add_edge.
      destruct (nx.has_edge _ _ _) eqn:E; [|by rewrite IH2, fmap_app].
      apply has_edge_build in E. destruct (Hnew _ E).
      by apply list_elem_of_singleton.
Qed.

(** The attributes of an edge are those of the last edge of the topology
    that joins its pair. *)
Lemma update_dependency_attrs (old : GraphBuilder.EdgeData)
    (edge : GraphBuilder.EdgeData) :
  nx.update_attrs (dependency_attrs old) (dependency_attrs edge) =
  dependency_attrs edge.
Proof. done. Qed.

Lemma elem_of_add_edge (u v : string) (attr : EdgeAttrs) (g : nx.DiGraph)
    (u' v' : string) (a : EdgeAttrs) :
  (u', v', a) ∈ nx.edge_data (nx.add_edge u v attr g) ↔
  if decide ((u', v') = (u, v)) then
    if nx.has_edge g u v
    then ∃ old, (u, v, old) ∈ nx.edge_data g ∧ a = nx.update_attrs old attr
    else a = attr
  else (u', v', a) ∈ nx.edge_data g.
Proof.
  unfold nx.add_edge. cbn [nx.edge_data].
  unfold nx.has_edge at 1. rewrite !edge_data_add_node.
  fold (nx.has_edge g u v).
  destruct (nx.has_edge g u v) eqn:E.
  - rewrite list_elem_of_fmap. case_decide as Hp.
    + injection Hp as -> ->. split.
      * intros ([p old] & Heq & Hin). simpl in Heq.
        destruct (decide (p = (u, v))) as [->|Hp]; simplify_eq.
        by exists old.
      * intros (old & Hin & ->). exists (u, v, old). simpl.
        by rewrite decide_True.
    + split.
      * intros ([p old] & Heq & Hin). simpl in Heq.
        case_decide; by simplify_eq.
      * intros Hin. exists (u', v', a). simpl. by rewrite decide_False.
  - apply has_edge_false in E.
    rewrite elem_of_app, list_elem_of_singleton. case_decide as Hp.
    + injection Hp as -> ->. split; [|intros ->; by right].
      intros [Hin|[= ->]]; [|done].
      destruct E. by apply (list_elem_of_fmap_2 fst) in Hin.
    + split; [|by left]. by intros [?|[= -> -> ->]].
Qed.

Lemma edge_data_build (services : list GraphBuilder.ServiceData)
    (edges : list GraphBuilder.EdgeData) (u v : string) (a : EdgeAttrs) :
  (u, v, a) ∈ nx.edge_data (GraphBuilder.build_from_topology services edges) ↔
  ∃ edge, last (filter (λ edge, ends edge = (u, v)) edges) = Some edge ∧
          a = dependency_attrs edge.
Proof.
  revert u v a. induction edges as [|edge edges IH] using rev_ind; intros u v a.
  - rewrite pairs_build_services, elem_of_nil. split; [done|].
    by intros (? & [=] & _).
  - rewrite build_snoc_edge, elem_of_add_edge, filter_app.
    case_decide as Hp.
    + injection Hp as -> ->.
      rewrite filter_cons_True, filter_nil, last_snoc by done.
      destruct (nx.has_edge _ _ _) eqn:E.
      * split.
        -- intros (old & Hold & ->). apply IH in Hold as (e' & _ & ->).
           exists edge. by rewrite update_dependency_attrs.
        -- intros (? & [= <-] & ->).
           apply has_edge_true, list_elem_of_fmap in E as ([p old] & Hp & Hin).
           simpl in Hp. subst p. exists old. split; [done|].
           apply IH in Hin as (e' & _ & ->).
           by rewrite update_dependency_attrs.
      * split; [intros ->; by exists edge|by intros (? & [= <-] & ->)].
    + rewrite filter_cons_False, filter_nil, app_nil_r by done. apply IH.
Qed.

(** The attributes of a node are those of the last service of its
    name. *)
Lemma lookup_node_data_update (l : list (string * NodeAttrs)) (n n' : string)
    (attr : NodeAttrs) :
  (list_to_map
     ((λ p, if decide (p.1 = n) then (n, nx.update_node_attrs p.2 attr)
            else p) <$> l) : gmap string NodeAttrs) !! n' =
  if decide (n' = n)
  then (λ old, nx.update_node_attrs old attr) <$>
       (list_to_map l : gmap string NodeAttrs) !! n
  else (list_to_map l : gmap string NodeAttrs) !! n'.
Proof.
  induction l as [|[m a] l IH].
  - rewrite fmap_nil. cbn [list_to_map foldr]. rewrite !lookup_empty.
    by case_decide.
  - rewrite fmap_cons. cbn [fst snd].
    destruct (decide (m = n)) as [->|Hm];
      rewrite !list_to_map_cons, !lookup_insert, IH;
      repeat case_decide; by simplify_eq.
Qed.

Lemma node_attrs_not_node (g : nx.DiGraph) (n : string) :
  n ∉ nx.nodes g → nx.node_attrs g n = no_node_attrs.
Proof.
  intros Hn. unfold nx.node_attrs.
  by rewrite (not_elem_of_list_to_map_1 _ _ Hn).
Qed.

Lemma node_attrs_add_node (n n' : string) (g : nx.DiGraph) :
  nx.node_attrs (nx.add_node n g) n' = nx.node_attrs g n'.
Proof.
  unfold nx.add_node. destruct (nx.has_node g n) eqn:E; [done|].
  apply bool_decide_eq_false in E.
  unfold nx.node_attrs. cbn [nx.node_data].
  rewrite list_to_map_snoc by done.
  destruct (decide (n' = n)) as [->|Hn'].
  - rewrite lookup_insert_eq. by rewrite (not_elem_of_list_to_map_1 _ _ E).
  - by rewrite lookup_insert_ne.
Qed.

Lemma node_attrs_add_edge (u v n : string) (attr : EdgeAttrs)
    (g : nx.DiGraph) :
  nx.node_attrs (nx.add_edge u v attr g) n = nx.node_attrs g n.
Proof.
  transitivity (nx.node_attrs (nx.add_node v (nx.add_node u g)) n); [done|].
  by rewrite !node_attrs_add_node.
Qed.

Lemma node_attrs_add_service (service : GraphBuilder.ServiceData) (n : string)
    (g : nx.DiGraph) :
  nx.node_attrs
    (nx.add_node_with (GraphBuilder.name service) (service_attrs service) g)
    n =
  if decide (n = GraphBuilder.name service) then service_attrs service
  else nx.node_attrs g n.
Proof.
  unfold nx.add_node_with. destruct (nx.has_node g _) eqn:E.
  - apply has_node_true in E.
    unfold nx.node_attrs. cbn [nx.node_data].
    rewrite lookup_node_data_update. case_decide as Hn; [|done].
    destruct (list_to_map _ !! _) as [old|] eqn:Hold.
    + by destruct old as [[?|] [?|] [?|] [?|]].
    + by apply not_elem_of_list_to_map in Hold.
  - apply bool_decide_eq_false in E.
    unfold nx.node_attrs. cbn [nx.node_data].
    rewrite list_to_map_snoc by done.
    case_decide as Hn.
    + subst n. by rewrite lookup_insert_eq.
    + by rewrite lookup_insert_ne.
Qed.

Lemma node_attrs_build (services : list GraphBuilder.ServiceData)
    (edges : list GraphBuilder.EdgeData) (n : string) :
  nx.node_attrs (GraphBuilder.build_from_topology services edges) n =
  match last (filter (λ service, GraphBuilder.name service = n) services) with
  | Some service => service_attrs service
  | None => no_node_attrs
  end.
Proof.
  induction edges as [|edge edges IH] using rev_ind.
  - induction services as [|service services IH] using rev_ind; [done|].
    rewrite build_snoc_service, node_attrs_add_service, filter_app.
    case_decide as Hn.
    + by rewrite filter_cons_True, filter_nil, last_snoc.
    + by rewrite filter_cons_False, filter_nil, app_nil_r.
  - by rewrite build_snoc_edge, node_attrs_add_edge.
Qed.

Lemma elem_of_edges (g : nx.DiGraph) (e : string * string * EdgeAttrs) :
  e ∈ nx.edges g ↔ e ∈ nx.edge_data g ∧ e.1.1 ∈ nx.nodes g.
Proof.
  unfold nx.edges. rewrite list_elem_of_bind. split.
  - intros (n & [<- He]%list_elem_of_filter & Hn). done.
  - intros [He Hn]. exists e.1.1. by rewrite list_elem_of_filter.
Qed.

Lemma elem_of_edges_well_formed (g : nx.DiGraph)
    (e : string * string * EdgeAttrs) :
  well_formed g → e ∈ nx.edges g ↔ e ∈ nx.edge_data g.
Proof.
  intros [_ _ Hends]. rewrite elem_of_edges. split; [tauto|].
  intros He. split; [done|].
  rewrite Forall_forall in Hends.
  by apply (Hends e.1), list_elem_of_fmap_2.
Qed.

Lemma elem_of_successors (g : nx.DiGraph) (u v : string) :
  v ∈ nx.successors g u ↔ nx.has_edge g u v = true.
Proof.
  rewrite has_edge_true. unfold nx.successors.
  rewrite !list_elem_of_fmap. split.
  - intros (p & -> &
      ([p' a] & -> & [Hu Hin]%list_elem_of_filter)%list_elem_of_fmap).
    simpl in *. subst u. exists (p', a). by destruct p'.
  - intros ([[u' v'] a] & [= <- <-] & Hin). exists (u, v). split; [done|].
    apply list_elem_of_fmap. exists (u, v, a). by rewrite list_elem_of_filter.
Qed.

Lemma elem_of_predecessors (g : nx.DiGraph) (u v : string) :
  u ∈ nx.predecessors g v ↔ nx.has_edge g u v = true.
Proof.
  rewrite has_edge_true. unfold nx.predecessors.
  rewrite !list_elem_of_fmap. split.
  - intros (p & -> &
      ([p' a] & -> & [Hu Hin]%list_elem_of_filter)%list_elem_of_fmap).
    simpl in *. subst v. exists (p', a). by destruct p'.
  - intros ([[u' v'] a] & [= <- <-] & Hin). exists (u, v). split; [done|].
    apply list_elem_of_fmap. exists (u, v, a). by rewrite list_elem_of_filter.
Qed.

Lemma filter_pairs_absent (u v : string)
    (l : list (string * string * EdgeAttrs)) :
  (u, v) ∉ l.*1 → filter (λ e, e.1 ≠ (u, v)) l = l.
Proof.
  induction l as [|[p a] l IH]; [done|].
  rewrite fmap_cons, not_elem_of_cons. intros [Hp Hl]. simpl in Hp.
  rewrite filter_cons_True by (simpl; congruence). by rewrite IH.
Qed.

Lemma length_filter_ne {A} `{EqDecision A} (x : A) (l : list A) :
  NoDup l → x ∈ l → length l = S (length (filter (λ y, y ≠ x) l)).
Proof.
  induction 1 as [|y l Hy Hl IH]; [by intros ?%elem_of_nil|].
  intros [->|Hx]%elem_of_cons.
  - rewrite filter_cons_False by tauto. simpl. f_equal.
    f_equal. symmetry. clear IH Hl.
    induction l as [|z l IH]; [done|].
    apply not_elem_of_cons in Hy as [? ?].
    rewrite filter_cons_True by done. f_equal. auto.
  - rewrite filter_cons_True by (intros ->; done). simpl. f_equal. auto.
Qed.

Lemma pairs_filter_source (n : string)
    (l : list (string * string * EdgeAttrs)) :
  (filter (λ e, e.1.1 = n) l).*1 = filter (λ p, p.1 = n) l.*1.
Proof.
  induction l as [|e l IH]; [done|].
  rewrite fmap_cons, !filter_cons. cbn [fst].
  case_decide; [rewrite fmap_cons|]; by rewrite IH.
Qed.

(** The pairs of [G.edges()]. *)
Lemma pairs_edges (g : nx.DiGraph) :
  (nx.edges g).*1 =
  (n ← nx.nodes g; filter (λ p, p.1 = n) (nx.edge_data g).*1).
Proof.
  unfold nx.edges. induction (nx.nodes g) as [|n ns IH]; [done|].
  by rewrite !bind_cons, fmap_app, IH, pairs_filter_source.
Qed.

(** ** The builder's methods *)

Section builder.
Import GraphBuilder.

(** X1: whatever the topology, [build_from_topology] returns a graph that
    lists a node once, has one edge per ordered pair, and whose edges join
    nodes. *)
Theorem build_from_topology_well_formed (services : list ServiceData)
    (edges : list EdgeData) :
  well_formed (build_from_topology services edges).
Proof. apply build_from_topology_is_well_formed. Qed.

(** X2: the nodes of the graph built are the names of the services and the
    end points of the edges (a service an edge names is created when it is
    not declared), and its edges join the pairs of the topology's edges. *)
Theorem build_from_topology_nodes_and_edges (services : list ServiceData)
    (edges : list EdgeData) :
  let g := build_from_topology services edges in
  (∀ n, has_node g n = true ↔
        n ∈ name <$> services ∨ n ∈ source <$> edges ∨ n ∈ target <$> edges)
  ∧ ∀ u v, has_edge g u v = true ↔ (u, v) ∈ ends <$> edges.
Proof.
  split.
  - intros n. unfold has_node. rewrite has_node_true. apply elem_of_nodes_build.
  - intros u v. apply has_edge_build.
Qed.

(** X3: when the service names are distinct, the edges join distinct
    pairs, and every edge joins two declared services, the nodes are the
    services in their order, [G.edges()] lists the pairs grouped by source
    (the sources in the order of the services, the edges of one source in
    the order of the topology), and the counts are the lengths of the two
    lists. *)
Theorem build_from_topology_counts (services : list ServiceData)
    (edges : list EdgeData) :
  NoDup (name <$> services) →
  NoDup (ends <$> edges) →
  Forall (λ edge, source edge ∈ name <$> services ∧
                  target edge ∈ name <$> services) edges →
  let g := build_from_topology services edges in
  nx.nodes g = name <$> services ∧
  (nx.edges g).*1 =
    (n ← name <$> services; filter (λ p, p.1 = n) (ends <$> edges)) ∧
  get_node_count g = length services ∧
  get_edge_count g = length edges.
Proof.
  intros Hnames Hpairs Hends g.
  destruct (build_exact services edges Hnames Hpairs Hends) as [Hn He].
  fold g in Hn, He. split; [done|]. split; [|split].
  - by rewrite pairs_edges, Hn, He.
  - unfold get_node_count, nx.number_of_nodes.
    by rewrite <- (length_fmap fst), <- (length_fmap name), <- Hn.
  - unfold get_edge_count, nx.number_of_edges.
    by rewrite <- (length_fmap fst), <- (length_fmap ends), <- He.
Qed.

(** X4: an edge of the graph built carries the attributes of the last
    edge of the topology that joins its pair: a later edge between the same
    two services replaces the metrics of an earlier one. *)
Theorem build_from_topology_last_edge_wins (services : list ServiceData)
    (edges : list EdgeData) (u v : string) (a : EdgeAttrs) :
  (u, v, a) ∈ nx.edge_data (build_from_topology services edges) ↔
  ∃ edge, last (filter (λ edge, ends edge = (u, v)) edges) = Some edge ∧
          a = dependency_attrs edge.
Proof. apply edge_data_build. Qed.

(** X5: every edge of the graph built has a positive weight: its median
    latency when that is positive, and 1 otherwise. *)
Theorem build_from_topology_weights (services : list ServiceData)
    (edges : list EdgeData) :
  Forall (λ e, ∃ w p50,
            attr_weight e.2 = Some w ∧ attr_p50_latency e.2 = Some p50 ∧
            (0 < w)%Q ∧
            ((0 < p50)%Q → w = p50) ∧ ((p50 <= 0)%Q → w = 1%Q))
         (nx.edges (build_from_topology services edges)).
Proof.
  apply Forall_forall. intros [[u v] a] [Hin _]%elem_of_edges.
  apply edge_data_build in Hin as (edge & _ & ->).
  eexists _, _. split; [done|]. split; [done|]. simpl.
  destruct (Qgt_bool (p50_latency edge) 0) eqn:E.
  - apply Qgt_bool_true in E. split; [done|]. split; [done|]. intros ?. lra.
  - assert (p50_latency edge <= 0)%Q.
    { apply Qnot_lt_le. intros H%Qgt_bool_true. congruence. }
    split; [lra|]. split; [|done]. intros ?. lra.
Qed.

(** X6: a node of the graph built carries the attributes of the last
    service of its name; a node no service declares, which an edge
    created, carries none, so that its zone reads as the empty string,
    while the zone of a service declared without one is None. *)
Theorem build_from_topology_node_attrs (services : list ServiceData)
    (edges : list EdgeData) (n : string) :
  let g := build_from_topology services edges in
  match last (filter (λ service, name service = n) services) with
  | Some service =>
      has_node g n = true ∧
      nx.node_attrs g n = service_attrs service ∧
      zone_of g n = match zone service with
                    | Some z => ZoneStr z
                    | None => ZoneNone
                    end
  | None =>
      has_node g n = true →
      nx.node_attrs g n = no_node_attrs ∧ zone_of g n = ZoneStr ""
  end.
Proof.
  intros g. unfold zone_of, g. rewrite node_attrs_build.
  destruct (last _) as [service|] eqn:E; [|done].
  split; [|done]. unfold has_node. apply has_node_true, elem_of_nodes_build.
  left. apply last_Some_elem_of, list_elem_of_filter in E as [<- E].
  by apply list_elem_of_fmap_2.
Qed.

(** X7: [add_shortcut_edge] returns False and leaves the graph as it is
    when the edge exists; otherwise it returns True, the edge is appended
    with [is_shortcut] set, the other edges are untouched and the edge
    count grows by one. *)
Theorem add_shortcut_edge_spec (u v : string)
    (call_rate p50_latency p95_latency error_rate cost : Q) (g : nx.DiGraph) :
  let r := add_shortcut_edge u v call_rate p50_latency p95_latency error_rate
             cost g in
  if has_edge g u v then r = (false, g)
  else
    r.1 = true ∧
    has_edge r.2 u v = true ∧
    get_edge_count r.2 = S (get_edge_count g) ∧
    (∃ a, nx.edge_data r.2 = nx.edge_data g ++ [(u, v, a)] ∧
          attr_is_shortcut a = Some true ∧ attr_call_rate a = Some call_rate) ∧
    (∀ n, has_node r.2 n = true ↔ n = u ∨ n = v ∨ has_node g n = true).
Proof.
  unfold add_shortcut_edge, has_edge, has_node, get_edge_count.
  destruct (nx.has_edge g u v) eqn:E; [done|]. cbn [fst snd].
  split; [done|]. split; [|split; [|split]].
  - rewrite has_edge_add_edge. by rewrite bool_decide_true.
  - by rewrite number_of_edges_add_edge, E.
  - eexists. split.
    + unfold nx.add_edge. cbn [nx.edge_data].
      unfold nx.has_edge at 1. rewrite !edge_data_add_node.
      fold (nx.has_edge g u v). by rewrite E.
    + done.
  - intros n. rewrite !has_node_true. apply elem_of_nodes_add_edge.
Qed.

(** X8: [remove_edge] never raises: it returns whether the edge existed;
    afterwards the edge is absent, every other edge and every node is as
    before, and the edge count of a well-formed graph has dropped by one
    when the edge existed. *)
Theorem remove_edge_spec (u v : string) (g : nx.DiGraph) :
  ∃ g', remove_edge u v g = Some (has_edge g u v, g') ∧
        nx.nodes g' = nx.nodes g ∧
        has_edge g' u v = false ∧
        (∀ u' v', (u', v') ≠ (u, v) → has_edge g' u' v' = has_edge g u' v') ∧
        (has_edge g u v = false → g' = g) ∧
        (well_formed g → has_edge g u v = true →
         get_edge_count g = S (get_edge_count g')).
Proof.
  unfold remove_edge, has_edge, get_edge_count.
  destruct (nx.has_edge g u v) eqn:E; cbn [negb].
  - destruct (nx.remove_edge u v g) as [g'|] eqn:Hg';
      [|unfold nx.remove_edge in Hg'; by rewrite E in Hg'].
    exists g'. cbn. split; [done|].
    destruct (pairs_remove_edge _ _ _ _ Hg') as [Hn He].
    split; [done|]. split; [|split; [|split; [done|]]].
    + apply has_edge_false. rewrite He, list_elem_of_filter. tauto.
    + intros u' v' Hne. apply eq_true_iff_eq.
      rewrite !has_edge_true, He, list_elem_of_filter. tauto.
    + intros [_ Hnodup _] _. unfold nx.number_of_edges.
      rewrite <- (length_fmap fst (nx.edge_data g)),
        <- (length_fmap fst (nx.edge_data g')), He.
      apply length_filter_ne; [done|by apply has_edge_true].
  - exists g. split; [done|]. split; [done|]. split; [done|]. done.
Qed.

(** X9: adding a shortcut between two nodes that no edge joins, and
    removing it again, gives the graph back. *)
Theorem add_then_remove_edge (u v : string)
    (call_rate p50_latency p95_latency error_rate cost : Q) (g : nx.DiGraph) :
  has_node g u = true → has_node g v = true → has_edge g u v = false →
  remove_edge u v
    (add_shortcut_edge u v call_rate p50_latency p95_latency error_rate cost
       g).2 = Some (true, g).
Proof.
  unfold has_node, has_edge, remove_edge, add_shortcut_edge.
  intros Hu%has_node_true Hv%has_node_true E.
  unfold has_edge. rewrite E. cbn [snd].
  rewrite has_edge_add_edge, bool_decide_true by done. cbn [orb negb].
  unfold nx.remove_edge.
  rewrite has_edge_add_edge, bool_decide_true by done. cbn [orb mbind option_bind].
  do 2 f_equal. unfold nx.add_edge.
  rewrite (add_node_has u g Hu), (add_node_has v g Hv), E.
  cbn [nx.node_data nx.edge_data].
  rewrite filter_app, filter_cons_False, filter_nil, app_nil_r by (simpl; tauto).
  rewrite filter_pairs_absent by by apply has_edge_false.
  by destruct g.
Qed.

(** X10: in a well-formed graph, [get_neighbors] and [get_predecessors]
    read the same edges from their two ends: v is a neighbour of u exactly
    when u is a predecessor of v, exactly when the edge (u, v) exists. *)
Theorem neighbors_and_predecessors (g : nx.DiGraph) (u v : string) :
  well_formed g →
  (v ∈ get_neighbors g u ↔ has_edge g u v = true) ∧
  (u ∈ get_predecessors g v ↔ has_edge g u v = true).
Proof.
  intros [_ _ Hends]. rewrite Forall_forall in Hends.
  unfold get_neighbors, get_predecessors, has_edge. split.
  - destruct (nx.has_node g u) eqn:Hu; cbn [negb].
    + apply elem_of_successors.
    + rewrite elem_of_nil. split; [done|]. intros He%has_edge_true.
      apply Hends in He as [He _]. apply has_node_true in He.
      simpl in He. congruence.
  - destruct (nx.has_node g v) eqn:Hv; cbn [negb].
    + apply elem_of_predecessors.
    + rewrite elem_of_nil. split; [done|]. intros He%has_edge_true.
      apply Hends in He as [_ He]. apply has_node_true in He.
      simpl in He. congruence.
Qed.

End builder.

(** ** More on lists and dicts *)

Lemma lookup_foldl_insert {V} (f : string → V) (xs : list string)
    (acc : gmap string V) (k : string) :
  foldl (λ m x, <[x := f x]> m) acc xs !! k =
  if decide (k ∈ xs) then Some (f k) else acc !! k.
Proof.
  revert acc. induction xs as [|x xs IH]; intros acc; simpl.
  - done.
  - rewrite IH. destruct (decide (k ∈ xs)) as [Hk|Hk].
    + rewrite decide_True; [done|by right].
    + rewrite lookup_insert. destruct (decide (x = k)) as [->|Hx].
      * rewrite decide_True; [done|by left].
      * rewrite decide_False; [done|].
        rewrite elem_of_cons. intros [?|?]; congruence.
Qed.

Lemma get_dict_of_keys {A} (ns : list string) (v : string → A) (k : string)
    (d : A) :
  k ∈ ns → get (dict_of_keys ns v) k d = v k.
Proof.
  intros Hk. unfold get, dict_of_keys.
  destruct (list_to_map _ !! k) as [x|] eqn:E.
  - by apply elem_of_list_to_map_2, list_elem_of_fmap in E as (n & [= -> ->] & _).
  - apply not_elem_of_list_to_map in E. destruct E.
    rewrite <- list_fmap_compose. by apply list_elem_of_fmap; exists k.
Qed.

Lemma foldl_max_increasing (xs : list Q) (m : Q) :
  (m <= foldl (λ m y, if Qgt_bool y m then y else m) m xs)%Q.
Proof.
  revert m. induction xs as [|z xs IH]; intros m; simpl; [lra|].
  eapply Qle_trans; [|apply IH].
  destruct (Qgt_bool z m) eqn:E; [apply Qgt_bool_true in E|]; lra.
Qed.

Lemma foldl_max_upper (xs : list Q) (m x : Q) :
  x ∈ xs → (x <= foldl (λ m y, if Qgt_bool y m then y else m) m xs)%Q.
Proof.
  revert m. induction xs as [|z xs IH]; intros m; simpl.
  - by intros ?%elem_of_nil.
  - intros [Hx|Hx]%elem_of_cons; [subst x|by apply IH].
    eapply Qle_trans; [|apply foldl_max_increasing].
    destruct (Qgt_bool z m) eqn:E; [lra|].
    apply Qnot_lt_le. intros H%Qgt_bool_true. congruence.
Qed.

Lemma py_max_default_upper (d : Q) (xs : list Q) (x : Q) :
  x ∈ xs → (x <= py_max_default d xs)%Q.
Proof.
  destruct xs as [|y xs]; [by intros ?%elem_of_nil|]. simpl.
  intros [Hx|Hx]%elem_of_cons.
  - subst x. apply foldl_max_increasing.
  - by apply foldl_max_upper.
Qed.

Lemma py_max_default_elem (d : Q) (xs : list Q) :
  xs ≠ [] → py_max_default d xs ∈ xs.
Proof.
  destruct xs as [|y xs]; [done|]. intros _. simpl.
  revert y. induction xs as [|z xs IH]; intros y; simpl; [by left|].
  destruct (Qgt_bool z y).
  - right. apply IH.
  - specialize (IH y). apply elem_of_cons in IH as [IH|IH].
    + rewrite IH. by left.
    + by do 2 right.
Qed.

Lemma values_fmap {A B} (f : A → B) (m : gmap string A) :
  values (f <$> m) ≡ₚ f <$> values m.
Proof.
  unfold values. rewrite map_to_list_fmap, <- !list_fmap_compose.
  by erewrite list_fmap_ext; [|by intros i [k x] _].
Qed.

Lemma values_fmap_eq {A B} (f : A → B) (m : gmap string A) :
  values (f <$> m) = f <$> values m.
Proof.
  unfold values. rewrite map_to_list_fmap, <- !list_fmap_compose.
  by apply list_fmap_ext; intros i [k x] _.
Qed.

Lemma elem_of_values {A} (m : gmap string A) (x : A) :
  x ∈ values m ↔ ∃ k, m !! k = Some x.
Proof.
  unfold values. rewrite list_elem_of_fmap. split.
  - intros ([k y] & -> & Hin). exists k. by apply elem_of_map_to_list.
  - intros (k & Hk). exists (k, x). split; [done|].
    by apply elem_of_map_to_list.
Qed.

Lemma length_filter_fmap_ext {A B} (P : B → Prop) (R : A → Prop)
    `{!∀ x, Decision (P x)} `{!∀ x, Decision (R x)} (f : A → B)
    (xs : list A) :
  (∀ x, x ∈ xs → P (f x) ↔ R x) →
  length (filter P (f <$> xs)) = length (filter R xs).
Proof.
  induction xs as [|x xs IH]; intros HPR; [done|].
  rewrite fmap_cons.
  assert (P (f x) ↔ R x) as Hx by (apply HPR; by left).
  assert (length (filter P (f <$> xs)) = length (filter R xs)) as IH'.
  { apply IH. intros y Hy. apply HPR. by right. }
  destruct (decide (R x)) as [HR|HR].
  - rewrite !filter_cons_True by tauto. simpl. by rewrite IH'.
  - rewrite !filter_cons_False by tauto. done.
Qed.

(** ** What the calculator returns *)

Section calculator_results.
Context `{!nx.Algorithms, !np.Numeric}.
Import MetricsCalculator.

Lemma reads_run {A} (r : ref) (m : M A) (s : store) :
  reads r r m m → m s = ((m s).1, s).
Proof. intros Hm. by destruct (Hm s s eq_refl) as (a & -> & _). Qed.

(** The node metrics before the hubs and bottlenecks are marked. *)
Lemma run_calculate_node_metrics (c : t) (s : store) :
  let g := graph_at s (graph c) in
  ∃ f : string → NodeMetrics,
    _calculate_node_metrics c s =
      (foldl (λ m n, <[n := f n]> m) ∅ (nx.nodes g), s) ∧
    ∀ n, name (f n) = n ∧
         in_degree (f n) = get (nx.in_degree g) n 0 ∧
         out_degree (f n) = get (nx.out_degree g) n 0 ∧
         total_degree (f n) = (in_degree (f n) + out_degree (f n))%nat ∧
         incoming_load (f n) = get (_calculate_incoming_load c s).1 n 0%Q ∧
         outgoing_load (f n) = get (_calculate_outgoing_load c s).1 n 0%Q ∧
         is_hub (f n) = false ∧ is_bottleneck (f n) = false ∧
         (0 <= betweenness_centrality (f n))%Q.
Proof.
  intros g. unfold _calculate_node_metrics.
  rewrite run_bind, run_deref. cbn [fst snd]. fold g.
  rewrite run_bind, (reads_run _ _ s (reads_incoming_load c c)). cbn [fst snd].
  rewrite run_bind, (reads_run _ _ s (reads_outgoing_load c c)). cbn [fst snd].
  rewrite run_ret.
  eexists. split; [reflexivity|]. intros n. cbn.
  repeat split. apply get_betweenness_nonneg.
Qed.

Lemma run_calculate_graph_metrics (c : t) (nm : gmap string NodeMetrics)
    (s : store) :
  let g := graph_at s (graph c) in
  let n := nx.number_of_nodes g in
  n ≠ 0%nat →
  ∃ gm, _calculate_graph_metrics c nm s = (gm, s) ∧
    node_count gm = n ∧ edge_count gm = nx.number_of_edges g ∧
    density gm =
      (if (0 <? n * (n - 1))%nat
       then QofNat (nx.number_of_edges g) / QofNat (n * (n - 1)) else 0)%Q ∧
    is_connected gm = (weakly_connected_components gm =? 1)%nat ∧
    max_betweenness gm =
      py_max_default 0 (betweenness_centrality <$> values nm) ∧
    total_load gm = Qsum (incoming_load <$> values nm) ∧
    hub_count gm = 0%nat ∧ bottleneck_count gm = 0%nat.
Proof.
  intros g n Hn. unfold _calculate_graph_metrics.
  rewrite run_bind, run_deref. cbn [fst snd]. fold g. fold n.
  destruct (Nat.eqb_spec n 0) as [?|_]; [done|].
  rewrite run_bind, (reads_run _ _ s (reads_average_path_length c c)).
  cbn [fst snd].
  rewrite run_bind, (reads_run _ _ s (reads_weighted_average_path_length c c)).
  cbn [fst snd].
  rewrite run_bind, (reads_run _ _ s (reads_diameter c c)). cbn [fst snd].
  rewrite run_ret.
  eexists. split; [reflexivity|]. cbn. repeat split.
Qed.

Lemma identify_spec (c : t) (nm : gmap string NodeMetrics)
    (gm : GraphMetrics) :
  nm ≠ ∅ →
  ∃ (hub_degree_threshold bottleneck_threshold : Q)
    (visit : NodeMetrics → NodeMetrics),
    let hub x := Qge_bool (QofNat (total_degree x)) hub_degree_threshold in
    let bottleneck x :=
      Qge_bool (betweenness_centrality x) bottleneck_threshold in
    let r := _identify_hubs_and_bottlenecks c nm gm in
    r.1 = visit <$> nm ∧
    (∀ x, name (visit x) = name x ∧
          in_degree (visit x) = in_degree x ∧
          out_degree (visit x) = out_degree x ∧
          total_degree (visit x) = total_degree x ∧
          betweenness_centrality (visit x) = betweenness_centrality x ∧
          incoming_load (visit x) = incoming_load x ∧
          outgoing_load (visit x) = outgoing_load x ∧
          is_hub (visit x) = (if hub x then true else is_hub x) ∧
          is_bottleneck (visit x) =
            (if bottleneck x then true else is_bottleneck x) ∧
          vulnerability_score (visit x) = _calculate_vulnerability x) ∧
    hub_count r.2 = length (filter (λ x, hub x) (values nm)) ∧
    bottleneck_count r.2 = length (filter (λ x, bottleneck x) (values nm)) ∧
    node_count r.2 = node_count gm ∧ edge_count r.2 = edge_count gm ∧
    density r.2 = density gm ∧ is_connected r.2 = is_connected gm ∧
    weakly_connected_components r.2 = weakly_connected_components gm ∧
    max_betweenness r.2 = max_betweenness gm ∧
    total_load r.2 = total_load gm.
Proof.
  intros Hnm. unfold _identify_hubs_and_bottlenecks.
  rewrite bool_decide_false by done.
  eexists _, _, _. cbn zeta. cbn [fst snd]. split; [reflexivity|].
  split; [|by cbn]. intros x. by cbn.
Qed.

Lemma run_calculate_all (c : t) (s : store) :
  let g := graph_at s (graph c) in
  calculate_all c s =
  (if (nx.number_of_nodes g =? 0)%nat then (GraphMetrics_default, ∅)
   else
     let nm := (_calculate_node_metrics c s).1 in
     let gm := (_calculate_graph_metrics c nm s).1 in
     let r := _identify_hubs_and_bottlenecks c nm gm in
     (r.2, r.1),
   s).
Proof.
  intros g. unfold calculate_all.
  rewrite run_bind, run_deref. cbn [fst snd]. fold g.
  case_match; [done|].
  rewrite run_bind, (reads_run _ _ s (reads_node_metrics c c)). cbn [fst snd].
  rewrite run_bind, (reads_run _ _ s (reads_graph_metrics c c _)).
  cbn [fst snd].
  by destruct (_identify_hubs_and_bottlenecks _ _ _).
Qed.

Lemma number_of_nodes_0 (g : nx.DiGraph) :
  nx.number_of_nodes g = 0%nat ↔ nx.nodes g = [].
Proof.
  unfold nx.number_of_nodes, nx.nodes.
  rewrite <- (length_fmap fst). apply length_zero_iff_nil.
Qed.

(** The result of [calculate_all], node by node. *)
Lemma calculate_all_spec (c : t) (s : store) :
  let g := graph_at s (graph c) in
  let r := (calculate_all c s).1 in
  ∃ (hub_degree_threshold bottleneck_threshold : Q)
    (base : string → NodeMetrics),
    let hub x := Qge_bool (QofNat (total_degree x)) hub_degree_threshold in
    let bottleneck x :=
      Qge_bool (betweenness_centrality x) bottleneck_threshold in
    (∀ n, r.2 !! n =
          if decide (n ∈ nx.nodes g) then Some (base n) else None) ∧
    (∀ n, n ∈ nx.nodes g →
          name (base n) = n ∧
          in_degree (base n) = length (nx.predecessors g n) ∧
          out_degree (base n) = length (nx.successors g n) ∧
          total_degree (base n) =
            (in_degree (base n) + out_degree (base n))%nat ∧
          incoming_load (base n) =
            get (_calculate_incoming_load c s).1 n 0%Q ∧
          outgoing_load (base n) =
            get (_calculate_outgoing_load c s).1 n 0%Q ∧
          is_hub (base n) = hub (base n) ∧
          is_bottleneck (base n) = bottleneck (base n) ∧
          vulnerability_score (base n) = _calculate_vulnerability (base n) ∧
          (0 <= betweenness_centrality (base n) <= max_betweenness r.1)%Q) ∧
    hub_count r.1 = length (filter (λ x, is_hub x = true) (values r.2)) ∧
    bottleneck_count r.1 =
      length (filter (λ x, is_bottleneck x = true) (values r.2)) ∧
    (nx.nodes g ≠ [] →
     ∃ n, n ∈ nx.nodes g ∧
          betweenness_centrality (base n) = max_betweenness r.1) ∧
    node_count r.1 = nx.number_of_nodes g ∧
    (nx.nodes g ≠ [] →
     edge_count r.1 = nx.number_of_edges g ∧
     density r.1 =
       (let n := nx.number_of_nodes g in
        if (0 <? n * (n - 1))%nat
        then QofNat (nx.number_of_edges g) / QofNat (n * (n - 1)) else 0)%Q ∧
     is_connected r.1 = (weakly_connected_components r.1 =? 1)%nat).
Proof.
  intros g r. unfold r. rewrite run_calculate_all. fold g. cbn [fst].
  destruct (Nat.eqb_spec (nx.number_of_nodes g) 0) as [Hn|Hn].
  { apply number_of_nodes_0 in Hn as Hnodes.
    exists 0%Q, 0%Q,
      (λ n, {| name := n; in_degree := 0; out_degree := 0; total_degree := 0;
               betweenness_centrality := 0; closeness_centrality := 0;
               clustering_coefficient := 0; pagerank := 0;
               incoming_load := 0; outgoing_load := 0; is_hub := false;
               is_bottleneck := false; vulnerability_score := 0 |}).
    cbn [fst snd]. rewrite Hnodes.
    split; [intros n; by rewrite lookup_empty|].
    split; [by intros n ?%elem_of_nil|].
    do 4 (split; [done|]). by split. }
  assert (nx.nodes g ≠ []) as Hnodes by by rewrite <- number_of_nodes_0.
  destruct (run_calculate_node_metrics c s) as (f & Hnm & Hf).
  fold g in Hnm, Hf. rewrite Hnm. cbn [fst].
  set (nm := foldl (λ m n, <[n := f n]> m) ∅ (nx.nodes g)).
  destruct (run_calculate_graph_metrics c nm s Hn)
    as (gm & Hgm & Hcount & Hedges & Hdensity & Hconn & Hmax & Hload & _).
  fold g in Hcount, Hedges, Hdensity. rewrite Hgm. cbn [fst].
  assert (nm ≠ ∅) as Hnm0.
  { destruct (nx.nodes g) as [|n0 ns] eqn:E; [done|].
    intros Hnm0. assert (nm !! n0 = None) as Hnone by by rewrite Hnm0.
    unfold nm in Hnone. rewrite lookup_foldl_insert, decide_True in Hnone;
      [done|by left]. }
  destruct (identify_spec c nm gm Hnm0)
    as (hub_thr & bott_thr & visit & Hr1 & Hvisit & Hhubs & Hbotts & Hc' &
        He' & Hd' & Hconn' & Hw' & Hmax' & Hload').
  cbn zeta in *. cbn [fst snd]. rewrite Hr1.
  exists hub_thr, bott_thr, (λ n, visit (f n)).
  assert (∀ x, x ∈ values nm → ∃ n, n ∈ nx.nodes g ∧ x = f n) as Hvalues.
  { intros x (n & Hx)%elem_of_values. unfold nm in Hx.
    rewrite lookup_foldl_insert in Hx. case_decide; [|done].
    exists n. split; [done|]. congruence. }
  assert (∀ n, n ∈ nx.nodes g → f n ∈ values nm) as Hvalues'.
  { intros n Hin. apply elem_of_values. exists n. unfold nm.
    by rewrite lookup_foldl_insert, decide_True. }
  split; [|split; [|split; [|split; [|split; [|split]]]]].
  - intros n. rewrite lookup_fmap. unfold nm.
    rewrite lookup_foldl_insert. by case_decide.
  - intros n Hin.
    destruct (Hf n) as (Hname & Hin_ & Hout & Htot & Hinc & Hout_ & Hhub &
                        Hbott & Hbetw).
    destruct (Hvisit (f n)) as (Vname & Vin & Vout & Vtot & Vbetw & Vinc &
                                Vout_ & Vhub & Vbott & Vvul).
    rewrite Vname, Vin, Vout, Vtot, Vbetw, Vinc, Vout_, Vhub, Vbott, Vvul.
    rewrite Hhub, Hbott.
    split; [done|].
    split.
    { rewrite Hin_.
      by apply (get_dict_of_keys _ (λ n, length (nx.predecessors g n))). }
    split.
    { rewrite Hout.
      by apply (get_dict_of_keys _ (λ n, length (nx.successors g n))). }
    split; [done|]. split; [done|]. split; [done|].
    split; [by destruct (Qge_bool (QofNat (total_degree (f n))) hub_thr)|].
    split; [by destruct (Qge_bool (betweenness_centrality (f n)) bott_thr)|].
    split.
    { unfold _calculate_vulnerability. by rewrite Vbetw, Vinc, Vout_. }
    split; [done|]. rewrite Hmax', Hmax.
    apply py_max_default_upper, list_elem_of_fmap_2, Hvalues', Hin.
  - rewrite Hhubs, values_fmap. apply eq_sym, length_filter_fmap_ext.
    intros x (n & _ & ->)%Hvalues.
    destruct (Hvisit (f n)) as (_ & _ & _ & _ & _ & _ & _ & -> & _).
    destruct (Hf n) as (_ & _ & _ & _ & _ & _ & -> & _).
    by destruct (Qge_bool _ _).
  - rewrite Hbotts, values_fmap. apply eq_sym, length_filter_fmap_ext.
    intros x (n & _ & ->)%Hvalues.
    destruct (Hvisit (f n)) as (_ & _ & _ & _ & _ & _ & _ & _ & -> & _).
    destruct (Hf n) as (_ & _ & _ & _ & _ & _ & _ & -> & _).
    by destruct (Qge_bool _ _).
  - intros _. rewrite Hmax', Hmax.
    assert (betweenness_centrality <$> values nm ≠ []) as Hne.
    { destruct (nx.nodes g) as [|n0 ns] eqn:E; [done|].
      assert (f n0 ∈ values nm) as Hin by (apply Hvalues'; by left).
      intros Hnil. apply (list_elem_of_fmap_2 betweenness_centrality) in Hin.
      rewrite Hnil in Hin. by apply elem_of_nil in Hin. }
    apply (py_max_default_elem 0) in Hne.
    apply list_elem_of_fmap in Hne as (x & Hx & (n & Hin & ->)%Hvalues).
    exists n. split; [done|].
    destruct (Hvisit (f n)) as (_ & _ & _ & _ & -> & _). done.
  - by rewrite Hc'.
  - intros _. by rewrite He', Hd', Hconn', Hw'.
Qed.

End calculator_results.

(** ** Loads *)

(** The loop of [_calculate_incoming_load] and [_calculate_outgoing_load],
    for the end [key] of an edge: the entry of a node receives the call
    rates of its edges one by one, in the order of the edges. *)
Lemma get_loads (key : string * string * EdgeAttrs → string)
    (es : list (string * string * EdgeAttrs)) (load : gmap string Q)
    (n : string) :
  is_Some (load !! n) →
  get (foldl (λ load e,
                let call_rate := default 0%Q (attr_call_rate e.2) in
                alter (λ x, x + call_rate)%Q (key e) load)
             load es) n 0%Q =
  foldl Qplus (get load n 0%Q) (call_rate_of <$> filter (λ e, key e = n) es).
Proof.
  revert load. induction es as [|e es IH]; intros load [x Hx]; [done|].
  cbn [foldl]. rewrite filter_cons.
  destruct (decide (key e = n)) as [He|He].
  - rewrite IH by (rewrite He, lookup_alter_eq, Hx; by eexists).
    rewrite fmap_cons. cbn [foldl]. unfold get at 1 2.
    by rewrite He, lookup_alter_eq, Hx.
  - rewrite IH by (rewrite lookup_alter_ne, Hx by done; by eexists).
    unfold get at 1 2. by rewrite lookup_alter_ne by done.
Qed.

Lemma zero_dict_lookup (ns : list string) (n : string) :
  n ∈ ns → dict_of_keys ns (λ _, 0%Q) !! n = Some 0%Q.
Proof.
  intros Hn. unfold dict_of_keys.
  destruct (list_to_map _ !! n) as [x|] eqn:E.
  - by apply elem_of_list_to_map_2, list_elem_of_fmap in E
      as (? & [= _ ->] & _).
  - apply not_elem_of_list_to_map in E. destruct E.
    rewrite <- list_fmap_compose. apply list_elem_of_fmap. by exists n.
Qed.

Lemma length_bind_const {A B} (f : A → list B) (l : list A) (k : nat) :
  (∀ x, x ∈ l → length (f x) = k) → length (l ≫= f) = (length l * k)%nat.
Proof.
  induction l as [|x l IH]; intros Hf; [done|].
  rewrite bind_cons, length_app, IH, (Hf x); [done|by left|].
  intros y Hy. apply Hf. by right.
Qed.

(** A directed graph without self-loops on n nodes has at most n (n - 1)
    edges. *)
Lemma length_pairs_bound (ns : list string) (ps : list (string * string)) :
  NoDup ns → NoDup ps →
  Forall (λ p, p.1 ∈ ns ∧ p.2 ∈ ns ∧ p.1 ≠ p.2) ps →
  length ps ≤ length ns * (length ns - 1).
Proof.
  intros Hns Hps Hends.
  rewrite <- (length_bind_const
                (λ u, (λ v, (u, v)) <$> filter (λ v, v ≠ u) ns) ns).
  - apply submseteq_length, NoDup_submseteq; [done|].
    intros [u v] Hin. rewrite Forall_forall in Hends.
    destruct (Hends _ Hin) as (Hu & Hv & Hne). simpl in *.
    apply list_elem_of_bind. exists u. split; [|done].
    apply list_elem_of_fmap. exists v. split; [done|].
    apply list_elem_of_filter. split; [congruence|done].
  - intros u Hu. rewrite length_fmap.
    pose proof (length_filter_ne u ns Hns Hu). lia.
Qed.

Section metrics.
Context `{!nx.Algorithms, !np.Numeric}.
Import MetricsCalculator.

Lemma run_incoming_load (c : t) (s : store) :
  (_calculate_incoming_load c s).1 =
  let g := graph_at s (graph c) in
  foldl (λ load e,
           let call_rate := default 0%Q (attr_call_rate e.2) in
           alter (λ x, x + call_rate)%Q e.1.2 load)
        (dict_of_keys (nx.nodes g) (λ _, 0%Q)) (nx.edges g).
Proof. done. Qed.

Lemma run_outgoing_load (c : t) (s : store) :
  (_calculate_outgoing_load c s).1 =
  let g := graph_at s (graph c) in
  foldl (λ load e,
           let call_rate := default 0%Q (attr_call_rate e.2) in
           alter (λ x, x + call_rate)%Q e.1.1 load)
        (dict_of_keys (nx.nodes g) (λ _, 0%Q)) (nx.edges g).
Proof. done. Qed.

Lemma loads_nonneg (key : string * string * EdgeAttrs → string)
    (es : list (string * string * EdgeAttrs)) (load : gmap string Q)
    (n : string) :
  Forall (λ e, 0 <= call_rate_of e)%Q es →
  map_Forall (λ _ x, 0 <= x)%Q load →
  (0 <= get (foldl (λ load e,
                      let call_rate := default 0%Q (attr_call_rate e.2) in
                      alter (λ x, x + call_rate)%Q (key e) load)
                   load es) n 0)%Q.
Proof.
  intros Hes. revert load.
  induction Hes as [|e es He Hes IH]; intros load Hload.
  - simpl. unfold get. destruct (load !! n) as [x|] eqn:E; simpl; [|lra].
    by apply (Hload n).
  - cbn [foldl]. apply IH. intros k x. rewrite lookup_alter.
    case_decide as Hk; [subst k|apply Hload].
    destruct (load !! key e) as [y|] eqn:E; [|done]. intros [= <-].
    pose proof (Hload _ y E) as Hy. unfold call_rate_of in He. simpl in *.
    lra.
Qed.

Lemma zero_dict_nonneg (ns : list string) :
  map_Forall (λ _ x, 0 <= x)%Q (dict_of_keys ns (λ _, 0%Q)).
Proof.
  intros k x Hx.
  apply elem_of_list_to_map_2, list_elem_of_fmap in Hx as (n & [= _ ->] & _).
  lra.
Qed.

Lemma incoming_load_nonneg (c : t) (s : store) (n : string) :
  Forall (λ e, 0 <= call_rate_of e)%Q (nx.edges (graph_at s (graph c))) →
  (0 <= get (_calculate_incoming_load c s).1 n 0)%Q.
Proof.
  intros Hrates. rewrite run_incoming_load.
  apply (loads_nonneg (λ e, e.1.2)); [done|apply zero_dict_nonneg].
Qed.

Lemma outgoing_load_nonneg (c : t) (s : store) (n : string) :
  Forall (λ e, 0 <= call_rate_of e)%Q (nx.edges (graph_at s (graph c))) →
  (0 <= get (_calculate_outgoing_load c s).1 n 0)%Q.
Proof.
  intros Hrates. rewrite run_outgoing_load.
  apply (loads_nonneg (λ e, e.1.1)); [done|apply zero_dict_nonneg].
Qed.

(** The load of a node: the call rates of its edges, added up from 0 in
    the order of [G.edges()]. *)
Lemma get_incoming_load (c : t) (s : store) (n : string) :
  let g := graph_at s (graph c) in
  n ∈ nx.nodes g →
  get (_calculate_incoming_load c s).1 n 0%Q =
  Qsum (call_rate_of <$> filter (λ e, e.1.2 = n) (nx.edges g)).
Proof.
  intros g Hn. rewrite run_incoming_load. fold g. cbn zeta.
  rewrite (get_loads (λ e, e.1.2)) by (rewrite zero_dict_lookup by done; by eexists).
  unfold get. by rewrite zero_dict_lookup.
Qed.

Lemma get_outgoing_load (c : t) (s : store) (n : string) :
  let g := graph_at s (graph c) in
  n ∈ nx.nodes g →
  get (_calculate_outgoing_load c s).1 n 0%Q =
  Qsum (call_rate_of <$> filter (λ e, e.1.1 = n) (nx.edges g)).
Proof.
  intros g Hn. rewrite run_outgoing_load. fold g. cbn zeta.
  rewrite (get_loads (λ e, e.1.1)) by (rewrite zero_dict_lookup by done; by eexists).
  unfold get. by rewrite zero_dict_lookup.
Qed.

End metrics.

Section metrics_theorems.
Context `{!nx.Algorithms, !np.Numeric}.
Import MetricsCalculator.

(** X11: [calculate_all] returns one NodeMetrics per node of the graph,
    under the node's name, and none for another key; its degrees are the
    numbers of predecessors and successors of the node, its total degree
    their sum, and node_count is the number of nodes (0 and the empty dict
    for the empty graph). *)
Theorem calculate_all_node_metrics (c : t) (s : store) :
  let g := graph_at s (graph c) in
  let r := (calculate_all c s).1 in
  node_count r.1 = nx.number_of_nodes g ∧
  (∀ n, is_Some (r.2 !! n) ↔ n ∈ nx.nodes g) ∧
  ∀ n nm, r.2 !! n = Some nm →
    name nm = n ∧
    in_degree nm = length (nx.predecessors g n) ∧
    out_degree nm = length (nx.successors g n) ∧
    total_degree nm = (in_degree nm + out_degree nm)%nat.
Proof.
  intros g r.
  destruct (calculate_all_spec c s)
    as (ht & bt & base & Hlookup & Hbase & _ & _ & _ & Hcount & _).
  fold g r in Hlookup, Hbase, Hcount.
  split; [done|]. split.
  - intros n. rewrite Hlookup. case_decide; [|by split; [intros []|]].
    split; [done|by eexists].
  - intros n nm. rewrite Hlookup. case_decide as Hn; [|done]. intros [= <-].
    destruct (Hbase n Hn) as (? & ? & ? & ? & _). done.
Qed.

(** X12: hub_count and bottleneck_count are the numbers of nodes whose
    metrics have [is_hub] and [is_bottleneck] set. *)
Theorem hub_and_bottleneck_counts (c : t) (s : store) :
  let r := (calculate_all c s).1 in
  hub_count r.1 = length (filter (λ nm, is_hub nm = true) (values r.2)) ∧
  bottleneck_count r.1 =
    length (filter (λ nm, is_bottleneck nm = true) (values r.2)).
Proof.
  intros r.
  destruct (calculate_all_spec c s)
    as (ht & bt & base & _ & _ & Hhubs & Hbotts & _).
  done.
Qed.

(** X13: max_betweenness is the largest betweenness of a node: no node
    exceeds it, some node has it when the graph has a node, and it is never
    negative. *)
Theorem max_betweenness_is_maximum (c : t) (s : store) :
  let r := (calculate_all c s).1 in
  (0 <= max_betweenness r.1)%Q ∧
  (∀ n nm, r.2 !! n = Some nm →
     (0 <= betweenness_centrality nm <= max_betweenness r.1)%Q) ∧
  (r.2 ≠ ∅ →
   ∃ n nm, r.2 !! n = Some nm ∧
           betweenness_centrality nm = max_betweenness r.1).
Proof.
  intros r.
  destruct (calculate_all_spec c s)
    as (ht & bt & base & Hlookup & Hbase & _ & _ & Hmax & _).
  fold r in Hlookup, Hbase, Hmax.
  set (g := graph_at s (graph c)) in *.
  assert (∀ n nm, r.2 !! n = Some nm →
            (0 <= betweenness_centrality nm <= max_betweenness r.1)%Q)
    as Hall.
  { intros n nm. rewrite Hlookup. case_decide as Hn; [|done]. intros [= <-].
    by destruct (Hbase n Hn) as (_ & _ & _ & _ & _ & _ & _ & _ & _ & ?). }
  assert (r.2 ≠ ∅ →
          ∃ n nm, r.2 !! n = Some nm ∧
                  betweenness_centrality nm = max_betweenness r.1) as Hsome.
  { intros Hne. destruct Hmax as (n & Hn & Hmax).
    - intros Hnil. apply Hne, map_empty. intros n.
      rewrite Hlookup, Hnil. by rewrite decide_False by apply not_elem_of_nil.
    - exists n, (base n). by rewrite Hlookup, decide_True. }
  split; [|done].
  destruct (decide (r.2 = ∅)) as [Hempty|Hne].
  - destruct (decide (nx.nodes g = [])) as [Hnil|Hnodes].
    + unfold r. rewrite run_calculate_all. fold g.
      apply number_of_nodes_0 in Hnil. rewrite Hnil. simpl. lra.
    + destruct (nx.nodes g) as [|n ns] eqn:E; [done|].
      assert (r.2 !! n = None) as Hn by by rewrite Hempty.
      rewrite Hlookup, decide_True in Hn; [done|by left].
  - destruct (Hsome Hne) as (n & nm & Hn & <-). by apply (Hall n).
Qed.

(** X14: a node is a hub exactly when its total degree reaches
    [np.percentile(degrees, hub_threshold * 100)], and a bottleneck exactly
    when its betweenness reaches
    [np.percentile(betweenness_values, bottleneck_threshold * 100)], where
    [degrees] and [betweenness_values] are the total degrees and the
    betweenness values of all the nodes. *)
Theorem hubs_and_bottlenecks_by_threshold (c : t) (s : store) (n : string)
    (nm : NodeMetrics) :
  let r := (calculate_all c s).1 in
  let degrees := (λ nm, QofNat (total_degree nm)) <$> values r.2 in
  let betweenness_values := betweenness_centrality <$> values r.2 in
  let hub_degree_threshold :=
    np.percentile degrees (hub_threshold c * 100) in
  let bottleneck_threshold :=
    np.percentile betweenness_values (bottleneck_threshold c * 100) in
  r.2 !! n = Some nm →
  (is_hub nm = true ↔
   (hub_degree_threshold <= QofNat (total_degree nm))%Q) ∧
  (is_bottleneck nm = true ↔
   (bottleneck_threshold <= betweenness_centrality nm)%Q).
Proof.
  cbn zeta. rewrite run_calculate_all. cbn zeta. cbn [fst].
  set (g := graph_at s (graph c)).
  destruct (Nat.eqb_spec (nx.number_of_nodes g) 0) as [Hn|Hn]; [done|].
  destruct (run_calculate_node_metrics c s) as (f & Hrun & Hf).
  fold g in Hrun. rewrite Hrun. cbn [fst snd].
  set (node_metrics := foldl (λ m n, <[n := f n]> m) ∅ (nx.nodes g)).
  set (gm := (_calculate_graph_metrics c node_metrics s).1).
  unfold _identify_hubs_and_bottlenecks.
  case_bool_decide as Hempty; [cbn [fst snd]; by rewrite Hempty, lookup_empty|].
  cbn zeta. cbn [fst snd].
  rewrite !values_fmap_eq, <- !list_fmap_compose.
  rewrite lookup_fmap.
  destruct (node_metrics !! n) as [x|] eqn:E; [|done]. intros [= <-].
  cbn [is_hub is_bottleneck total_degree betweenness_centrality].
  assert (x = f n) as ->.
  { unfold node_metrics in E. rewrite lookup_foldl_insert in E.
    case_decide; [congruence|by rewrite lookup_empty in E]. }
  destruct (Hf n) as (_ & _ & _ & _ & _ & _ & -> & -> & _).
  unfold Qge_bool. rewrite <- !Qle_bool_iff. unfold compose. cbn.
  split; by case_match.
Qed.

(** X15: the incoming load of a node is the sum of the call rates of the
    edges that enter it, and its outgoing load the sum of those of the
    edges that leave it: the rates are added one by one to 0, in the order
    of [G.edges()], an edge without call rate counting for 0, so a node
    without such an edge has load 0. *)
Theorem node_loads_are_edge_sums (c : t) (s : store) (n : string)
    (nm : NodeMetrics) :
  let g := graph_at s (graph c) in
  let r := (calculate_all c s).1 in
  r.2 !! n = Some nm →
  incoming_load nm =
    foldl Qplus 0%Q (call_rate_of <$> filter (λ e, e.1.2 = n) (nx.edges g)) ∧
  outgoing_load nm =
    foldl Qplus 0%Q (call_rate_of <$> filter (λ e, e.1.1 = n) (nx.edges g)).
Proof.
  intros g r.
  destruct (calculate_all_spec c s)
    as (ht & bt & base & Hlookup & Hbase & _).
  fold g r in Hlookup, Hbase.
  rewrite Hlookup. case_decide as Hn; [|done]. intros [= <-].
  destruct (Hbase n Hn) as (_ & _ & _ & _ & -> & -> & _).
  split; [by apply get_incoming_load|by apply get_outgoing_load].
Qed.

(** X16: the density of a well-formed graph without self-loops lies
    between 0 and 1. *)
Theorem density_bounds (c : t) (s : store) :
  let g := graph_at s (graph c) in
  let r := (calculate_all c s).1 in
  well_formed g → (∀ u, nx.has_edge g u u = false) →
  (0 <= density r.1 <= 1)%Q.
Proof.
  intros g r [Hnodes Hedges Hends] Hloops.
  destruct (decide (nx.nodes g = [])) as [Hnil|Hne].
  { unfold r. rewrite run_calculate_all. fold g.
    apply number_of_nodes_0 in Hnil. rewrite Hnil. simpl. lra. }
  destruct (calculate_all_spec c s) as (ht & bt & base & Hspec).
  fold g r in Hspec.
  destruct Hspec as (_ & _ & _ & _ & _ & _ & Hfields).
  destruct (Hfields Hne) as (_ & -> & _). cbn zeta.
  set (n := nx.number_of_nodes g). set (m := nx.number_of_edges g).
  destruct (Nat.ltb_spec 0 (n * (n - 1))) as [Hpos|_]; [|lra].
  assert (m ≤ n * (n - 1)) as Hm.
  { unfold m, n, nx.number_of_edges, nx.number_of_nodes.
    rewrite <- (length_fmap fst (nx.edge_data g)).
    rewrite <- (length_fmap fst (nx.node_data g)).
    apply length_pairs_bound; [done|done|].
    apply Forall_forall. intros [u v] Hin. rewrite Forall_forall in Hends.
    destruct (Hends _ Hin) as [Hu Hv]. split; [done|]. split; [done|].
    simpl. intros ->. apply has_edge_true in Hin. by rewrite Hloops in Hin. }
  assert (0 < QofNat (n * (n - 1)))%Q as Hden.
  { unfold QofNat. change 0%Q with (inject_Z 0). rewrite <- Zlt_Qlt. lia. }
  split.
  - apply Reference.Qdiv_nonneg; [apply Reference.QofNat_nonneg|lra].
  - apply Qle_shift_div_r; [done|]. rewrite Qmult_1_l.
    unfold QofNat. rewrite <- Zle_Qle. lia.
Qed.

(** X17: the small-world coefficient is never negative when the clustering
    and the path length it is computed from are not. *)
Theorem small_world_coefficient_nonneg (clustering path_length : Q)
    (n m : nat) :
  (0 <= clustering)%Q → (0 <= path_length)%Q →
  (0 <= _calculate_small_world_coefficient clustering path_length
          (Z.of_nat n) (Z.of_nat m))%Q.
Proof.
  intros Hc Hp. unfold _calculate_small_world_coefficient.
  destruct (Qeq_bool path_length 0) eqn:Hpl; simpl; [lra|].
  apply Qeq_bool_false in Hpl.
  destruct (Z.ltb_spec (Z.of_nat n) 3) as [Hn|Hn]; [lra|].
  destruct (Z.ltb_spec 1 (Z.of_nat n)) as [_|?]; [|lia].
  destruct (Z.ltb_spec 0 (Z.of_nat n)) as [_|?]; [|lia].
  pose proof (random_path_length_pos n
                (inject_Z (2 * Z.of_nat m) / inject_Z (Z.of_nat n))
                ltac:(lia)) as Hrpl.
  set (random_path_length := if Qgt_bool _ 1 then _ else _) in *.
  clearbody random_path_length.
  set (p := (inject_Z (Z.of_nat m) / _)%Q).
  destruct (Qeq_bool p 0 || Qeq_bool random_path_length 0); [lra|].
  apply Reference.Qdiv_nonneg.
  - destruct (Qgt_bool p 0) eqn:Hgt; [|lra].
    apply Qgt_bool_true in Hgt. apply Reference.Qdiv_nonneg; lra.
  - apply Reference.Qdiv_nonneg; lra.
Qed.

(** X18: the vulnerability score of a node is at most 0.6 times its
    betweenness plus 0.4, whatever its load; and it is at least 0.6 times
    its betweenness, so never negative, when no edge has a negative call
    rate. *)
Theorem vulnerability_bounds (c : t) (s : store) (n : string)
    (nm : NodeMetrics) :
  let g := graph_at s (graph c) in
  let r := (calculate_all c s).1 in
  r.2 !! n = Some nm →
  (vulnerability_score nm <= 0.6 * betweenness_centrality nm + 0.4)%Q ∧
  (Forall (λ e, 0 <= call_rate_of e)%Q (nx.edges g) →
   (0 <= 0.6 * betweenness_centrality nm <= vulnerability_score nm)%Q).
Proof.
  intros g r.
  destruct (calculate_all_spec c s)
    as (ht & bt & base & Hlookup & Hbase & _).
  fold g r in Hlookup, Hbase.
  rewrite Hlookup. case_decide as Hn; [|done]. intros [= <-].
  destruct (Hbase n Hn)
    as (_ & _ & _ & _ & Hinc & Hout & _ & _ & -> & Hbetw & _).
  unfold _calculate_vulnerability. cbn zeta.
  set (load := ((incoming_load (base n) + outgoing_load (base n)) / 10000)%Q).
  split.
  - pose proof (Q.le_min_r load 1). lra.
  - intros Hrates.
    assert (0 <= load)%Q as Hload.
    { unfold load. apply Reference.Qdiv_nonneg; [|lra].
      rewrite Hinc, Hout.
      pose proof (incoming_load_nonneg c s n Hrates).
      pose proof (outgoing_load_nonneg c s n Hrates). lra. }
    assert (0 <= Qmin load 1)%Q by (apply Q.min_glb; lra).
    lra.
Qed.

End metrics_theorems.

(** ** More on the optimizer *)

Lemma graph_at_copy (s : store) (r : ref) :
  graph_at (s ++ [graph_at s r]) r = graph_at s r.
Proof.
  unfold graph_at. destruct (s !! r) as [g|] eqn:E.
  - by rewrite (lookup_app_l_Some _ _ _ _ E).
  - apply lookup_ge_None in E. simpl.
    destruct (decide (r = length s)) as [->|Hr].
    + by rewrite lookup_app_r, Nat.sub_diag by lia.
    + rewrite lookup_ge_None_2; [done|]. rewrite length_app. simpl. lia.
Qed.

Lemma graph_at_app (s s' : store) (r : ref) :
  (r < length s)%nat → graph_at (s ++ s') r = graph_at s r.
Proof. intros Hr. unfold graph_at. by rewrite lookup_app_l. Qed.

Lemma graph_at_valid (s : store) (r : ref) :
  graph_at s r ≠ nx.empty → (r < length s)%nat.
Proof.
  intros Hg. apply lookup_lt_is_Some. unfold graph_at in Hg.
  destruct (s !! r); [by eexists|done].
Qed.

Section optimizer_runs.
Context `{!nx.Algorithms, !np.Numeric}.
Import ShortcutOptimizer.

(** A calculator with the default thresholds computes the metrics of the
    graph behind its reference. *)
Lemma run_calculate_all_make (r : ref) (s : store) :
  MetricsCalculator.calculate_all (MetricsCalculator.make r) s =
  (metrics_of (graph_at s r), s).
Proof.
  destruct (reads_calculate_all (MetricsCalculator.make r)
              (MetricsCalculator.make 0) (conj eq_refl eq_refl)
              s [graph_at s r] eq_refl) as (a & -> & E).
  unfold metrics_of. by rewrite E.
Qed.

Lemma reads_estimate_shortcut_latency (self : t) (u v : string) :
  reads (graph self) (graph self)
    (_estimate_shortcut_latency self u v) (_estimate_shortcut_latency self u v).
Proof. unfold _estimate_shortcut_latency. repeat reads_step. Qed.

(** One evaluation, in full. *)
Lemma run_evaluate_candidate_full (self : t) (u v : string)
    (policy : PolicyConstraints) (s : store) :
  let g := graph_at s (graph self) in
  let latency := (_estimate_shortcut_latency self u v s).1 in
  let g' := nx.add_edge u v (shortcut_attrs latency 0) g in
  let baseline := metrics_of g in
  let modified := metrics_of g' in
  let delta_obj :=
    (_calculate_objective self modified.1 -
     _calculate_objective self baseline.1)%Q in
  let delta_path :=
    (average_path_length modified.1 - average_path_length baseline.1)%Q in
  let delta_betweenness :=
    (max_betweenness modified.1 - max_betweenness baseline.1)%Q in
  let delta_weighted :=
    (weighted_average_path_length modified.1 -
     weighted_average_path_length baseline.1)%Q in
  let risk := _calculate_risk_score u v modified.2 in
  _evaluate_candidate self u v policy s =
  (if Qge_bool delta_obj 0 then None
   else Some {| source := u;
                target := v;
                delta_objective := delta_obj;
                delta_path_length := delta_path;
                delta_max_betweenness := delta_betweenness;
                delta_weighted_path_length := delta_weighted;
                risk_score := risk;
                confidence :=
                  _calculate_confidence delta_obj baseline.1 modified.1;
                score := (- delta_obj / (risk + epsilon self))%Q;
                rationale :=
                  _generate_rationale u v delta_path delta_betweenness
                    delta_weighted;
                estimated_latency := latency;
                estimated_call_rate := 0 |},
   s ++ [g']).
Proof.
  intros g latency g'. cbn zeta. unfold _evaluate_candidate.
  rewrite run_bind, run_calculate_all_make. cbn [fst snd]. fold g.
  destruct (metrics_of g) as [baseline_metrics baseline_node_metrics] eqn:Hb.
  rewrite run_bind, run_graph_copy. cbn [fst snd]. fold g.
  rewrite run_bind.
  destruct (reads_estimate_shortcut_latency self u v (s ++ [g]) s)
    as (latency' & -> & E); [apply graph_at_copy|].
  cbn [fst snd].
  assert (latency' = latency) as -> by (unfold latency; by rewrite E).
  rewrite run_bind, run_graph_add_edge. cbn [fst snd]. fold g'.
  rewrite run_bind, run_calculate_all_make, graph_at_new. cbn [fst snd].
  destruct (metrics_of g') as [modified_metrics modified_node_metrics].
  cbn [fst snd].
  by destruct (Qge_bool _ 0).
Qed.

Lemma estimate_shortcut_latency_graph (self : t) (u v : string)
    (s1 s2 : store) :
  graph_at s1 (graph self) = graph_at s2 (graph self) →
  (_estimate_shortcut_latency self u v s1).1 =
  (_estimate_shortcut_latency self u v s2).1.
Proof.
  intros Hg.
  by destruct (reads_estimate_shortcut_latency self u v s1 s2 Hg)
    as (a & -> & ->).
Qed.

(** The result of an evaluation depends on the optimizer's graph only. *)
Lemma evaluate_candidate_graph (self : t) (u v : string)
    (policy : PolicyConstraints) (s1 s2 : store) :
  graph_at s1 (graph self) = graph_at s2 (graph self) →
  (_evaluate_candidate self u v policy s1).1 =
  (_evaluate_candidate self u v policy s2).1.
Proof.
  intros Hg. rewrite !run_evaluate_candidate_full. cbn [fst].
  by rewrite Hg, (estimate_shortcut_latency_graph self u v s1 s2 Hg).
Qed.

Lemma evaluate_candidate_store (self : t) (u v : string)
    (policy : PolicyConstraints) (s : store) :
  ∃ g', (_evaluate_candidate self u v policy s).2 = s ++ [g'].
Proof. rewrite run_evaluate_candidate_full. by eexists. Qed.

(** The loop of [find_shortcuts], all evaluations read at one store. *)
Lemma run_find_shortcuts_loop (self : t) (policy : PolicyConstraints)
    (s0 : store) (candidates : list (string * string))
    (acc : list ShortcutCandidate) (s : store) :
  (graph self < length s)%nat →
  graph_at s (graph self) = graph_at s0 (graph self) →
  (for_each candidates acc (λ evaluated '(source, target),
     let! candidate := _evaluate_candidate self source target policy in
     match candidate with
     | Some candidate =>
         if Qgt_bool (score candidate) 0
         then ret (evaluated ++ [candidate]) else ret evaluated
     | None => ret evaluated
     end) s).1 =
  acc ++ omap (λ p, kept (_evaluate_candidate self p.1 p.2 policy s0).1)
              candidates.
Proof.
  revert acc s. induction candidates as [|[u v] candidates IH];
    intros acc s Hr Hg; cbn [for_each omap list_omap].
  - by rewrite app_nil_r.
  - rewrite run_bind, run_bind.
    destruct (evaluate_candidate_store self u v policy s) as (g' & Hs).
    pose proof (evaluate_candidate_graph self u v policy s s0 Hg) as Hv.
    destruct (_evaluate_candidate self u v policy s) as [candidate s'].
    cbn [fst snd] in *. subst s'. rewrite <- Hv.
    assert ((graph self < length (s ++ [g']))%nat) as Hr'
      by (rewrite length_app; lia).
    assert (graph_at (s ++ [g']) (graph self) = graph_at s0 (graph self))
      as Hg' by by rewrite graph_at_app.
    destruct candidate as [c|]; cbn [kept mbind option_bind].
    + destruct (Qgt_bool (score c) 0); rewrite run_ret; cbn [fst snd].
      * rewrite IH by done. by rewrite <- app_assoc.
      * by rewrite IH.
    + rewrite run_ret. cbn [fst snd]. by rewrite IH.
Qed.

Lemma run_find_shortcuts (self : t) (k : Z)
    (policy : option PolicyConstraints) (s : store) :
  (find_shortcuts self k policy s).1 =
  let g := graph_at s (graph self) in
  if (nx.number_of_nodes g <? 2)%nat then []
  else
    let policy := default PolicyConstraints_default policy in
    py_slice_to k
      (sort_by_score
         (omap (λ p, kept (_evaluate_candidate self p.1 p.2 policy s).1)
               (_generate_candidates self policy s).1)).
Proof.
  unfold find_shortcuts. rewrite run_bind, run_deref. cbn [fst snd].
  destruct (Nat.ltb_spec (nx.number_of_nodes (graph_at s (graph self))) 2)
    as [|Hn]; [done|].
  rewrite run_bind, run_generate_candidates. cbn [fst snd].
  rewrite run_bind, run_ret. cbn [fst snd].
  rewrite (run_find_shortcuts_loop self _ s); [done| |done].
  apply graph_at_valid. intros Hempty. rewrite Hempty in Hn.
  unfold nx.number_of_nodes in Hn. simpl in Hn. lia.
Qed.

End optimizer_runs.

(** ** Sorting *)

Lemma insert_by_score_Permutation (c : ShortcutCandidate)
    (l : list ShortcutCandidate) :
  insert_by_score c l ≡ₚ c :: l.
Proof.
  induction l as [|y l IH]; simpl; [done|].
  case_match; [done|]. by rewrite IH, Permutation_swap.
Qed.

Lemma sort_by_score_Permutation (l : list ShortcutCandidate) :
  sort_by_score l ≡ₚ l.
Proof.
  induction l as [|c l IH]; simpl; [done|].
  by rewrite insert_by_score_Permutation, IH.
Qed.

Lemma insert_by_score_sorted (c : ShortcutCandidate)
    (l : list ShortcutCandidate) :
  StronglySorted (λ c d, score d <= score c)%Q l →
  StronglySorted (λ c d, score d <= score c)%Q (insert_by_score c l).
Proof.
  induction 1 as [|y l Hl IH Hy]; simpl.
  - by repeat constructor.
  - destruct (Qle_bool (score y) (score c)) eqn:E.
    + apply Qle_bool_iff in E. constructor; [by constructor|].
      constructor; [done|]. eapply Forall_impl; [done|].
      intros z Hz. simpl in *. lra.
    + constructor; [done|].
      apply Forall_insert_by_score; [|done].
      apply Qlt_le_weak, Qnot_le_lt. intros H%Qle_bool_iff. congruence.
Qed.

Lemma sort_by_score_sorted (l : list ShortcutCandidate) :
  StronglySorted (λ c d, score d <= score c)%Q (sort_by_score l).
Proof.
  induction l as [|c l IH]; simpl; [constructor|].
  by apply insert_by_score_sorted.
Qed.

Lemma StronglySorted_take {A} (R : A → A → Prop) (n : nat) (l : list A) :
  StronglySorted R l → StronglySorted R (take n l).
Proof.
  intros Hl. revert n. induction Hl as [|x l Hl IH Hx]; intros [|n]; simpl;
    try constructor; [apply IH|by apply Forall_take].
Qed.

Lemma StronglySorted_py_slice_to {A} (R : A → A → Prop) (k : Z)
    (l : list A) :
  StronglySorted R l → StronglySorted R (py_slice_to k l).
Proof.
  intros Hl. unfold py_slice_to. case_match; by apply StronglySorted_take.
Qed.

Lemma elem_of_py_slice_to {A} (k : Z) (l : list A) (x : A) :
  x ∈ py_slice_to k l → x ∈ l.
Proof.
  unfold py_slice_to.
  case_match; intros (i & Hi & _)%elem_of_take; by eapply list_elem_of_lookup_2.
Qed.

Lemma insert_by_impact_Permutation (c : Removal.t) (l : list Removal.t) :
  insert_by_impact c l ≡ₚ c :: l.
Proof.
  induction l as [|y l IH]; simpl; [done|].
  case_match; [done|]. by rewrite IH, Permutation_swap.
Qed.

Lemma sort_by_impact_Permutation (l : list Removal.t) :
  sort_by_impact l ≡ₚ l.
Proof.
  induction l as [|c l IH]; simpl; [done|].
  by rewrite insert_by_impact_Permutation, IH.
Qed.

Lemma insert_by_impact_sorted (c : Removal.t) (l : list Removal.t) :
  StronglySorted (λ c d, Removal.impact c <= Removal.impact d)%Q l →
  StronglySorted (λ c d, Removal.impact c <= Removal.impact d)%Q
    (insert_by_impact c l).
Proof.
  induction 1 as [|y l Hl IH Hy]; simpl.
  - by repeat constructor.
  - destruct (Qle_bool (Removal.impact c) (Removal.impact y)) eqn:E.
    + apply Qle_bool_iff in E. constructor; [by constructor|].
      constructor; [done|]. eapply Forall_impl; [done|].
      intros z Hz. simpl in *. lra.
    + constructor; [done|].
      assert (Removal.impact y <= Removal.impact c)%Q as Hyc.
      { apply Qlt_le_weak, Qnot_le_lt. intros H%Qle_bool_iff. congruence. }
      rewrite insert_by_impact_Permutation. by constructor.
Qed.

Lemma sort_by_impact_sorted (l : list Removal.t) :
  StronglySorted (λ c d, Removal.impact c <= Removal.impact d)%Q
    (sort_by_impact l).
Proof.
  induction l as [|c l IH]; simpl; [constructor|].
  by apply insert_by_impact_sorted.
Qed.

(** The pairs of the candidates kept are among the pairs evaluated, in
    their order. *)
Lemma omap_sublist {A B} (f : A → option B) (key : B → A) (l : list A) :
  (∀ x y, f x = Some y → key y = x) → key <$> omap f l `sublist_of` l.
Proof.
  intros Hf. induction l as [|x l IH]; [done|].
  cbn [omap list_omap]. destruct (f x) as [y|] eqn:E.
  - rewrite fmap_cons, (Hf x y E). by apply sublist_skip.
  - by apply sublist_cons.
Qed.

Section optimizer_theorems.
Context `{!nx.Algorithms, !np.Numeric}.
Import ShortcutOptimizer.

(** Every candidate returned is what the evaluation of a generated pair
    returned, read in the store of the call. *)
Lemma find_shortcuts_elem (self : t) (k : Z)
    (policy : option PolicyConstraints) (s : store) (c : ShortcutCandidate) :
  c ∈ (find_shortcuts self k policy s).1 →
  let p := default PolicyConstraints_default policy in
  (2 ≤ nx.number_of_nodes (graph_at s (graph self)))%nat ∧
  pair_of c ∈ (_generate_candidates self p s).1 ∧
  (_evaluate_candidate self (source c) (target c) p s).1 = Some c ∧
  (0 < score c)%Q.
Proof.
  rewrite run_find_shortcuts. cbn zeta.
  destruct (Nat.ltb_spec (nx.number_of_nodes (graph_at s (graph self))) 2)
    as [|Hn]; [by intros ?%elem_of_nil|].
  intros Hc%elem_of_py_slice_to.
  rewrite sort_by_score_Permutation in Hc.
  apply list_elem_of_omap in Hc as ([u v] & Hin & Hkept).
  cbn [fst snd] in Hkept. unfold kept in Hkept.
  destruct (_evaluate_candidate self u v _ s).1 as [c'|] eqn:E; [|done].
  cbn [mbind option_bind] in Hkept.
  destruct (Qgt_bool (score c') 0) eqn:Hscore; [|done].
  injection Hkept as ->. apply Qgt_bool_true in Hscore.
  pose proof (evaluate_candidate_evaluated self u v
                (default PolicyConstraints_default policy) s c) as Hev.
  cbn beta in Hev. destruct (Hev E) as (Hu & Hv & _).
  unfold pair_of. rewrite Hu, Hv. done.
Qed.

(** X19: [find_shortcuts] returns its candidates best first: the scores
    never increase along the list, and every score is positive. *)
Theorem find_shortcuts_ranked (self : t) (k : Z)
    (policy : option PolicyConstraints) (s : store) :
  StronglySorted (λ c d, score d <= score c)%Q
    (find_shortcuts self k policy s).1 ∧
  Forall (λ c, 0 < score c)%Q (find_shortcuts self k policy s).1.
Proof.
  split.
  - rewrite run_find_shortcuts. cbn zeta. case_match; [constructor|].
    apply StronglySorted_py_slice_to, sort_by_score_sorted.
  - apply Forall_forall. intros c Hc.
    by destruct (find_shortcuts_elem self k policy s c Hc) as (_ & _ & _ & ?).
Qed.

(** X20: for k >= 0, [find_shortcuts] returns at most k candidates, and
    the answer for k is the first k candidates of the answer for any larger
    k': asking for fewer shortcuts never changes the ranking. *)
Theorem find_shortcuts_top_k (self : t) (k k' : Z)
    (policy : option PolicyConstraints) (s : store) :
  (0 ≤ k ≤ k')%Z →
  length (find_shortcuts self k policy s).1 ≤ Z.to_nat k ∧
  (find_shortcuts self k policy s).1 =
  take (Z.to_nat k) (find_shortcuts self k' policy s).1.
Proof.
  intros Hk. rewrite !run_find_shortcuts. cbn zeta.
  case_match; [by rewrite take_nil; simpl; split; [lia|]|].
  unfold py_slice_to.
  destruct (Z.leb_spec 0 k); [|lia]. destruct (Z.leb_spec 0 k'); [|lia].
  split; [rewrite length_take; lia|].
  rewrite take_take. f_equal. lia.
Qed.

Lemma Qlt_bool_true (x y : Q) : Qlt_bool x y = true ↔ (x < y)%Q.
Proof. apply Qgt_bool_true. Qed.

Lemma Qlt_bool_false (x y : Q) : Qlt_bool x y = false ↔ (y <= x)%Q.
Proof.
  unfold Qlt_bool. rewrite negb_false_iff. apply Qle_bool_iff.
Qed.

Lemma calculate_confidence_bounds (delta_obj : Q)
    (baseline modified : GraphMetrics) :
  (0 <= _calculate_confidence delta_obj baseline modified <= 0.9)%Q.
Proof.
  unfold _calculate_confidence.
  destruct (Qge_bool delta_obj 0); [lra|]. cbn zeta.
  set (c0 := Qmin (- delta_obj * 2) 0.5).
  assert (c0 <= 0.5)%Q by apply Q.le_min_r.
  set (c1 := if is_connected baseline then (c0 + 0.2)%Q else c0).
  assert (c1 <= 0.7)%Q by (unfold c1; case_match; lra).
  set (c2 := if Qgt_bool _ 0.1 then (c1 + 0.2)%Q else c1).
  assert (c2 <= 0.9)%Q by (unfold c2; case_match; lra).
  set (c3 := if Qgt_bool _ 0.1 then (c2 - 0.1)%Q else c2).
  assert (c3 <= 0.9)%Q by (unfold c3; case_match; lra).
  split; [apply Q.le_max_l|].
  apply Q.max_lub; [lra|].
  eapply Qle_trans; [apply Q.le_min_r|done].
Qed.

(** X21: the confidence of a prediction lies between 0 and 0.9: the boosts
    add up to 0.9 at most, so the cap at 1.0 is never reached; and every
    candidate [find_shortcuts] returns carries such a confidence. *)
Theorem confidence_bounds (self : t) (k : Z)
    (policy : option PolicyConstraints) (s : store) :
  (∀ delta_obj baseline modified,
     (0 <= _calculate_confidence delta_obj baseline modified <= 0.9)%Q) ∧
  Forall (λ c, 0 <= confidence c <= 0.9)%Q (find_shortcuts self k policy s).1.
Proof.
  split; [apply calculate_confidence_bounds|].
  apply Forall_forall. intros c Hc.
  destruct (find_shortcuts_elem self k policy s c Hc) as (_ & _ & Hev & _).
  rewrite run_evaluate_candidate_full in Hev. cbn [fst] in Hev.
  destruct (Qge_bool _ 0); [done|]. injection Hev as <-. simpl.
  apply calculate_confidence_bounds.
Qed.

(** X22: a rationale gives between one and three reasons, the reductions
    that pass their thresholds in the order path length, betweenness,
    weighted path length; "Minor optimization benefit" is given exactly
    when no reduction passes its threshold, and then it is the only
    reason. *)
Theorem generate_rationale_shape (u v : string)
    (delta_path delta_betweenness delta_weighted : Q) :
  let reasons :=
    _generate_rationale u v delta_path delta_betweenness delta_weighted in
  (1 ≤ length reasons ≤ 3)%nat ∧
  (MinorOptimizationBenefit ∈ reasons ↔
   reasons = [MinorOptimizationBenefit]) ∧
  (reasons = [MinorOptimizationBenefit] ↔
   (-0.05 <= delta_path)%Q ∧ (-0.01 <= delta_betweenness)%Q ∧
   (-1 <= delta_weighted)%Q).
Proof.
  unfold _generate_rationale.
  destruct (Qlt_bool delta_path (-0.05)) eqn:E1;
    destruct (Qlt_bool delta_betweenness (-0.01)) eqn:E2;
    destruct (Qlt_bool delta_weighted (-1)) eqn:E3;
    repeat match goal with
           | H : Qlt_bool _ _ = true |- _ => apply Qlt_bool_true in H
           | H : Qlt_bool _ _ = false |- _ => apply Qlt_bool_false in H
           end;
    cbn; (split; [lia|]); split;
    first
      [ split; [done|intros _; by left]
      | split; [intros Hin; exfalso; revert Hin;
                rewrite ?elem_of_cons, elem_of_nil; intuition discriminate
               |by intros [=]]
      | split; [by intros _|done]
      | split; [by intros [=]|intros (? & ? & ?); exfalso; lra] ].
Qed.


Lemma generate_candidates_NoDup (self : t) (policy : PolicyConstraints)
    (s : store) :
  NoDup (nx.nodes (graph_at s (graph self))) →
  NoDup (_generate_candidates self policy s).1.
Proof.
  intros Hnodes. rewrite run_generate_candidates. cbn [fst].
  apply NoDup_bind; [| |done].
  - intros u1 u2 [u v] _ _ H1 H2.
    case_match; [by apply elem_of_nil in H1|].
    apply list_elem_of_fmap in H1 as (? & [= -> ->] & _).
    by apply list_elem_of_fmap in H2 as (? & [= -> ->] & _).
  - intros u _. case_match; [constructor|].
    apply NoDup_fmap_2; [by intros ?? [=]|]. by apply NoDup_filter.
Qed.

(** X24: in a graph with distinct nodes, no pair is suggested twice. *)
Theorem find_shortcuts_no_duplicates (self : t) (k : Z)
    (policy : option PolicyConstraints) (s : store) :
  NoDup (nx.nodes (graph_at s (graph self))) →
  NoDup (pair_of <$> (find_shortcuts self k policy s).1).
Proof.
  intros Hnodes. rewrite run_find_shortcuts. cbn zeta.
  case_match; [constructor|].
  set (p := default PolicyConstraints_default policy).
  set (f := λ q : string * string,
              kept (_evaluate_candidate self q.1 q.2 p s).1).
  assert (NoDup (pair_of <$> omap f (_generate_candidates self p s).1))
    as Hkept.
  { apply (sublist_NoDup _ (_generate_candidates self p s).1);
      [by apply generate_candidates_NoDup|].
    apply omap_sublist. intros [u v] c Hc. unfold f, kept in Hc.
    cbn [fst snd] in Hc.
    destruct (_evaluate_candidate self u v p s).1 as [c'|] eqn:E; [|done].
    cbn [mbind option_bind] in Hc. case_match; [|done]. injection Hc as ->.
    pose proof (evaluate_candidate_evaluated self u v p s c) as Hev.
    cbn beta in Hev. destruct (Hev E) as (Hu & Hv & _).
    unfold pair_of. by rewrite Hu, Hv. }
  apply (sublist_NoDup _
           (pair_of <$>
            sort_by_score (omap f (_generate_candidates self p s).1))).
  - by rewrite sort_by_score_Permutation.
  - apply fmap_sublist. unfold py_slice_to. case_match; apply sublist_take.
Qed.

End optimizer_theorems.

Lemma well_formed_with_shortcuts (g : nx.DiGraph)
    (shortcuts : list ShortcutCandidate) :
  well_formed g → well_formed (with_shortcuts g shortcuts).
Proof.
  revert g. induction shortcuts as [|c cs IH]; intros g Hg; [done|].
  apply IH. by apply well_formed_add_edge.
Qed.

Lemma number_of_nodes_add_node (n : string) (g : nx.DiGraph) :
  nx.number_of_nodes g ≤ nx.number_of_nodes (nx.add_node n g)
    ≤ S (nx.number_of_nodes g).
Proof.
  unfold nx.add_node. case_match; [lia|].
  unfold nx.number_of_nodes. cbn [nx.node_data].
  rewrite length_app. simpl. lia.
Qed.

Lemma number_of_nodes_add_edge (u v : string) (attr : EdgeAttrs)
    (g : nx.DiGraph) :
  nx.number_of_nodes g ≤ nx.number_of_nodes (nx.add_edge u v attr g)
    ≤ 2 + nx.number_of_nodes g.
Proof.
  change (nx.number_of_nodes (nx.add_edge u v attr g))
    with (nx.number_of_nodes (nx.add_node v (nx.add_node u g))).
  pose proof (number_of_nodes_add_node u g).
  pose proof (number_of_nodes_add_node v (nx.add_node u g)). lia.
Qed.

Lemma counts_with_shortcuts (g : nx.DiGraph)
    (shortcuts : list ShortcutCandidate) :
  let g' := with_shortcuts g shortcuts in
  nx.number_of_nodes g ≤ nx.number_of_nodes g'
    ≤ nx.number_of_nodes g + 2 * length shortcuts ∧
  nx.number_of_edges g ≤ nx.number_of_edges g'
    ≤ nx.number_of_edges g + length shortcuts.
Proof.
  revert g. induction shortcuts as [|c cs IH]; intros g; simpl; [lia|].
  specialize (IH (nx.add_edge (source c) (target c)
                    (ShortcutOptimizer.shortcut_attrs (estimated_latency c)
                       (estimated_call_rate c)) g)).
  cbn zeta in IH.
  set (g1 := nx.add_edge _ _ _ g) in *.
  pose proof (number_of_nodes_add_edge (source c) (target c)
                (ShortcutOptimizer.shortcut_attrs (estimated_latency c)
                   (estimated_call_rate c)) g).
  pose proof (number_of_edges_add_edge (source c) (target c)
                (ShortcutOptimizer.shortcut_attrs (estimated_latency c)
                   (estimated_call_rate c)) g) as He.
  fold g1 in H, He. fold (with_shortcuts g1 cs).
  destruct (nx.has_edge g (source c) (target c)); lia.
Qed.

Section simulation.
Context `{!nx.Algorithms, !np.Numeric}.
Import ShortcutOptimizer.

Lemma run_simulate_loop (shortcuts : list ShortcutCandidate) (g : nx.DiGraph)
    (s : store) :
  for_each shortcuts tt (λ _ shortcut,
    graph_add_edge (length s) (source shortcut) (target shortcut)
      (shortcut_attrs (estimated_latency shortcut)
         (estimated_call_rate shortcut))) (s ++ [g]) =
  (tt, s ++ [with_shortcuts g shortcuts]).
Proof.
  revert g. induction shortcuts as [|c cs IH]; intros g; [done|].
  cbn [for_each]. rewrite run_bind, run_graph_add_edge. cbn [fst snd].
  by rewrite IH.
Qed.

Lemma run_simulate_shortcuts (self : t) (shortcuts : list ShortcutCandidate)
    (s : store) :
  simulate_shortcuts self shortcuts s =
  let g := with_shortcuts (graph_at s (graph self)) shortcuts in
  (metrics_of g, s ++ [g]).
Proof.
  unfold simulate_shortcuts.
  rewrite run_bind, run_graph_copy. cbn [fst snd].
  rewrite run_bind, run_simulate_loop. cbn [fst snd].
  by rewrite run_calculate_all_make, graph_at_new.
Qed.

(** The counts in the metrics of a well-formed graph. *)
Lemma metrics_of_counts (g : nx.DiGraph) :
  well_formed g →
  node_count (metrics_of g).1 = nx.number_of_nodes g ∧
  edge_count (metrics_of g).1 = nx.number_of_edges g.
Proof.
  intros [_ _ Hends]. unfold metrics_of.
  destruct (calculate_all_spec (MetricsCalculator.make 0) [g])
    as (ht & bt & base & _ & _ & _ & _ & _ & Hcount & Hedges).
  change (graph_at [g] _) with g in *.
  split; [done|].
  destruct (decide (nx.nodes g = [])) as [Hnil|Hne].
  - rewrite run_calculate_all. change (graph_at [g] _) with g.
    apply number_of_nodes_0 in Hnil as Hn. rewrite Hn. simpl.
    unfold nx.number_of_edges. rewrite <- (length_fmap fst).
    destruct ((nx.edge_data g).*1) as [|p ps]; [done|].
    apply Forall_cons in Hends as [[Hp _] _]. rewrite Hnil in Hp.
    by apply elem_of_nil in Hp.
  - by destruct (Hedges Hne) as [? _].
Qed.

(** X25: the deltas of a candidate [find_shortcuts] returns are those of
    simulating that shortcut alone: the metrics [simulate_shortcuts] returns
    for it, compared with the metrics of the optimizer's graph, differ by
    delta_objective in the objective, by delta_path_length in the average
    path length, and so on. *)
Theorem simulate_returned_shortcut (self : t) (k : Z)
    (policy : option PolicyConstraints) (s : store) :
  Forall (λ c,
            let simulated := (simulate_shortcuts self [c] s).1.1 in
            let baseline :=
              (MetricsCalculator.calculate_all
                 (MetricsCalculator.make (graph self)) s).1.1 in
            delta_objective c =
              (_calculate_objective self simulated -
               _calculate_objective self baseline)%Q ∧
            delta_path_length c =
              (average_path_length simulated -
               average_path_length baseline)%Q ∧
            delta_max_betweenness c =
              (max_betweenness simulated - max_betweenness baseline)%Q ∧
            delta_weighted_path_length c =
              (weighted_average_path_length simulated -
               weighted_average_path_length baseline)%Q)
         (find_shortcuts self k policy s).1.
Proof.
  apply Forall_forall. intros c Hc.
  destruct (find_shortcuts_elem self k policy s c Hc) as (_ & _ & Hev & _).
  rewrite run_evaluate_candidate_full in Hev. cbn [fst] in Hev.
  destruct (Qge_bool _ 0); [done|]. injection Hev as Hev.
  rewrite run_simulate_shortcuts, run_calculate_all_make. cbn zeta.
  cbn [fst snd with_shortcuts foldl].
  rewrite <- Hev at 1 2 3 4 5 6 7 8. cbn.
  by rewrite <- Hev.
Qed.

(** X26: [simulate_shortcuts] works on a copy: it adds one object to the
    store, the graph with the shortcuts applied in order, and changes no
    graph that exists; on a well-formed graph, the simulated metrics count
    at least the nodes and edges of the original, at most two more nodes
    and one more edge per shortcut. *)
Theorem simulate_shortcuts_copy (self : t)
    (shortcuts : list ShortcutCandidate) (s : store) :
  let g := graph_at s (graph self) in
  let simulated := (simulate_shortcuts self shortcuts s).1.1 in
  let baseline :=
    (MetricsCalculator.calculate_all
       (MetricsCalculator.make (graph self)) s).1.1 in
  (simulate_shortcuts self shortcuts s).2 = s ++ [with_shortcuts g shortcuts]
  ∧ (∀ r g0, s !! r = Some g0 →
             (simulate_shortcuts self shortcuts s).2 !! r = Some g0)
  ∧ (well_formed g →
     node_count baseline ≤ node_count simulated
       ≤ node_count baseline + 2 * length shortcuts ∧
     edge_count baseline ≤ edge_count simulated
       ≤ edge_count baseline + length shortcuts).
Proof.
  intros g. rewrite run_simulate_shortcuts, run_calculate_all_make.
  cbn zeta. cbn [fst snd]. fold g.
  split; [done|]. split; [intros r g0 Hr; by apply lookup_app_l_Some|].
  intros Hg.
  destruct (metrics_of_counts g Hg) as [-> ->].
  destruct (metrics_of_counts _ (well_formed_with_shortcuts g shortcuts Hg))
    as [-> ->].
  apply counts_with_shortcuts.
Qed.

End simulation.

Section removal.
Context `{!nx.Algorithms, !np.Numeric}.
Import ShortcutOptimizer.

Lemma run_graph_remove_edge (u v : string) (s : store) (g g' : nx.DiGraph) :
  nx.remove_edge u v g = Some g' →
  graph_remove_edge (length s) u v (s ++ [g]) = (Some tt, s ++ [g']).
Proof.
  intros Hg'. unfold graph_remove_edge.
  rewrite run_bind, run_deref, graph_at_new. cbn [fst snd]. rewrite Hg'.
  rewrite run_bind. unfold mutate. cbn [fst snd]. by rewrite alter_new.
Qed.

Lemma remove_edge_is_Some (u v : string) (g : nx.DiGraph) :
  nx.has_edge g u v = true → is_Some (nx.remove_edge u v g).
Proof. intros He. unfold nx.remove_edge. rewrite He. by eexists. Qed.

(** One round of the loop. *)
Lemma run_removal_step (self : t) (acc : list Removal.t)
    (e : string * string * EdgeAttrs) (s : store) :
  let g := graph_at s (graph self) in
  let baseline_obj := _calculate_objective self (metrics_of g).1 in
  nx.has_edge g e.1.1 e.1.2 = true →
  ∃ test_graph,
    nx.remove_edge e.1.1 e.1.2 g = Some test_graph ∧
    removal_step self baseline_obj acc e s =
    (match nx.is_weakly_connected test_graph with
     | None => None
     | Some false => Some acc
     | Some true =>
         let delta :=
           (_calculate_objective self (metrics_of test_graph).1 -
            baseline_obj)%Q in
         if Qlt_bool delta 0.1 then
           Some (acc ++ [{| Removal.source := e.1.1;
                            Removal.target := e.1.2;
                            Removal.impact := delta;
                            Removal.call_rate := call_rate_of e;
                            Removal.rationale := MinimalImpact delta |}])
         else Some acc
     end,
     s ++ [test_graph]).
Proof.
  intros g baseline_obj [test_graph Htest]%remove_edge_is_Some.
  exists test_graph. split; [done|].
  destruct e as [[u v] data]. cbn [fst snd] in *. unfold removal_step.
  rewrite run_bind, run_graph_copy. cbn [fst snd]. fold g.
  rewrite run_bind, (run_graph_remove_edge u v s g test_graph Htest).
  cbn [fst snd]. rewrite run_bind, run_deref, graph_at_new. cbn [fst snd].
  destruct (nx.is_weakly_connected test_graph) as [[|]|]; try done.
  rewrite run_bind, run_calculate_all_make, graph_at_new. cbn [fst snd].
  destruct (metrics_of test_graph) as [test_metrics ?]. cbn [fst snd].
  by destruct (Qlt_bool _ 0.1).
Qed.

Lemma for_each_None {A B} (xs : list A) (body : option B → A → M (option B))
    (s : store) :
  (∀ x s, body None x s = (None, s)) →
  for_each xs None body s = (None, s).
Proof.
  intros Hbody. induction xs as [|x xs IH]; [done|].
  cbn [for_each]. by rewrite run_bind, Hbody.
Qed.

Lemma suggests_removal_unique (self : t) (g : nx.DiGraph)
    (e : string * string * EdgeAttrs) (c1 c2 : Removal.t) :
  suggests_removal self g e c1 → suggests_removal self g e c2 → c1 = c2.
Proof.
  intros (g1 & Hg1 & _ & _ & ->) (g2 & Hg2 & _ & _ & ->).
  rewrite Hg1 in Hg2. by injection Hg2 as ->.
Qed.

(** The loop of [get_removal_candidates]. *)
Lemma run_removal_loop (self : t) (g : nx.DiGraph)
    (es : list (string * string * EdgeAttrs)) (acc : list Removal.t)
    (s : store) :
  (graph self < length s)%nat → graph_at s (graph self) = g →
  (∀ e, e ∈ es → nx.has_edge g e.1.1 e.1.2 = true) →
  let res :=
    for_each es (Some acc) (λ removal_candidates edge,
      match removal_candidates with
      | Some removal_candidates =>
          removal_step self (_calculate_objective self (metrics_of g).1)
            removal_candidates edge
      | None => ret None
      end) s in
  s `prefix_of` res.2 ∧
  match res.1 with
  | Some l =>
      ∃ new, l = acc ++ new ∧ length new ≤ length es ∧
             ∀ c, c ∈ new ↔ ∃ e, e ∈ es ∧ suggests_removal self g e c
  | None => ∃ e, e ∈ es ∧ removal_raises g e
  end.
Proof.
  revert acc s. induction es as [|e es IH]; intros acc s Hr Hg Hes; cbn zeta.
  - cbn [for_each]. rewrite run_ret. cbn [fst snd]. split; [done|].
    exists []. rewrite app_nil_r. split; [done|]. split; [done|].
    intros c. rewrite elem_of_nil. split; [done|].
    by intros (e & ?%elem_of_nil & _).
  - cbn [for_each]. rewrite run_bind.
    destruct (run_removal_step self acc e s) as (test_graph & Htest & Hstep).
    { rewrite Hg. apply Hes. by left. }
    rewrite Hg in Htest, Hstep. rewrite Hstep. cbn [fst snd].
    assert ((graph self < length (s ++ [test_graph]))%nat) as Hr'
      by (rewrite length_app; lia).
    assert (graph_at (s ++ [test_graph]) (graph self) = g) as Hg'
      by by rewrite graph_at_app.
    assert (∀ e0, e0 ∈ es → nx.has_edge g e0.1.1 e0.1.2 = true) as Hes'
      by (intros e0 He0; apply Hes; by right).
    destruct (nx.is_weakly_connected test_graph) as [[|]|] eqn:Hconn.
    + set (delta := (_calculate_objective self (metrics_of test_graph).1 -
                     _calculate_objective self (metrics_of g).1)%Q).
      destruct (Qlt_bool delta 0.1) eqn:Hdelta.
      * apply Qlt_bool_true in Hdelta.
        set (c := {| Removal.source := e.1.1; Removal.impact := delta |}).
        assert (suggests_removal self g e c) as Hc by by exists test_graph.
        destruct (IH (acc ++ [c]) (s ++ [test_graph]) Hr' Hg' Hes')
          as [Hpre Hres].
        split; [etrans; [by apply prefix_app_r|done]|].
        destruct (for_each es _ _ _).1 as [l|].
        -- destruct Hres as (new & -> & Hlen & Hnew).
           exists (c :: new). rewrite <- app_assoc. split; [done|].
           split; [simpl; lia|]. intros c0. rewrite elem_of_cons, Hnew.
           split.
           ++ intros [->|(e0 & He0 & Hc0)]; [exists e; split; [by left|done]|].
              exists e0. split; [by right|done].
           ++ intros (e0 & [->|He0]%elem_of_cons & Hc0).
              ** left. by apply (suggests_removal_unique self g e).
              ** right. by exists e0.
        -- destruct Hres as (e0 & He0 & Hraise). exists e0.
           split; [by right|done].
      * destruct (IH acc (s ++ [test_graph]) Hr' Hg' Hes') as [Hpre Hres].
        split; [etrans; [by apply prefix_app_r|done]|].
        destruct (for_each es _ _ _).1 as [l|].
        -- destruct Hres as (new & -> & Hlen & Hnew).
           exists new. split; [done|]. split; [simpl; lia|].
           intros c0. rewrite Hnew. split.
           ++ intros (e0 & He0 & Hc0). exists e0. split; [by right|done].
           ++ intros (e0 & [->|He0]%elem_of_cons & Hc0); [|by exists e0].
              destruct Hc0 as (g1 & Hg1 & _ & Hlt & _).
              rewrite Htest in Hg1. injection Hg1 as <-.
              cbn zeta in Hlt. fold delta in Hlt.
              apply Qlt_bool_true in Hlt. congruence.
        -- destruct Hres as (e0 & He0 & Hraise). exists e0.
           split; [by right|done].
    + destruct (IH acc (s ++ [test_graph]) Hr' Hg' Hes') as [Hpre Hres].
      split; [etrans; [by apply prefix_app_r|done]|].
      destruct (for_each es _ _ _).1 as [l|].
      * destruct Hres as (new & -> & Hlen & Hnew).
        exists new. split; [done|]. split; [simpl; lia|].
        intros c0. rewrite Hnew. split.
        -- intros (e0 & He0 & Hc0). exists e0. split; [by right|done].
        -- intros (e0 & [->|He0]%elem_of_cons & Hc0); [|by exists e0].
           destruct Hc0 as (g1 & Hg1 & Hc1 & _).
           rewrite Htest in Hg1. injection Hg1 as <-. congruence.
      * destruct Hres as (e0 & He0 & Hraise). exists e0.
        split; [by right|done].
    + rewrite for_each_None by done. cbn [fst snd].
      split; [by apply prefix_app_r|].
      exists e. split; [by left|]. by exists test_graph.
Qed.

(** X27: [get_removal_candidates] returns its suggestions lowest impact
    first and, for k >= 0, at most k of them; every suggestion is for an
    edge of the graph whose removal leaves the graph weakly connected and
    raises the objective by less than 0.1, its impact; when k is at least
    the number of edges listed and the graph has two edges or more, every
    such edge is suggested.  The call raises only if the connectivity test
    of networkx raises for the graph without one of its edges. *)
Theorem get_removal_candidates_spec (self : t) (k : Z) (s : store) :
  let g := graph_at s (graph self) in
  match (get_removal_candidates self k s).1 with
  | Some l =>
      StronglySorted (λ c d, Removal.impact c <= Removal.impact d)%Q l ∧
      ((0 ≤ k)%Z → length l ≤ Z.to_nat k) ∧
      (∀ c, c ∈ l → ∃ e, e ∈ nx.edges g ∧ suggests_removal self g e c) ∧
      ((Z.of_nat (length (nx.edges g)) ≤ k)%Z →
       (2 ≤ nx.number_of_edges g)%nat →
       ∀ e c, e ∈ nx.edges g → suggests_removal self g e c → c ∈ l)
  | None => ∃ e, e ∈ nx.edges g ∧ removal_raises g e
  end.
Proof.
  intros g. unfold get_removal_candidates.
  rewrite run_bind, run_deref. cbn [fst snd]. fold g.
  destruct (Nat.ltb_spec (nx.number_of_edges g) 2) as [Hm|Hm].
  { rewrite run_ret. cbn [fst]. split; [constructor|].
    split; [simpl; lia|]. split; [by intros c ?%elem_of_nil|]. lia. }
  rewrite run_bind, run_calculate_all_make. cbn [fst snd]. fold g.
  destruct (metrics_of g) as [baseline_metrics ?] eqn:Hbase. cbn [fst snd].
  rewrite run_bind, run_ret. cbn [fst snd].
  assert ((graph self < length s)%nat) as Hr.
  { apply graph_at_valid. fold g. intros Hempty. rewrite Hempty in Hm.
    unfold nx.number_of_edges in Hm. simpl in Hm. lia. }
  assert (∀ e, e ∈ nx.edges g → nx.has_edge g e.1.1 e.1.2 = true) as Hes.
  { intros [[u v] data] [He _]%elem_of_edges. apply has_edge_true.
    by apply (list_elem_of_fmap_2 fst) in He. }
  destruct (run_removal_loop self g (nx.edges g) [] s Hr eq_refl Hes)
    as [_ Hres].
  rewrite Hbase in Hres. cbn [fst] in Hres.
  destruct (for_each (nx.edges g) _ _ _).1 as [l|]; cbn [mbind option_bind];
    [|done].
  destruct Hres as (new & -> & Hlen & Hnew). cbn [app].
  split; [apply StronglySorted_py_slice_to, sort_by_impact_sorted|].
  split; [|split].
  - intros Hk. unfold py_slice_to.
    destruct (Z.leb_spec 0 k); [|lia]. rewrite length_take. lia.
  - intros c Hc%elem_of_py_slice_to.
    rewrite sort_by_impact_Permutation in Hc. by apply Hnew.
  - intros Hk _ e c He Hc. unfold py_slice_to.
    destruct (Z.leb_spec 0 k); [|lia].
    rewrite take_ge.
    + rewrite sort_by_impact_Permutation. apply Hnew. by exists e.
    + rewrite sort_by_impact_Permutation. lia.
Qed.

(** X28: [get_removal_candidates] tests the removals on copies: it adds
    objects to the store and changes none, so the optimizer's graph is the
    same before and after; and for a graph with fewer than two edges it
    returns the empty list and copies nothing. *)
Theorem get_removal_candidates_copies (self : t) (k : Z) (s : store) :
  let g := graph_at s (graph self) in
  (∀ r g0, s !! r = Some g0 →
           (get_removal_candidates self k s).2 !! r = Some g0) ∧
  ((nx.number_of_edges g < 2)%nat →
   get_removal_candidates self k s = (Some [], s)).
Proof.
  intros g. unfold get_removal_candidates.
  rewrite run_bind, run_deref. cbn [fst snd]. fold g.
  destruct (Nat.ltb_spec (nx.number_of_edges g) 2) as [Hm|Hm].
  { by rewrite run_ret. }
  split; [|lia].
  rewrite run_bind, run_calculate_all_make. cbn [fst snd]. fold g.
  destruct (metrics_of g) as [baseline_metrics ?] eqn:Hbase. cbn [fst snd].
  rewrite run_bind, run_ret. cbn [fst snd].
  assert ((graph self < length s)%nat) as Hr.
  { apply graph_at_valid. fold g. intros Hempty. rewrite Hempty in Hm.
    unfold nx.number_of_edges in Hm. simpl in Hm. lia. }
  assert (∀ e, e ∈ nx.edges g → nx.has_edge g e.1.1 e.1.2 = true) as Hes.
  { intros [[u v] data] [He _]%elem_of_edges. apply has_edge_true.
    by apply (list_elem_of_fmap_2 fst) in He. }
  destruct (run_removal_loop self g (nx.edges g) [] s Hr eq_refl Hes)
    as [[added Hpre] _].
  rewrite Hbase in Hpre. cbn [fst] in Hpre. rewrite Hpre.
  intros r old Hr0. by apply lookup_app_l_Some.
Qed.

End removal.


(** ** Concrete runs, with the reference implementation of the libraries *)

#[local] Existing Instances Reference.algorithms Reference.numeric.

(** The optimizer proposes three shortcuts for the chain, best first. *)
Example find_shortcuts_chain :
  (λ c, (source c, target c, Qred (delta_objective c), Qred (risk_score c)))
    <$> (ShortcutOptimizer.find_shortcuts (ShortcutOptimizer.make 0) 5 None
           [chain]).1 =
  [("a", "c", -5 # 6, 3 # 5); ("b", "a", -1 # 3, 3 # 10);
   ("c", "b", -1 # 3, 13 # 20)]%Q.
Proof. vm_compute. reflexivity. Qed.

(** Adding an edge through a reference changes the object behind it: had
    the evaluation added the shortcut to the optimizer's graph instead of
    a copy, the store would show it. *)
Example add_edge_changes_the_object :
  nx.number_of_edges
    (graph_at
       (graph_add_edge 0 "a" "c" (ShortcutOptimizer.shortcut_attrs 1 0)
          [chain]).2 0) = 3.
Proof. reflexivity. Qed.


(** C1, at a failing input: on the chain a -> b -> c, whose edges cost 5
    and 3, with the default weights alpha = beta = 1 and gamma = 0.1, the
    objective that scores the candidates is 11/6 = 4/3 + 1/2, while
    [get_objective_value] is 11/6 + 0.1 * 8: the sum of the edge costs is
    missing from the former. *)
Theorem optimizer_objective_omits_cost :
  let calc := MetricsCalculator.make 0 in
  let optimizer := ShortcutOptimizer.make 0 in
  let metrics := (MetricsCalculator.calculate_all calc [chain]).1.1 in
  (ShortcutOptimizer._calculate_objective optimizer metrics == 11 # 6)%Q ∧
  ((MetricsCalculator.get_objective_value calc
      (ShortcutOptimizer.alpha optimizer) (ShortcutOptimizer.beta optimizer)
      (ShortcutOptimizer.gamma optimizer) [chain]).1
   == (11 # 6) + 0.1 * (5 + 3))%Q.
Proof. vm_compute. done. Qed.

(** C2, at a failing input: with [max_new_edges_per_service = 1] and the
    chain a -> b -> c -> d, two pairs are generated for the source a, and
    [find_shortcuts] returns a shortcut for each of them. *)
Theorem generate_candidates_exceeds_limit :
  let optimizer := ShortcutOptimizer.make 0 in
  let policy := with_max_new_edges 1 in
  filter (λ p, p.1 = "a")
    (ShortcutOptimizer._generate_candidates optimizer policy [long_chain]).1
    = [("a", "c"); ("a", "d")]
  ∧ filter (λ p, p.1 = "a")
      ((λ c, (source c, target c)) <$>
       (ShortcutOptimizer.find_shortcuts optimizer 10 (Some policy)
          [long_chain]).1)
    = [("a", "d"); ("a", "c")].
Proof. vm_compute. done. Qed.

(** C4, counterexample: the chain a -> b -> c has 3 nodes, 2 edges and an
    average path length of 4/3, and its small-world coefficient is 0 (no
    two neighbours of a node are linked, so its clustering is 0). *)
Lemma chain_coefficient_is_zero :
  let gm :=
    (MetricsCalculator.calculate_all (MetricsCalculator.make 0) [chain]).1.1
  in
  node_count gm = 3 ∧ edge_count gm = 2 ∧
  (average_path_length gm == 4 # 3)%Q ∧
  (average_clustering gm == 0)%Q ∧
  (small_world_coefficient gm == 0)%Q.
Proof. vm_compute. done. Qed.

(** C5, counterexample: zone1 is a key of [allowed_zones], with the list
    [zone2]; the targets b (zone None), c (empty zone) and d (no zone
    attribute) are rejected for the source a in zone1, and it is the
    allow-list that rejects them: without it the three pairs are
    generated. *)
Lemma target_without_zone_is_rejected :
  let optimizer := ShortcutOptimizer.make 0 in
  zone_entry (allowed_zones zone1_to_zone2) (zone_of zoned "a")
    = Some ["zone2"] ∧
  zone_of zoned "b" = ZoneNone ∧
  zone_of zoned "c" = ZoneStr "" ∧
  zone_of zoned "d" = ZoneStr "" ∧
  filter (λ p, p.1 = "a")
    (ShortcutOptimizer._generate_candidates optimizer zone1_to_zone2
       [zoned]).1 = [] ∧
  filter (λ p, p.1 = "a")
    (ShortcutOptimizer._generate_candidates optimizer
       (without_allowed_zones zone1_to_zone2) [zoned]).1 =
  [("a", "b"); ("a", "c"); ("a", "d")].
Proof. vm_compute. done. Qed.

(** The rule of the allow-list at the pair (a, b) of the zoned graph. *)
Lemma allowed_zones_rule_zoned :
  zone_entry (allowed_zones zone1_to_zone2) (zone_of (graph_at [zoned] 0) "a")
    = Some ["zone2"]
  ∧ (("a", "b") ∈
       (ShortcutOptimizer._generate_candidates (ShortcutOptimizer.make 0)
          zone1_to_zone2 [zoned]).1 ↔
     zone_in (zone_of (graph_at [zoned] 0) "b") ["zone2"] = true ∧
     ("a", "b") ∈
       (ShortcutOptimizer._generate_candidates (ShortcutOptimizer.make 0)
          (without_allowed_zones zone1_to_zone2) [zoned]).1).
Proof.
  split; [reflexivity|].
  apply (allowed_zones_rule (ShortcutOptimizer.make 0) zone1_to_zone2
           [zoned] "a" "b" ["zone2"]).
  reflexivity.
Defined.

(** No shortcut for the chain when no new edge is allowed. *)
Lemma find_shortcuts_no_new_edges_chain :
  max_new_edges_per_service (with_max_new_edges 0) = 0%Z
  ∧ (ShortcutOptimizer.find_shortcuts (ShortcutOptimizer.make 0) 10
       (Some (with_max_new_edges 0)) [chain]).1 = [].
Proof.
  split; [reflexivity|].
  apply (find_shortcuts_no_new_edges (ShortcutOptimizer.make 0) 10
           (with_max_new_edges 0) [chain]).
  reflexivity.
Defined.

(** The bounds for the shortcuts of the chain, with the default epsilon. *)
Lemma find_shortcuts_bounds_chain :
  (ShortcutOptimizer.epsilon (ShortcutOptimizer.make 0) == 0.01)%Q
  ∧ Forall (λ c, (0.1 <= risk_score c <= 1)%Q ∧
                 (score c <= - delta_objective c / 0.11)%Q)
           (ShortcutOptimizer.find_shortcuts (ShortcutOptimizer.make 0) 5
              None [chain]).1.
Proof.
  split; [reflexivity|].
  apply (find_shortcuts_risk_and_score_bounds (ShortcutOptimizer.make 0) 5
           None [chain]).
  reflexivity.
Defined.

(** ** The properties with a precondition, at concrete inputs *)

(** Three services and the edges a -> b, b -> c, a -> c, given in that
    order: [G.edges()] lists a -> c before b -> c. *)
Example edges_are_grouped_by_source :
  (nx.edges
     (GraphBuilder.build_from_topology
        [service "a" None; service "b" None; service "c" None]
        [call "a" "b" 10 0; call "b" "c" 10 0; call "a" "c" 10 0])).*1 =
  [("a", "b"); ("a", "c"); ("b", "c")].
Proof. reflexivity. Qed.

(** The nodes, edges and counts of that graph. *)
Lemma build_from_topology_counts_triangle :
  let services := [service "a" None; service "b" None; service "c" None] in
  let edges := [call "a" "b" 10 0; call "b" "c" 10 0; call "a" "c" 10 0] in
  let g := GraphBuilder.build_from_topology services edges in
  NoDup (GraphBuilder.name <$> services) ∧
  NoDup (ends <$> edges) ∧
  Forall (λ edge, GraphBuilder.source edge ∈ GraphBuilder.name <$> services ∧
                  GraphBuilder.target edge ∈ GraphBuilder.name <$> services)
         edges ∧
  nx.nodes g = GraphBuilder.name <$> services ∧
  (nx.edges g).*1 =
    (n ← GraphBuilder.name <$> services;
     filter (λ p, p.1 = n) (ends <$> edges)) ∧
  GraphBuilder.get_node_count g = length services ∧
  GraphBuilder.get_edge_count g = length edges.
Proof.
  cbv zeta.
  assert (NoDup (GraphBuilder.name <$>
                 [service "a" None; service "b" None; service "c" None]))
    as Hnames by compute_done.
  assert (NoDup (ends <$> [call "a" "b" 10 0; call "b" "c" 10 0;
                           call "a" "c" 10 0]))
    as Hpairs by compute_done.
  assert (Forall (λ edge,
                    GraphBuilder.source edge ∈ GraphBuilder.name <$>
                      [service "a" None; service "b" None; service "c" None] ∧
                    GraphBuilder.target edge ∈ GraphBuilder.name <$>
                      [service "a" None; service "b" None; service "c" None])
                 [call "a" "b" 10 0; call "b" "c" 10 0; call "a" "c" 10 0])
    as Hends by compute_done.
  split; [done|]. split; [done|]. split; [done|].
  exact (build_from_topology_counts _ _ Hnames Hpairs Hends).
Defined.

(** The shortcut a -> c, added to the chain and removed again. *)
Lemma add_then_remove_edge_chain :
  GraphBuilder.has_node chain "a" = true ∧
  GraphBuilder.has_node chain "c" = true ∧
  GraphBuilder.has_edge chain "a" "c" = false ∧
  GraphBuilder.remove_edge "a" "c"
    (GraphBuilder.add_shortcut_edge "a" "c" 1 1 2 0 0 chain).2 =
  Some (true, chain).
Proof.
  split; [reflexivity|]. split; [reflexivity|]. split; [reflexivity|].
  apply (add_then_remove_edge "a" "c" 1 1 2 0 0 chain); reflexivity.
Defined.

(** The edge a -> b of the chain, read from its two ends. *)
Lemma neighbors_and_predecessors_chain :
  well_formed chain ∧
  ("b" ∈ GraphBuilder.get_neighbors chain "a" ↔
   GraphBuilder.has_edge chain "a" "b" = true) ∧
  ("a" ∈ GraphBuilder.get_predecessors chain "b" ↔
   GraphBuilder.has_edge chain "a" "b" = true).
Proof.
  split; [apply build_from_topology_is_well_formed|].
  apply (neighbors_and_predecessors chain "a" "b").
  apply build_from_topology_is_well_formed.
Defined.

(** The flags of the middle node of the chain. *)
Lemma hubs_and_bottlenecks_by_threshold_chain :
  let c := MetricsCalculator.make 0 in
  let r := (MetricsCalculator.calculate_all c [chain]).1 in
  let degrees := (λ nm, QofNat (total_degree nm)) <$> values r.2 in
  let betweenness_values := betweenness_centrality <$> values r.2 in
  ∃ nm, r.2 !! "b" = Some nm ∧
    (is_hub nm = true ↔
     (np.percentile degrees (MetricsCalculator.hub_threshold c * 100) <=
      QofNat (total_degree nm))%Q) ∧
    (is_bottleneck nm = true ↔
     (np.percentile betweenness_values
        (MetricsCalculator.bottleneck_threshold c * 100) <=
      betweenness_centrality nm)%Q).
Proof.
  cbv zeta. eexists. split; [vm_compute; reflexivity|].
  apply (hubs_and_bottlenecks_by_threshold (MetricsCalculator.make 0) [chain]
           "b").
  vm_compute. reflexivity.
Defined.

(** The loads of the middle node of the chain: one edge in, one edge
    out. *)
Lemma node_loads_chain :
  let r :=
    (MetricsCalculator.calculate_all (MetricsCalculator.make 0) [chain]).1 in
  ∃ nm, r.2 !! "b" = Some nm ∧
    incoming_load nm =
      foldl Qplus 0%Q
        (call_rate_of <$> filter (λ e, e.1.2 = "b") (nx.edges chain)) ∧
    outgoing_load nm =
      foldl Qplus 0%Q
        (call_rate_of <$> filter (λ e, e.1.1 = "b") (nx.edges chain)).
Proof.
  cbv zeta. eexists. split; [vm_compute; reflexivity|].
  apply (node_loads_are_edge_sums (MetricsCalculator.make 0) [chain] "b").
  vm_compute. reflexivity.
Defined.

Lemma chain_has_no_loop (u : string) : nx.has_edge chain u u = false.
Proof.
  apply has_edge_false.
  change ((nx.edge_data chain).*1) with [("a", "b"); ("b", "c")].
  rewrite !elem_of_cons, elem_of_nil. intros [?|[?|[]]]; congruence.
Defined.

(** The density of the chain. *)
Lemma density_bounds_chain :
  well_formed chain ∧ (∀ u, nx.has_edge chain u u = false) ∧
  (0 <= density
          (MetricsCalculator.calculate_all (MetricsCalculator.make 0)
             [chain]).1.1 <= 1)%Q.
Proof.
  split; [apply build_from_topology_is_well_formed|].
  split; [apply chain_has_no_loop|].
  apply (density_bounds (MetricsCalculator.make 0) [chain]).
  - apply build_from_topology_is_well_formed.
  - apply chain_has_no_loop.
Defined.

(** The coefficient for four nodes, four edges, clustering 1/2 and path
    length 2. *)
Lemma small_world_coefficient_nonneg_at_4 :
  (0 <= 0.5)%Q ∧ (0 <= 2)%Q ∧
  (0 <= MetricsCalculator._calculate_small_world_coefficient 0.5 2 4 4)%Q.
Proof.
  split; [by vm_compute|]. split; [by vm_compute|].
  apply (small_world_coefficient_nonneg 0.5 2 4 4); by vm_compute.
Defined.

(** The vulnerability of the middle node of the chain. *)
Lemma vulnerability_bounds_chain :
  let r :=
    (MetricsCalculator.calculate_all (MetricsCalculator.make 0) [chain]).1 in
  ∃ nm, r.2 !! "b" = Some nm ∧
    (vulnerability_score nm <= 0.6 * betweenness_centrality nm + 0.4)%Q ∧
    (Forall (λ e, 0 <= call_rate_of e)%Q (nx.edges chain) →
     (0 <= 0.6 * betweenness_centrality nm <= vulnerability_score nm)%Q).
Proof.
  cbv zeta. eexists. split; [vm_compute; reflexivity|].
  apply (vulnerability_bounds (MetricsCalculator.make 0) [chain] "b").
  vm_compute. reflexivity.
Defined.

(** The two best shortcuts of the chain are the first two of its five
    best. *)
Lemma find_shortcuts_top_k_chain :
  (0 ≤ 2 ≤ 5)%Z ∧
  length (ShortcutOptimizer.find_shortcuts (ShortcutOptimizer.make 0) 2 None
            [chain]).1 ≤ Z.to_nat 2 ∧
  (ShortcutOptimizer.find_shortcuts (ShortcutOptimizer.make 0) 2 None
     [chain]).1 =
  take (Z.to_nat 2)
    (ShortcutOptimizer.find_shortcuts (ShortcutOptimizer.make 0) 5 None
       [chain]).1.
Proof.
  split; [lia|].
  apply (find_shortcuts_top_k (ShortcutOptimizer.make 0) 2 5 None [chain]).
  lia.
Defined.

(** The shortcuts of the chain join distinct pairs. *)
Lemma find_shortcuts_no_duplicates_chain :
  NoDup (nx.nodes chain) ∧
  NoDup (pair_of <$>
         (ShortcutOptimizer.find_shortcuts (ShortcutOptimizer.make 0) 5 None
            [chain]).1).
Proof.
  split; [apply build_from_topology_is_well_formed|].
  apply (find_shortcuts_no_duplicates (ShortcutOptimizer.make 0) 5 None
           [chain]).
  apply build_from_topology_is_well_formed.
Defined.
